(** * LogDbgView: capture of Win32 OutputDebugString messages to a log file

    A shallow embedding of [logdbgview.py].  The Python module defines two
    classes behind one interface: [LogDbgView], whose methods do nothing, and
    [LogDbgViewReal], a [threading.Thread] that attaches to the DBWIN shared
    buffer and its two named events, and copies every message it receives to
    a log file until it is told to stop.

    The development has three layers:
    - the byte layer: [struct.unpack], the NUL search, [str(_, 'UTF-8')] and
      [str.format], as pure functions on [list byte];
    - the machine: the operating-system objects the module touches, the
      attributes of the [LogDbgViewReal] instance and its background thread,
      with the methods of both classes as state-passing functions that can
      raise;
    - programs: the explicit [start()] ... [close()] form and the [with]
      statement, run against a schedule of producer deposits and background
      thread steps. *)

From Stdlib Require Import ZArith List Lia String Ascii DecimalString Bool.
From Stdlib.Strings Require Import Byte.
From stdpp Require Import gmap strings.
Import ListNotations.
Open Scope Z_scope.

(** ** The byte layer *)

Module Bytes.

(** A Python [str] is a sequence of code points. *)
Definition pystr := list Z.

Definition byte_val (b : byte) : Z := Z.of_N (Byte.to_N b).

Definition of_ascii (s : string) : pystr :=
  map (fun c => Z.of_N (N_of_ascii c)) (list_ascii_of_string s).

(** [struct.unpack('L', bs)] on Windows: a native unsigned long is four
    bytes, least significant first; any other length is a [struct.error]. *)
Definition unpack_L (bs : list byte) : option Z :=
  match bs with
  | [b0; b1; b2; b3] =>
      Some (byte_val b0 + 256 * byte_val b1 + 65536 * byte_val b2
            + 16777216 * byte_val b3)
  | _ => None
  end.

(** [0 in data] *)
Definition contains0 (data : list byte) : bool :=
  existsb (fun b => byte_val b =? 0) data.

(** [data.index(0)], the position of the first zero byte.  Python raises
    [ValueError] when there is none; the source only calls it under
    [0 in data], and here it counts to the end of the list. *)
Fixpoint index0 (data : list byte) : nat :=
  match data with
  | [] => O
  | b :: rest => if byte_val b =? 0 then O else S (index0 rest)
  end.

(** [data[:n]] *)
Definition slice_to (n : nat) (data : list byte) : list byte := firstn n data.

Definition is_cont (b : byte) : bool :=
  (0x80 <=? byte_val b) && (byte_val b <=? 0xBF).

Definition in_range (lo hi : Z) (b : byte) : bool :=
  (lo <=? byte_val b) && (byte_val b <=? hi).

Definition cont_bits (b : byte) : Z := byte_val b - 0x80.

(** [str(bs, 'UTF-8')] with the default strict error handler: [None] stands
    for [UnicodeDecodeError].  Shortest forms only, no surrogates, nothing
    above U+10FFFF. *)
Fixpoint utf8_decode (bs : list byte) : option pystr :=
  match bs with
  | [] => Some []
  | b0 :: r0 =>
      let x0 := byte_val b0 in
      if x0 <? 0x80 then option_map (cons x0) (utf8_decode r0)
      else if in_range 0xC2 0xDF b0 then
        match r0 with
        | b1 :: r1 =>
            if is_cont b1
            then option_map (cons ((x0 - 0xC0) * 64 + cont_bits b1))
                            (utf8_decode r1)
            else None
        | _ => None
        end
      else if in_range 0xE0 0xEF b0 then
        match r0 with
        | b1 :: b2 :: r2 =>
            if in_range (if x0 =? 0xE0 then 0xA0 else 0x80)
                        (if x0 =? 0xED then 0x9F else 0xBF) b1
               && is_cont b2
            then option_map
                   (cons ((x0 - 0xE0) * 4096 + cont_bits b1 * 64 + cont_bits b2))
                   (utf8_decode r2)
            else None
        | _ => None
        end
      else if in_range 0xF0 0xF4 b0 then
        match r0 with
        | b1 :: b2 :: b3 :: r3 =>
            if in_range (if x0 =? 0xF0 then 0x90 else 0x80)
                        (if x0 =? 0xF4 then 0x8F else 0xBF) b1
               && is_cont b2 && is_cont b3
            then option_map
                   (cons ((x0 - 0xF0) * 262144 + cont_bits b1 * 4096
                          + cont_bits b2 * 64 + cont_bits b3))
                   (utf8_decode r3)
            else None
        | _ => None
        end
      else None
  end.

(** The UTF-8 encoding of one code point, as byte values. *)
Definition utf8_encode_cp (c : Z) : list Z :=
  if c <? 0x80 then [c]
  else if c <? 0x800 then [0xC0 + c / 64; 0x80 + c mod 64]
  else if c <? 0x10000 then
    [0xE0 + c / 4096; 0x80 + (c / 64) mod 64; 0x80 + c mod 64]
  else
    [0xF0 + c / 262144; 0x80 + (c / 4096) mod 64; 0x80 + (c / 64) mod 64;
     0x80 + c mod 64].

Definition utf8_encode (s : pystr) : list Z := flat_map utf8_encode_cp s.

(** [str(n)] for a non-negative integer: decimal, no leading zeros. *)
Definition decimal (n : Z) : pystr :=
  of_ascii (NilZero.string_of_uint (N.to_uint (Z.to_N n))).

(** ['Process {p}: {s}\n'.format(p=process_id, s=string)] *)
Definition format_line (process_id : Z) (s : pystr) : pystr :=
  of_ascii "Process " ++ decimal process_id ++ of_ascii ": " ++ s ++ [10].

(** The payload selection of [run]: up to the first zero byte when there is
    one, the whole of [data] otherwise. *)
Definition payload_bytes (data : list byte) : list byte :=
  if contains0 data then slice_to (index0 data) data else data.

(** [s.encode(encoding)] with the default strict error handler succeeds:
    every character of [s] is one the encoding has.  [repertoire] tells
    which characters beyond ASCII it has; the ANSI code pages of Windows
    all encode U+0000 .. U+007F. *)
Definition encodable (repertoire : Z -> bool) (s : pystr) : bool :=
  forallb (fun c => (c <? 0x80) || repertoire c) s.

(** The repertoire of code page 1252 beyond ASCII: U+00A0 .. U+00FF and the
    27 characters of the bytes 0x80 .. 0x9F that are defined. *)
Definition cp1252 (c : Z) : bool :=
  ((0xA0 <=? c) && (c <=? 0xFF))
  || existsb (Z.eqb c)
       [0x20AC; 0x201A; 0x0192; 0x201E; 0x2026; 0x2020; 0x2021; 0x02C6;
        0x2030; 0x0160; 0x2039; 0x0152; 0x017D; 0x2018; 0x2019; 0x201C;
        0x201D; 0x2022; 0x2013; 0x2014; 0x02DC; 0x2122; 0x0161; 0x203A;
        0x0153; 0x017E; 0x0178].

End Bytes.

(** ** The machine *)

Module Machine.
Import Bytes.

Inductive exn : Type :=
| OSError             (* [open] or [mmap.mmap] refused *)
| pywintypes_error    (* a [win32event] call failed *)
| struct_error
| UnicodeDecodeError
| UnicodeEncodeError  (* [write] of text the file's encoding does not have *)
| ValueError          (* I/O operation on a closed file or mapping *)
| RuntimeError        (* [threading]: started twice, joined before started *)
| AttributeError.

(** What the constructor of [LogDbgViewReal] asks the system for. *)
Inductive resource : Type :=
| ResLogFile | ResBufferReady | ResDataReady | ResStop | ResBuffer.

(** The three auto-reset events of a session. *)
Inductive handle : Type := H_BUFFER_READY | H_DATA_READY | H_STOP.

(** Where the background thread stands. *)
Inductive thread_state : Type :=
| NoThread            (* [Thread.__init__] has not run *)
| Initial             (* constructed, [start()] not called *)
| AtTop               (* in [run], about to execute the loop body *)
| InWait              (* in [run], inside [WaitForMultipleObjects] *)
| Stopped             (* [run] returned through [break] *)
| Died (e : exn).     (* [run] ended by an uncaught exception *)

Definition running (t : thread_state) : bool :=
  match t with AtTop | InWait => true | _ => false end.

Definition was_started (t : thread_state) : bool :=
  match t with NoThread | Initial => false | _ => true end.

Record file_object : Type := { fname : string; fclosed : bool }.
Record mmap_object : Type := { mclosed : bool; mpos : nat }.

(** What the session asks of the system from the controlling thread, in
    order: the acquisitions of the constructor, the start of the thread and
    the calls of [close]. *)
Inductive call : Type :=
| OpenForWriting (name : string)
| CreateEvent (name : option string)
| MapBuffer (tagname : string)
| StartThread
| SetEvent (h : handle)
| JoinThread
| UnmapBuffer
| CloseFile (name : string).

Record machine : Type := mkMachine {
  (* the operating system *)
  files : gmap string pystr;          (* file name to characters written *)
  DBWIN_BUFFER_READY : option bool;   (* named event: exists? signaled? *)
  DBWIN_DATA_READY : option bool;
  DBWIN_BUFFER : option (list byte);  (* named section and its bytes *)
  refused : resource -> bool;         (* what the system will not grant *)
  code_page : Z -> bool;              (* the preferred encoding of the locale:
                                         the characters beyond ASCII it has *)
  (* the attributes of the LogDbgViewReal instance, once assigned *)
  log_file : option file_object;
  stop : option bool;                 (* the private event: signaled? *)
  buffer_length : option Z;
  buffer : option mmap_object;
  thread : thread_state;
  (* the calls of the controlling thread, oldest first *)
  calls : list call
}.

Definition set_files (v : gmap string pystr) (m : machine) : machine :=
  mkMachine v (DBWIN_BUFFER_READY m) (DBWIN_DATA_READY m) (DBWIN_BUFFER m)
    (refused m) (code_page m) (log_file m) (stop m) (buffer_length m) (buffer m) (thread m)
    (calls m).
Definition set_DBWIN_BUFFER_READY (v : option bool) (m : machine) : machine :=
  mkMachine (files m) v (DBWIN_DATA_READY m) (DBWIN_BUFFER m)
    (refused m) (code_page m) (log_file m) (stop m) (buffer_length m) (buffer m) (thread m)
    (calls m).
Definition set_DBWIN_DATA_READY (v : option bool) (m : machine) : machine :=
  mkMachine (files m) (DBWIN_BUFFER_READY m) v (DBWIN_BUFFER m)
    (refused m) (code_page m) (log_file m) (stop m) (buffer_length m) (buffer m) (thread m)
    (calls m).
Definition set_DBWIN_BUFFER (v : option (list byte)) (m : machine) : machine :=
  mkMachine (files m) (DBWIN_BUFFER_READY m) (DBWIN_DATA_READY m) v
    (refused m) (code_page m) (log_file m) (stop m) (buffer_length m) (buffer m) (thread m)
    (calls m).
Definition set_log_file (v : option file_object) (m : machine) : machine :=
  mkMachine (files m) (DBWIN_BUFFER_READY m) (DBWIN_DATA_READY m) (DBWIN_BUFFER m)
    (refused m) (code_page m) v (stop m) (buffer_length m) (buffer m) (thread m)
    (calls m).
Definition set_stop (v : option bool) (m : machine) : machine :=
  mkMachine (files m) (DBWIN_BUFFER_READY m) (DBWIN_DATA_READY m) (DBWIN_BUFFER m)
    (refused m) (code_page m) (log_file m) v (buffer_length m) (buffer m) (thread m)
    (calls m).
Definition set_buffer_length (v : option Z) (m : machine) : machine :=
  mkMachine (files m) (DBWIN_BUFFER_READY m) (DBWIN_DATA_READY m) (DBWIN_BUFFER m)
    (refused m) (code_page m) (log_file m) (stop m) v (buffer m) (thread m)
    (calls m).
Definition set_buffer (v : option mmap_object) (m : machine) : machine :=
  mkMachine (files m) (DBWIN_BUFFER_READY m) (DBWIN_DATA_READY m) (DBWIN_BUFFER m)
    (refused m) (code_page m) (log_file m) (stop m) (buffer_length m) v (thread m)
    (calls m).
Definition set_thread (v : thread_state) (m : machine) : machine :=
  mkMachine (files m) (DBWIN_BUFFER_READY m) (DBWIN_DATA_READY m) (DBWIN_BUFFER m)
    (refused m) (code_page m) (log_file m) (stop m) (buffer_length m) (buffer m) v
    (calls m).
Definition record_call (c : call) (m : machine) : machine :=
  mkMachine (files m) (DBWIN_BUFFER_READY m) (DBWIN_DATA_READY m) (DBWIN_BUFFER m)
    (refused m) (code_page m) (log_file m) (stop m) (buffer_length m) (buffer m) (thread m)
    (calls m ++ [c]).

(** A machine on which no session has been constructed. *)
Definition boot (fs : gmap string pystr) (refuse : resource -> bool)
  (repertoire : Z -> bool) : machine :=
  mkMachine fs None None None refuse repertoire None None None None NoThread [].

(** *** Computations that can raise or never return *)

Inductive outcome (A : Type) : Type :=
| Ok (a : A) (m : machine)
| Raise (e : exn) (m : machine)
| Hang (m : machine).
Arguments Ok {A} a m.
Arguments Raise {A} e m.
Arguments Hang {A} m.

Definition M (A : Type) : Type := machine -> outcome A.

Definition ret {A} (a : A) : M A := fun m => Ok a m.
Definition raise {A} (e : exn) : M A := fun m => Raise e m.
Definition bind {A B} (c : M A) (k : A -> M B) : M B :=
  fun m =>
    match c m with
    | Ok a m' => k a m'
    | Raise e m' => Raise e m'
    | Hang m' => Hang m'
    end.
Definition modify (f : machine -> machine) : M unit := fun m => Ok tt (f m).

Notation "x <- c ;; k" := (bind c (fun x => k))
  (at level 100, c at next level, right associativity).
Notation "c ;; k" := (bind c (fun _ => k))
  (at level 100, right associativity).

Definition final {A} (o : outcome A) : machine :=
  match o with Ok _ m | Raise _ m | Hang m => m end.

(** *** Events *)

Definition event_state (h : handle) (m : machine) : option bool :=
  match h with
  | H_BUFFER_READY => DBWIN_BUFFER_READY m
  | H_DATA_READY => DBWIN_DATA_READY m
  | H_STOP => stop m
  end.

Definition set_event_state (h : handle) (v : option bool) (m : machine) : machine :=
  match h with
  | H_BUFFER_READY => set_DBWIN_BUFFER_READY v m
  | H_DATA_READY => set_DBWIN_DATA_READY v m
  | H_STOP => set_stop v m
  end.

Definition signaled (h : handle) (m : machine) : bool :=
  match event_state h m with Some true => true | _ => false end.

(** [win32event.SetEvent(h)].  An event attribute that was never assigned
    cannot be read. *)
Definition SetEvent_ (h : handle) : M unit := fun m =>
  match event_state h m with
  | Some _ => Ok tt (set_event_state h (Some true) m)
  | None => Raise AttributeError m
  end.

Definition WAIT_OBJECT_0 : Z := 0.

(** The first signaled event of [events], with its index. *)
Fixpoint first_signaled (events : list handle) (i : Z) (m : machine)
  : option (Z * handle) :=
  match events with
  | [] => None
  | h :: rest =>
      if signaled h m then Some (i, h) else first_signaled rest (i + 1) m
  end.

(** [win32event.WaitForMultipleObjects(events, 0, INFINITE)]: with
    [bWaitAll] false the call is satisfied by the signaled event of smallest
    index; that event, being auto-reset, is reset, the others are left as
    they are.  [None] when no event is signaled: the caller stays blocked. *)
Definition WaitForMultipleObjects (events : list handle) (m : machine)
  : option (Z * machine) :=
  match first_signaled events 0 m with
  | Some (i, h) => Some (WAIT_OBJECT_0 + i, set_event_state h (Some false) m)
  | None => None
  end.

(** *** Files, the mapping, text *)

(** [open(name, 'w')]: the file is created or truncated. *)
Definition open_w (name : string) : M file_object := fun m =>
  if refused m ResLogFile then Raise OSError m
  else Ok {| fname := name; fclosed := false |}
          (record_call (OpenForWriting name)
             (set_files (<[name := []]> (files m)) m)).

(** [self.log_file.write(s)].  The file was opened by [open(name, 'w')]
    with no [encoding], so it encodes with the preferred encoding of the
    locale, which does not change while the process runs: text with a
    character that encoding does not have raises [UnicodeEncodeError], and
    nothing of it is written.  The sink is modelled at the text layer: the
    file holds the characters written to it. *)
Definition log_file_write (s : pystr) : M unit := fun m =>
  match log_file m with
  | None => Raise AttributeError m
  | Some f =>
      if fclosed f then Raise ValueError m
      else if encodable (code_page m) s then
        Ok tt (set_files
                 (<[fname f := default [] (files m !! fname f) ++ s]> (files m))
                 m)
      else Raise UnicodeEncodeError m
  end.

(** [self.log_file.close()]: closing a closed file does nothing. *)
Definition log_file_close : M unit := fun m =>
  match log_file m with
  | None => Raise AttributeError m
  | Some f =>
      if fclosed f then Ok tt m
      else Ok tt (record_call (CloseFile (fname f))
                    (set_log_file (Some {| fname := fname f; fclosed := true |}) m))
  end.

Definition event_name (h : handle) : option string :=
  match h with
  | H_BUFFER_READY => Some "DBWIN_BUFFER_READY"%string
  | H_DATA_READY => Some "DBWIN_DATA_READY"%string
  | H_STOP => None
  end.

Definition event_resource (h : handle) : resource :=
  match h with
  | H_BUFFER_READY => ResBufferReady
  | H_DATA_READY => ResDataReady
  | H_STOP => ResStop
  end.

(** [win32event.CreateEvent(None, 0, 0, name)]: auto-reset, initially not
    signaled.  A named event that exists already is opened as it is. *)
Definition CreateEvent_ (h : handle) : M unit := fun m =>
  if refused m (event_resource h) then Raise pywintypes_error m
  else Ok tt (record_call (CreateEvent (event_name h))
                (set_event_state h
                   (match event_name h, event_state h m with
                    | Some _, Some s => Some s
                    | _, _ => Some false
                    end) m)).

(** [mmap.mmap(0, length, tagname, mmap.ACCESS_WRITE)]: a view of [length]
    bytes of the named section, which is created zero-filled when absent;
    a section shorter than the view cannot be mapped. *)
Definition mmap_mmap (length : Z) (tagname : string) : M mmap_object := fun m =>
  if refused m ResBuffer then Raise OSError m
  else
    match DBWIN_BUFFER m with
    | Some bs =>
        if (Z.of_nat (List.length bs) <? length) then Raise OSError m
        else Ok {| mclosed := false; mpos := 0 |} (record_call (MapBuffer tagname) m)
    | None =>
        Ok {| mclosed := false; mpos := 0 |}
           (record_call (MapBuffer tagname)
              (set_DBWIN_BUFFER (Some (repeat x00 (Z.to_nat length))) m))
    end.

(** The bytes the view shows. *)
Definition view (m : machine) : list byte :=
  match DBWIN_BUFFER m, buffer_length m with
  | Some bs, Some len => firstn (Z.to_nat len) bs
  | _, _ => []
  end.

(** [self.buffer.seek(pos)] *)
Definition buffer_seek (pos : nat) : M unit := fun m =>
  match buffer m with
  | None => Raise AttributeError m
  | Some b =>
      if mclosed b then Raise ValueError m
      else Ok tt (set_buffer (Some {| mclosed := false; mpos := pos |}) m)
  end.

(** [self.buffer.read(n)] *)
Definition buffer_read (n : Z) : M (list byte) := fun m =>
  match buffer m with
  | None => Raise AttributeError m
  | Some b =>
      if mclosed b then Raise ValueError m
      else
        let got := firstn (Z.to_nat n) (skipn (mpos b) (view m)) in
        Ok got (set_buffer (Some {| mclosed := false;
                                    mpos := (mpos b + List.length got)%nat |}) m)
  end.

(** [self.buffer.close()]: closing a closed mapping does nothing. *)
Definition buffer_close : M unit := fun m =>
  match buffer m with
  | None => Raise AttributeError m
  | Some b =>
      if mclosed b then Ok tt m
      else Ok tt (record_call UnmapBuffer
                    (set_buffer (Some {| mclosed := true; mpos := mpos b |}) m))
  end.

Definition struct_unpack_L (bs : list byte) : M Z :=
  match unpack_L bs with
  | Some n => ret n
  | None => raise struct_error
  end.

Definition str_utf8 (bs : list byte) : M pystr :=
  match utf8_decode bs with
  | Some s => ret s
  | None => raise UnicodeDecodeError
  end.

Definition get_buffer_length : M Z := fun m =>
  match buffer_length m with
  | Some n => Ok n m
  | None => Raise AttributeError m
  end.

(** *** The background thread: [LogDbgViewReal.run] *)

Inductive loop_ctl : Type := Continue | Break.

Definition process_id_length : Z := 4.

(** [events = [self.data_ready, self.stop]] *)
Definition events : list handle := [H_DATA_READY; H_STOP].

(** The data-ready branch: read the identifier and the payload, decode,
    write the line. *)
Definition on_data_ready (remaining_length : Z) : M unit :=
  buffer_seek 0 ;;
  raw <- buffer_read process_id_length ;;
  process_id <- struct_unpack_L raw ;;
  data <- buffer_read remaining_length ;;
  string <- (if contains0 data
             then str_utf8 (slice_to (index0 data) data)
             else str_utf8 data) ;;
  log_file_write (format_line process_id string).

(** The loop body from the return of the wait on.  [remaining_length] is
    computed once before the loop in the source; [buffer_length] is never
    reassigned, so reading it here gives the same value. *)
Definition after_wait (result : Z) : M loop_ctl :=
  buffer_length <- get_buffer_length ;;
  let remaining_length := buffer_length - process_id_length in
  if result =? WAIT_OBJECT_0 then
    on_data_ready remaining_length ;; ret Continue
  else if result =? WAIT_OBJECT_0 + 1 then ret Break
  else ret Continue.

(** One step of the thread: arming buffer-ready, or one attempt to leave
    the wait followed by the branch it selects. *)
Definition bg_step (m : machine) : machine :=
  match thread m with
  | AtTop =>
      match SetEvent_ H_BUFFER_READY m with
      | Ok _ m' => set_thread InWait m'
      | Raise e m' => set_thread (Died e) m'
      | Hang m' => m'
      end
  | InWait =>
      match WaitForMultipleObjects events m with
      | None => m
      | Some (result, m1) =>
          match after_wait result m1 with
          | Ok Continue m2 => set_thread AtTop m2
          | Ok Break m2 => set_thread Stopped m2
          | Raise e m2 => set_thread (Died e) m2
          | Hang m2 => m2
          end
      end
  | _ => m
  end.

(** *** The rest of the system *)

(** What happens while the controlling thread is busy or blocked: a producer
    deposits bytes, or the background thread gets to run a step. *)
Inductive occurrence : Type :=
| Deposit (bytes : list byte)
| Background.

(** A producer that finds buffer-ready signaled takes it, writes its bytes
    at the start of the section over what was there, and signals data-ready.
    One that does not find it (or finds no listener) gives up. *)
Definition deposit (bytes : list byte) (m : machine) : machine :=
  match DBWIN_BUFFER_READY m, DBWIN_DATA_READY m, DBWIN_BUFFER m with
  | Some true, Some _, Some old =>
      set_DBWIN_DATA_READY (Some true)
        (set_DBWIN_BUFFER
           (Some (firstn (List.length old) (bytes ++ skipn (List.length bytes) old)))
           (set_DBWIN_BUFFER_READY (Some false) m))
  | _, _, _ => m
  end.

Definition occur (o : occurrence) (m : machine) : machine :=
  match o with
  | Deposit bytes => deposit bytes m
  | Background => bg_step m
  end.

Definition elapse (os : list occurrence) (m : machine) : machine :=
  fold_left (fun m o => occur o m) os m.

(** What happens during a join, up to the exit of the thread. *)
Fixpoint await_exit (during : list occurrence) (m : machine) : machine :=
  match during with
  | [] => m
  | o :: rest =>
      if running (thread m) then await_exit rest (occur o m) else m
  end.

(** [Thread.start()] *)
Definition Thread_start : M unit := fun m =>
  match thread m with
  | Initial => Ok tt (record_call StartThread (set_thread AtTop m))
  | _ => Raise RuntimeError m
  end.

(** [Thread.join()], no timeout: returns once the thread has exited.  After
    the occurrences of [during] the thread runs on its own; four steps take
    it from anywhere in the loop to its exit when stop is signaled, and a
    thread still running after them is blocked for good. *)
Definition Thread_join (during : list occurrence) : M unit := fun m =>
  if was_started (thread m) then
    let m' := Nat.iter 4 bg_step (await_exit during m) in
    if running (thread m') then Hang m'
    else Ok tt (record_call JoinThread m')
  else Raise RuntimeError m.

End Machine.

(** ** The classes *)

Import Bytes Machine.

Module LogDbgView.

(** [LogDbgView.__init__]: [pass] *)
Definition __init__ (log_file_name : string) : M unit := ret tt.

(** [LogDbgView.start]: [pass] *)
Definition start : M unit := ret tt.

(** [LogDbgView.close]: [pass] *)
Definition close : M unit := ret tt.

End LogDbgView.

Module LogDbgViewReal.

(** [LogDbgViewReal.__init__] *)
Definition __init__ (log_file_name : string) : M unit :=
  modify (set_thread Initial) ;;                      (* super().__init__() *)
  f <- open_w log_file_name ;;
  modify (set_log_file (Some f)) ;;
  CreateEvent_ H_BUFFER_READY ;;
  CreateEvent_ H_DATA_READY ;;
  CreateEvent_ H_STOP ;;
  modify (set_buffer_length (Some 4096)) ;;
  b <- mmap_mmap 4096 "DBWIN_BUFFER" ;;
  modify (set_buffer (Some b)).

(** [LogDbgViewReal.close] *)
Definition close (during : list occurrence) : M unit :=
  SetEvent_ H_STOP ;;
  modify (record_call (SetEvent H_STOP)) ;;
  Thread_join during ;;
  buffer_close ;;
  log_file_close.

End LogDbgViewReal.

(** Which class an object is an instance of. *)
Inductive instance : Type := LogDbgView_object | LogDbgViewReal_object.

Inductive pyvalue : Type :=
| PyNone
| PyBool (b : bool)
| PyInt (n : Z)
| PyObject (o : instance).

(** [v == True] *)
Definition eq_True (v : pyvalue) : bool :=
  match v with
  | PyBool b => b
  | PyInt n => n =? 1
  | _ => false
  end.

(** Method resolution.  [LogDbgViewReal(threading.Thread, LogDbgView)] finds
    [start] in [Thread] and [close] in itself; [__enter__] and [__exit__]
    are found in [LogDbgView] for both classes. *)
Definition start (self : instance) : M unit :=
  match self with
  | LogDbgView_object => LogDbgView.start
  | LogDbgViewReal_object => Thread_start
  end.

Definition close (self : instance) (during : list occurrence) : M unit :=
  match self with
  | LogDbgView_object => LogDbgView.close
  | LogDbgViewReal_object => LogDbgViewReal.close during
  end.

(** [LogDbgView.__enter__]: [self.start()], and no [return]. *)
Definition __enter__ (self : instance) : M pyvalue :=
  start self ;; ret PyNone.

(** [LogDbgView.__exit__]: [self.close()], and no [return]. *)
Definition __exit__ (self : instance) (during : list occurrence) : M pyvalue :=
  close self during ;; ret PyNone.

(** [LogDbgView.makeLogDbgView] *)
Definition makeLogDbgView (log_debug_strings : pyvalue) (log_file_name : string)
  : M instance :=
  if eq_True log_debug_strings
  then LogDbgViewReal.__init__ log_file_name ;; ret LogDbgViewReal_object
  else LogDbgView.__init__ log_file_name ;; ret LogDbgView_object.

(** ** Programs *)

(** The operations of the session interface. *)
Inductive method : Type := m_start | m_close | m_enter | m_exit.

(** [v.method()].  [None], booleans and integers have none of the session's
    methods. *)
Definition call_method (v : pyvalue) (a : method) (during : list occurrence)
  : M pyvalue :=
  match v with
  | PyObject o =>
      match a with
      | m_start => start o ;; ret PyNone
      | m_close => close o during ;; ret PyNone
      | m_enter => __enter__ o
      | m_exit => __exit__ o during
      end
  | _ => raise AttributeError
  end.

(** Statements of a body: time passes, or a method of the bound name is
    called. *)
Inductive stmt : Type :=
| Meanwhile (o : occurrence)
| Invoke (a : method) (during : list occurrence).

Definition exec_stmt (x : pyvalue) (s : stmt) : M unit :=
  match s with
  | Meanwhile o => modify (occur o)
  | Invoke a during => call_method x a during ;; ret tt
  end.

Fixpoint exec (x : pyvalue) (body : list stmt) : M unit :=
  match body with
  | [] => ret tt
  | s :: rest => exec_stmt x s ;; exec x rest
  end.

Definition truthy (v : pyvalue) : bool :=
  match v with
  | PyNone => false
  | PyBool b => b
  | PyInt n => negb (n =? 0)
  | PyObject _ => true
  end.

(** [with mgr as x: body].  [__enter__] runs first and its value is bound;
    [__exit__] runs on every way out of the body, and an exception of the
    body is raised again unless [__exit__] returns a true value. *)
Definition with_stmt (mgr : instance) (body : list stmt)
  (during : list occurrence) : M unit := fun m =>
  match __enter__ mgr m with
  | Ok x m1 =>
      match exec x body m1 with
      | Ok _ m2 =>
          match __exit__ mgr during m2 with
          | Ok _ m3 => Ok tt m3
          | Raise e m3 => Raise e m3
          | Hang m3 => Hang m3
          end
      | Raise e m2 =>
          match __exit__ mgr during m2 with
          | Ok r m3 => if truthy r then Ok tt m3 else Raise e m3
          | Raise e' m3 => Raise e' m3
          | Hang m3 => Hang m3
          end
      | Hang m2 => Hang m2
      end
  | Raise e m1 => Raise e m1
  | Hang m1 => Hang m1
  end.

(** The explicit form, as in [LogDbgView.test]:
    [ldv = makeLogDbgView(..); ldv.start(); body; ldv.close()] *)
Definition explicit_form (log_debug_strings : pyvalue) (log_file_name : string)
  (body : list stmt) (during : list occurrence) : M unit :=
  ldv <- makeLogDbgView log_debug_strings log_file_name ;;
  start ldv ;;
  exec (PyObject ldv) body ;;
  close ldv during.

(** The scoped form: [with makeLogDbgView(..) as x: body] *)
Definition scoped_form (log_debug_strings : pyvalue) (log_file_name : string)
  (body : list stmt) (during : list occurrence) : M unit :=
  mgr <- makeLogDbgView log_debug_strings log_file_name ;;
  with_stmt mgr body during.

(** A channel snapshot as a producer writes it: four identifier bytes, then
    the payload. *)
Definition le32 (n : Z) : list byte :=
  map (fun k => match Byte.of_N (Z.to_N ((n / 256 ^ k) mod 256)) with
                | Some b => b
                | None => x00
                end) [0; 1; 2; 3].

Definition message (process_id : Z) (payload : list byte) : list byte :=
  le32 process_id ++ payload.

(** ** Vocabulary of the statements *)

Definition assigned {A} (o : option A) : bool :=
  match o with Some _ => true | None => false end.

(** The constructor of [LogDbgViewReal] has returned: every attribute is
    assigned and the view fits in the section. *)
Definition constructed (m : machine) : bool :=
  assigned (DBWIN_BUFFER_READY m) && assigned (DBWIN_DATA_READY m)
  && assigned (stop m)
  && match buffer_length m with Some n => n =? 4096 | None => false end
  && match DBWIN_BUFFER m with
     | Some bs => (4096 <=? List.length bs)%nat
     | None => false
     end
  && assigned (log_file m) && assigned (buffer m).

(** The log file and the mapping are open. *)
Definition session_open (m : machine) : bool :=
  match log_file m, buffer m with
  | Some f, Some b => negb (fclosed f) && negb (mclosed b)
  | _, _ => false
  end.

(** [start()] has been called on a constructed session. *)
Definition started (m : machine) : bool :=
  constructed m && was_started (thread m).

(** The text of the session's log. *)
Definition log_text (m : machine) : pystr :=
  match log_file m with
  | Some f => default [] (files m !! fname f)
  | None => []
  end.

(** The two fields of a channel snapshot. *)
Definition id_field (snapshot : list byte) : list byte := firstn 4 snapshot.
Definition payload_region (snapshot : list byte) : list byte := skipn 4 snapshot.

Definition process_id_of (snapshot : list byte) : Z :=
  match unpack_L (id_field snapshot) with Some n => n | None => 0 end.

Definition is_acquisition (c : call) : bool :=
  match c with
  | OpenForWriting _ | CreateEvent _ | MapBuffer _ => true
  | _ => false
  end.

(** What [close] releases on a given machine. *)
Definition releases (m : machine) : list call :=
  match buffer m with
  | Some b => if mclosed b then [] else [UnmapBuffer]
  | None => []
  end ++
  match log_file m with
  | Some f => if fclosed f then [] else [CloseFile (fname f)]
  | None => []
  end.

(** Sample machines and messages for the examples. *)
Definition bytes_of (s : string) : list byte :=
  map byte_of_ascii (list_ascii_of_string s).

Definition send (process_id : Z) (text : string) : list occurrence :=
  [Background; Deposit (message process_id (bytes_of text ++ [x00])); Background].

Definition fresh_host : machine :=
  boot (<["L"%string := of_ascii "stale"]> ∅) (fun _ => false) cp1252.

Definition host_refusing (r0 : resource) : machine :=
  boot (<["L"%string := of_ascii "stale"]> ∅)
    (fun r => match r0, r with
              | ResLogFile, ResLogFile
              | ResBufferReady, ResBufferReady
              | ResDataReady, ResDataReady
              | ResStop, ResStop
              | ResBuffer, ResBuffer => true
              | _, _ => false
              end)
    cp1252.

(** The name of the session's log file. *)
Definition log_name (m : machine) : string :=
  match log_file m with Some f => fname f | None => EmptyString end.

(** The system grants every resource, and an existing section is large
    enough for the view. *)
Definition grants_all (m : machine) : bool :=
  forallb (fun r => negb (refused m r))
    [ResLogFile; ResBufferReady; ResDataReady; ResStop; ResBuffer]
  && match DBWIN_BUFFER m with
     | Some bs => (4096 <=? List.length bs)%nat
     | None => true
     end.

(** A started session on [fresh_host] after the given occurrences. *)
Definition session_after (os : list occurrence) : machine :=
  elapse os
    (final ((makeLogDbgView (PyBool true) "L" ;; start LogDbgViewReal_object)
              fresh_host)).

(** A session in its wait, holding the message [(100, "foo")]. *)
Definition holding_foo : machine :=
  session_after [Background; Deposit (message 100 (bytes_of "foo" ++ [x00]))].

(** A session in its wait, holding a message whose payload starts with the
    byte 0xFF. *)
Definition holding_invalid : machine :=
  session_after [Background; Deposit (message 7 [xff; x00])].

(** A session in its wait, holding a message whose payload is the first byte
    of a two-byte sequence, then a NUL. *)
Definition holding_cut_short : machine :=
  session_after [Background; Deposit (message 7 [xc3; x00; xa9])].

(** A session in its wait, holding a message whose payload is the UTF-8
    form of U+4E2D, a character code page 1252 does not have. *)
Definition holding_unencodable : machine :=
  session_after [Background; Deposit (message 7 [xe4; xb8; xad; x00])].

(** The controller's [SetEvent(self.stop)], the first statement of [close]. *)
Definition signal_stop (m : machine) : machine := final (SetEvent_ H_STOP m).

(** A session in its wait with a message pending when the controller
    signals stop; the payload is a lone continuation byte. *)
Definition both_signaled_invalid : machine :=
  signal_stop (session_after [Background; Deposit (message 7 [x80; x00])]).

(** The same with the message [(100, "foo")] pending. *)
Definition both_signaled_foo : machine := signal_stop holding_foo.

(** A session in its wait, nothing pending, when the controller signals
    stop. *)
Definition stop_signaled : machine := signal_stop (session_after [Background]).

(** A session that has logged three messages. *)
Definition after_three : machine :=
  session_after (send 100 "foo" ++ send 100 "bar" ++ send 200 "baz").

(** ** Vocabulary of the proofs *)

(** What a step of the background thread, or a deposit, cannot change. *)
Record frame (m m' : machine) : Prop := {
  frame_refused : refused m' = refused m;
  frame_log_file : log_file m' = log_file m;
  frame_buffer_length : buffer_length m' = buffer_length m;
  frame_mclosed : option_map mclosed (buffer m') = option_map mclosed (buffer m);
  frame_calls : calls m' = calls m;
  frame_code_page : code_page m' = code_page m
}.

(** What the data-ready branch cannot change: everything but the text of the
    files and the position in the mapping. *)
Record inert (m m' : machine) : Prop := {
  inert_frame : frame m m';
  inert_buffer_ready : DBWIN_BUFFER_READY m' = DBWIN_BUFFER_READY m;
  inert_data_ready : DBWIN_DATA_READY m' = DBWIN_DATA_READY m;
  inert_section : DBWIN_BUFFER m' = DBWIN_BUFFER m;
  inert_stop : stop m' = stop m;
  inert_thread : thread m' = thread m
}.

Definition returns {A} (o : outcome A) : bool :=
  match o with Hang _ => false | _ => true end.

(** A computation that returns or raises, and is inert. *)
Definition quiet {A} (c : M A) : Prop :=
  forall m, inert m (final (c m)) /\ returns (c m) = true.

(** The thread, once set to a state, by the branch taken. *)
Definition settle (o : outcome loop_ctl) : machine :=
  match o with
  | Ok Continue m => set_thread AtTop m
  | Ok Break m => set_thread Stopped m
  | Raise e m => set_thread (Died e) m
  | Hang m => m
  end.

(** While the thread runs, stop stays signaled: only the thread resets it,
    on its way out. *)
Definition closing (m : machine) : Prop :=
  running (thread m) = true -> stop m = Some true.

(** A started thread stays started, and the stop event stays assigned. *)
Definition kept (m m' : machine) : Prop :=
  (was_started (thread m) = true -> was_started (thread m') = true)
  /\ assigned (stop m') = assigned (stop m).

(** The machine when [join] returns. *)
Definition joined (during : list occurrence) (m : machine) : machine :=
  Nat.iter 4 bg_step
    (await_exit during (record_call (SetEvent H_STOP) (set_stop (Some true) m))).

(** The machine after the data-ready branch has read the whole view. *)
Definition consumed (m : machine) : machine :=
  set_buffer (Some {| mclosed := false; mpos := 4096 |})
    (set_DBWIN_DATA_READY (Some false) m).

(** The machine after a [CreateEvent] that was granted. *)
Definition created (h : handle) (m : machine) : machine :=
  record_call (CreateEvent (event_name h))
    (set_event_state h
       (match event_name h, event_state h m with
        | Some _, Some s => Some s
        | _, _ => Some false
        end) m).

(** The machine after [open] was granted and its result assigned. *)
Definition opened (name : string) (m : machine) : machine :=
  set_log_file (Some {| fname := name; fclosed := false |})
    (record_call (OpenForWriting name)
       (set_files (<[name := []]> (files m)) (set_thread Initial m))).

(** The machine after the mapping was granted and assigned. *)
Definition mapped (m : machine) : machine :=
  set_buffer (Some {| mclosed := false; mpos := 0 |})
    (record_call (MapBuffer "DBWIN_BUFFER")
       (match DBWIN_BUFFER m with
        | Some _ => m
        | None => set_DBWIN_BUFFER (Some (repeat x00 (Z.to_nat 4096))) m
        end)).

(** The machine a successful constructor leaves. *)
Definition after_init (name : string) (m : machine) : machine :=
  mapped
    (set_buffer_length (Some 4096)
       (created H_STOP (created H_DATA_READY (created H_BUFFER_READY
          (opened name m))))).

(** The stages of the constructor, in the order of the source. *)
Definition stages : list resource :=
  [ResLogFile; ResBufferReady; ResDataReady; ResStop; ResBuffer].

Definition stage_index (r : resource) : nat :=
  match r with
  | ResLogFile => 0 | ResBufferReady => 1 | ResDataReady => 2
  | ResStop => 3 | ResBuffer => 4
  end.

Definition before (a r : resource) : bool :=
  (stage_index a <? stage_index r)%nat.

(** The system fails the request for [r]: it refuses it, or, for the
    mapping, the named section exists and is shorter than the view. *)
Definition fails (m : machine) (r : resource) : bool :=
  refused m r
  || match r, DBWIN_BUFFER m with
     | ResBuffer, Some bs => (List.length bs <? 4096)%nat
     | _, _ => false
     end.

(** The first stage of the constructor that fails on [m], if any. *)
Definition first_failure (m : machine) : option resource :=
  find (fails m) stages.

(** The exception of a failed stage. *)
Definition error_of (r : resource) : exn :=
  match r with
  | ResLogFile | ResBuffer => OSError
  | _ => pywintypes_error
  end.

(** The machine when the constructor reaches stage [r]: what the stages
    before it acquired and assigned is there, nothing of it is released. *)
Definition reached (r : resource) (name : string) (m : machine) : machine :=
  match r with
  | ResLogFile => set_thread Initial m
  | ResBufferReady => opened name m
  | ResDataReady => created H_BUFFER_READY (opened name m)
  | ResStop => created H_DATA_READY (created H_BUFFER_READY (opened name m))
  | ResBuffer =>
      set_buffer_length (Some 4096)
        (created H_STOP (created H_DATA_READY (created H_BUFFER_READY
           (opened name m))))
  end.

(** The calls of the stages before [r]. *)
Definition acquired_before (r : resource) (name : string) : list call :=
  firstn (stage_index r)
    [OpenForWriting name;
     CreateEvent (Some "DBWIN_BUFFER_READY"%string);
     CreateEvent (Some "DBWIN_DATA_READY"%string);
     CreateEvent None].

(** A machine where the named section exists already and is one byte
    long. *)
Definition host_with_short_section : machine :=
  set_DBWIN_BUFFER (Some [x00]) fresh_host.

(** ** Vocabulary of the further properties *)

(** A Unicode scalar value other than NUL. *)
Definition scalar_not_nul (c : Z) : Prop :=
  0 < c <= 0x10FFFF /\ ~ (0xD800 <= c <= 0xDFFF).

(** All bytes are ASCII. *)
Definition all_ascii (bs : list byte) : bool :=
  forallb (fun b => byte_val b <? 0x80) bs.

(** What a constructed session may do to the file system: write its own log
    file, at the end, and nothing else. *)
Record log_only (m m' : machine) : Prop := {
  lo_name : option_map fname (log_file m') = option_map fname (log_file m);
  lo_others : forall other : string,
      other <> log_name m -> files m' !! other = files m !! other;
  lo_grows : exists suffix, log_text m' = log_text m ++ suffix
}.

(** A computation that keeps to that. *)
Definition logs_only {A} (c : M A) : Prop :=
  forall m, log_only m (final (c m)).


(** The line [run] writes for a snapshot, when its payload decodes. *)
Definition line_of (snapshot : list byte) : option pystr :=
  option_map (format_line (process_id_of snapshot))
    (utf8_decode (payload_bytes (payload_region snapshot))).

(** [run] logs the line of a snapshot: its payload decodes, to text that
    the encoding of the log file has. *)
Definition loggable (repertoire : Z -> bool) (snapshot : list byte) : bool :=
  match utf8_decode (payload_bytes (payload_region snapshot)) with
  | Some s => encodable repertoire s
  | None => false
  end.

(** What a producer may deposit to be read whatever the channel held
    before: the identifier, then a payload that either ends in a NUL or
    fills the channel. *)
Definition framed (bytes : list byte) : bool :=
  (4 <=? List.length bytes)%nat && (List.length bytes <=? 4096)%nat
  && (contains0 (payload_region bytes) || (List.length bytes =? 4096)%nat).

(** What a producer may deposit to be logged, on a machine whose locale has
    the given encoding. *)
Definition deliverable (repertoire : Z -> bool) (bytes : list byte) : bool :=
  framed bytes && loggable repertoire bytes.

Definition lines_of (messages : list (list byte)) : pystr :=
  flat_map (fun bytes => default [] (line_of bytes)) messages.

(** The deposits of a schedule that find buffer-ready signaled, in order:
    the messages the handshake lets into the channel. *)
Fixpoint accepted (os : list occurrence) (m : machine) : list (list byte) :=
  match os with
  | [] => []
  | o :: rest =>
      match o with
      | Deposit bytes => if signaled H_BUFFER_READY m then [bytes] else []
      | Background => []
      end ++ accepted rest (occur o m)
  end.

(** Every deposit of a schedule. *)
Definition deposits (os : list occurrence) : list (list byte) :=
  flat_map (fun o => match o with Deposit bytes => [bytes] | Background => [] end)
    os.

(** The line still owed for the message that waits in the channel. *)
Definition owed (m : machine) : pystr :=
  if signaled H_DATA_READY m then default [] (line_of (view m)) else [].

(** A capture in progress: the session is whole and open, its thread is in
    the loop, stop is not signaled, buffer-ready is not signaled while a
    message waits or while the thread is on its way back to the top of the
    loop, and the message that waits, if any, decodes to text that the
    encoding of the log file has. *)
Definition in_protocol (m : machine) : bool :=
  constructed m && session_open m && running (thread m)
  && negb (signaled H_STOP m)
  && (negb (signaled H_DATA_READY m) || negb (signaled H_BUFFER_READY m))
  && match thread m with
     | AtTop => negb (signaled H_BUFFER_READY m)
                && negb (signaled H_DATA_READY m)
     | _ => true
     end
  && (negb (signaled H_DATA_READY m) || loggable (code_page m) (view m)).

(** The machine once a capture session has been made and started. *)
Definition capturing (name : string) (m : machine) : machine :=
  final ((ldv <- makeLogDbgView (PyBool true) name ;; start ldv) m).

(** A capture in progress with the thread in its wait and buffer-ready
    signaled, and one with a message waiting. *)
Definition armed (m : machine) : bool :=
  in_protocol m && signaled H_BUFFER_READY m.

Definition pending (m : machine) : bool :=
  in_protocol m && signaled H_DATA_READY m.

(** ** [test] *)

(** What a producer's call of [OutputDebugString] is to the session: while
    the producer waits for buffer-ready the thread takes the two steps it
    needs at most to serve what waits and to arm again; then the producer
    writes the channel and signals data-ready. *)
Definition output (bytes : list byte) : list occurrence :=
  [Background; Background; Deposit bytes].

(** [win32api.OutputDebugString(text)] called by the process [process_id]:
    the channel receives the identifier, the text and its terminating NUL. *)
Definition OutputDebugString (process_id : Z) (text : string) : list stmt :=
  map Meanwhile (output (message process_id (bytes_of text ++ [x00]))).

(** [LogDbgView.test], run by the process [process_id]: a session used
    through [start] and [close], then, once it is closed, a second one used
    through [with]. *)
Definition test (log_debug_strings : pyvalue) (process_id : Z) : M unit :=
  explicit_form log_debug_strings "logfile1.txt"
    (OutputDebugString process_id "foo"
     ++ OutputDebugString process_id "bar"
     ++ OutputDebugString process_id "baz") [] ;;
  scoped_form log_debug_strings "logfile2.txt"
    (OutputDebugString process_id "hi"
     ++ OutputDebugString process_id "there"
     ++ OutputDebugString process_id "world"
     ++ OutputDebugString process_id "!") [].

(** The seven calls of [OutputDebugString] in [test], as the rest of the
    system sees them. *)
Definition test_outputs (process_id : Z) : list occurrence :=
  flat_map (fun text => output (message process_id (bytes_of text ++ [x00])))
    ["foo"; "bar"; "baz"; "hi"; "there"; "world"; "!"]%string.

(** A machine where another process listens on the channel: the named
    objects exist, buffer-ready is signaled, and no session of this module
    has been made. *)
Definition foreign_listener : machine :=
  set_DBWIN_BUFFER_READY (Some true)
    (set_DBWIN_DATA_READY (Some false)
       (set_DBWIN_BUFFER (Some (repeat x00 4096)) fresh_host)).

(** ** Facts about the byte layer *)

Module BytesFacts.
Import Bytes.

Lemma byte_val_range (b : byte) : 0 <= byte_val b < 256.
Proof.
  unfold byte_val. pose proof (Byte.to_N_bounded b). lia.
Qed.

Lemma encode_cp_1 x0 : 0 <= x0 -> x0 < 0x80 -> utf8_encode_cp x0 = [x0].
Proof.
  intros H0 H1. unfold utf8_encode_cp.
  destruct (Z.ltb_spec x0 0x80); [reflexivity | lia].
Qed.

Lemma encode_cp_2 x0 x1 :
  0xC2 <= x0 <= 0xDF -> 0x80 <= x1 <= 0xBF ->
  utf8_encode_cp ((x0 - 0xC0) * 64 + (x1 - 0x80)) = [x0; x1].
Proof.
  intros H0 H1. unfold utf8_encode_cp.
  set (c := (x0 - 0xC0) * 64 + (x1 - 0x80)).
  assert (Hc : 0x80 <= c < 0x800) by (unfold c; lia).
  destruct (Z.ltb_spec c 0x80); [lia |].
  destruct (Z.ltb_spec c 0x800); [| lia].
  assert (c / 64 = x0 - 0xC0 /\ c mod 64 = x1 - 0x80) as [-> ->]
    by (unfold c; Z.to_euclidean_division_equations; lia).
  f_equal; [lia | f_equal; lia].
Qed.

Lemma encode_cp_3 x0 x1 x2 :
  0xE0 <= x0 <= 0xEF ->
  (if x0 =? 0xE0 then 0xA0 else 0x80) <= x1 <= 0xBF ->
  0x80 <= x2 <= 0xBF ->
  utf8_encode_cp ((x0 - 0xE0) * 4096 + (x1 - 0x80) * 64 + (x2 - 0x80))
  = [x0; x1; x2].
Proof.
  intros H0 H1 H2. unfold utf8_encode_cp.
  set (c := (x0 - 0xE0) * 4096 + (x1 - 0x80) * 64 + (x2 - 0x80)).
  assert (Hc : 0x800 <= c < 0x10000)
    by (unfold c; destruct (Z.eqb_spec x0 0xE0); lia).
  destruct (Z.ltb_spec c 0x80); [lia |].
  destruct (Z.ltb_spec c 0x800); [lia |].
  destruct (Z.ltb_spec c 0x10000); [| lia].
  assert (x1 < 192 /\ 128 <= x1) as [? ?] by (destruct (x0 =? 0xE0); lia).
  assert (c / 4096 = x0 - 0xE0 /\ (c / 64) mod 64 = x1 - 0x80
          /\ c mod 64 = x2 - 0x80) as (-> & -> & ->)
    by (unfold c; Z.to_euclidean_division_equations; lia).
  repeat (f_equal; try lia).
Qed.

Lemma encode_cp_4 x0 x1 x2 x3 :
  0xF0 <= x0 <= 0xF4 ->
  (if x0 =? 0xF0 then 0x90 else 0x80) <= x1 <= 0xBF ->
  0x80 <= x2 <= 0xBF -> 0x80 <= x3 <= 0xBF ->
  utf8_encode_cp ((x0 - 0xF0) * 262144 + (x1 - 0x80) * 4096
                  + (x2 - 0x80) * 64 + (x3 - 0x80))
  = [x0; x1; x2; x3].
Proof.
  intros H0 H1 H2 H3. unfold utf8_encode_cp.
  set (c := (x0 - 0xF0) * 262144 + (x1 - 0x80) * 4096
            + (x2 - 0x80) * 64 + (x3 - 0x80)).
  assert (Hc : 0x10000 <= c)
    by (unfold c; destruct (Z.eqb_spec x0 0xF0); lia).
  destruct (Z.ltb_spec c 0x80); [lia |].
  destruct (Z.ltb_spec c 0x800); [lia |].
  destruct (Z.ltb_spec c 0x10000); [lia |].
  assert (x1 < 192 /\ 128 <= x1) as [? ?] by (destruct (x0 =? 0xF0); lia).
  assert (c / 262144 = x0 - 0xF0 /\ (c / 4096) mod 64 = x1 - 0x80
          /\ (c / 64) mod 64 = x2 - 0x80
          /\ c mod 64 = x3 - 0x80) as (-> & -> & -> & ->)
    by (unfold c; Z.to_euclidean_division_equations; lia).
  repeat (f_equal; try lia).
Qed.

Lemma in_range_spec lo hi b :
  in_range lo hi b = true -> lo <= byte_val b <= hi.
Proof. unfold in_range. intros H. apply andb_true_iff in H. lia. Qed.

Lemma is_cont_spec b : is_cont b = true -> 0x80 <= byte_val b <= 0xBF.
Proof. unfold is_cont. intros H. apply andb_true_iff in H. lia. Qed.

Lemma option_map_cons_Some (c : Z) (o : option pystr) (s : pystr) :
  option_map (cons c) o = Some s -> exists t, o = Some t /\ s = c :: t.
Proof. destruct o as [t |]; simpl; intros H; inversion H; eauto. Qed.

(** Decoding is injective: the text determines the bytes it came from. *)
Lemma utf8_decode_encode_bounded (n : nat) :
  forall (bs : list byte) (s : pystr),
    (List.length bs <= n)%nat ->
    utf8_decode bs = Some s -> utf8_encode s = map byte_val bs.
Proof.
  induction n as [| n IH]; intros bs s Hlen Hdec.
  - destruct bs; [| simpl in Hlen; lia]. inversion Hdec. reflexivity.
  - destruct bs as [| b0 r0]; [inversion Hdec; reflexivity |].
    cbn [utf8_decode] in Hdec.
    pose proof (byte_val_range b0) as R0.
    destruct (Z.ltb_spec (byte_val b0) 0x80).
    { apply option_map_cons_Some in Hdec as (t & Ht & ->).
      cbn [utf8_encode flat_map map]. rewrite encode_cp_1 by lia.
      simpl in Hlen. f_equal. apply IH; [lia | exact Ht]. }
    destruct (in_range 0xC2 0xDF b0) eqn:E2.
    { apply in_range_spec in E2.
      destruct r0 as [| b1 r1]; [discriminate |].
      destruct (is_cont b1) eqn:C1; [| discriminate].
      apply is_cont_spec in C1.
      apply option_map_cons_Some in Hdec as (t & Ht & ->).
      cbn [utf8_encode flat_map map]. unfold cont_bits.
      rewrite encode_cp_2 by lia.
      simpl in Hlen. cbn [app]. do 2 f_equal. apply IH; [lia | exact Ht]. }
    destruct (in_range 0xE0 0xEF b0) eqn:E3.
    { apply in_range_spec in E3.
      destruct r0 as [| b1 [| b2 r2]]; try discriminate.
      match type of Hdec with
      | (if ?c then _ else _) = _ => destruct c eqn:C; [| discriminate]
      end.
      apply andb_true_iff in C as [C1 C2].
      apply in_range_spec in C1. apply is_cont_spec in C2.
      apply option_map_cons_Some in Hdec as (t & Ht & ->).
      cbn [utf8_encode flat_map map]. unfold cont_bits.
      rewrite encode_cp_3;
        [| lia | destruct (byte_val b0 =? 0xED); lia | lia].
      simpl in Hlen. cbn [app]. do 3 f_equal. apply IH; [lia | exact Ht]. }
    destruct (in_range 0xF0 0xF4 b0) eqn:E4; [| discriminate].
    apply in_range_spec in E4.
    destruct r0 as [| b1 [| b2 [| b3 r3]]]; try discriminate.
    match type of Hdec with
    | (if ?c then _ else _) = _ => destruct c eqn:C; [| discriminate]
    end.
    apply andb_true_iff in C as [C12 C3].
    apply andb_true_iff in C12 as [C1 C2].
    apply in_range_spec in C1. apply is_cont_spec in C2. apply is_cont_spec in C3.
    apply option_map_cons_Some in Hdec as (t & Ht & ->).
    cbn [utf8_encode flat_map map]. unfold cont_bits.
    rewrite encode_cp_4;
      [| lia | destruct (byte_val b0 =? 0xF4); lia | lia | lia].
    simpl in Hlen. cbn [app]. do 4 f_equal. apply IH; [lia | exact Ht].
Qed.

Lemma utf8_decode_encode (bs : list byte) (s : pystr) :
  utf8_decode bs = Some s -> utf8_encode s = map byte_val bs.
Proof. apply (utf8_decode_encode_bounded (List.length bs)). lia. Qed.

(** The NUL search. *)
Lemma contains0_app (l1 l2 : list byte) :
  contains0 (l1 ++ l2) = contains0 l1 || contains0 l2.
Proof. unfold contains0. apply existsb_app. Qed.

Lemma index0_before_first_nul (pre post : list byte) (z : byte) :
  contains0 pre = false -> byte_val z = 0 ->
  index0 (pre ++ z :: post) = List.length pre.
Proof.
  intros Hpre Hz. induction pre as [| b pre IH]; simpl.
  - rewrite Hz. reflexivity.
  - simpl in Hpre. apply orb_false_iff in Hpre as [Hb Hpre].
    rewrite Hb. f_equal. apply IH. exact Hpre.
Qed.

Lemma payload_bytes_before_first_nul (pre post : list byte) (z : byte) :
  contains0 pre = false -> byte_val z = 0 ->
  payload_bytes (pre ++ z :: post) = pre.
Proof.
  intros Hpre Hz. unfold payload_bytes, slice_to.
  rewrite contains0_app. simpl. rewrite Hz. simpl.
  rewrite orb_true_r.
  rewrite index0_before_first_nul by assumption.
  rewrite firstn_app, Nat.sub_diag, firstn_all. simpl. apply app_nil_r.
Qed.

Lemma payload_bytes_no_nul (data : list byte) :
  contains0 data = false -> payload_bytes data = data.
Proof. intros H. unfold payload_bytes. rewrite H. reflexivity. Qed.

(** *** What every encoding has *)

Lemma encodable_app (cp : Z -> bool) (s t : pystr) :
  encodable cp (s ++ t) = encodable cp s && encodable cp t.
Proof. apply forallb_app. Qed.

Lemma encodable_ascii (cp : Z -> bool) (s : pystr) :
  forallb (fun c => c <? 0x80) s = true -> encodable cp s = true.
Proof.
  unfold encodable. induction s as [| c s IH]; [reflexivity |].
  cbn [forallb]. intros H. apply andb_true_iff in H as [Hc Hs].
  rewrite Hc, (IH Hs). reflexivity.
Qed.

Lemma digits_ascii (d : Decimal.uint) :
  forallb (fun c => c <? 0x80) (of_ascii (NilEmpty.string_of_uint d)) = true.
Proof.
  induction d as [| d IH | d IH | d IH | d IH | d IH | d IH | d IH | d IH
                  | d IH | d IH]; [reflexivity | exact IH ..].
Qed.

Lemma decimal_ascii (n : Z) :
  forallb (fun c => c <? 0x80) (decimal n) = true.
Proof.
  unfold decimal, NilZero.string_of_uint.
  destruct (N.to_uint (Z.to_N n)) as [| d | d | d | d | d | d | d | d | d | d];
    [reflexivity | ..];
    match goal with
    | |- context [NilEmpty.string_of_uint ?x] => exact (digits_ascii x)
    end.
Qed.

(** The line is encodable when the decoded text is: the rest of it is
    ASCII. *)
Lemma encodable_format_line (cp : Z -> bool) (n : Z) (s : pystr) :
  encodable cp (format_line n s) = encodable cp s.
Proof.
  unfold format_line. rewrite !encodable_app.
  rewrite (encodable_ascii cp (decimal n) (decimal_ascii n)).
  rewrite (encodable_ascii cp (of_ascii "Process ") eq_refl).
  rewrite (encodable_ascii cp (of_ascii ": ") eq_refl).
  rewrite (encodable_ascii cp [10] eq_refl).
  cbn [andb]. apply andb_true_r.
Qed.

Lemma encodable_bytes_ascii (cp : Z -> bool) (bs : list byte) :
  forallb (fun b => byte_val b <? 0x80) bs = true ->
  encodable cp (map byte_val bs) = true.
Proof.
  intros H. apply encodable_ascii.
  induction bs as [| b bs IH]; [reflexivity |].
  cbn [forallb map] in *. apply andb_true_iff in H as [Hb Hbs].
  rewrite Hb, (IH Hbs). reflexivity.
Qed.

End BytesFacts.
(** ** Facts about the machine *)

Module MachineFacts.
Import BytesFacts.

Lemma view_length (m : machine) :
  constructed m = true -> List.length (view m) = 4096%nat.
Proof.
  unfold constructed, view. intros H.
  repeat (apply andb_true_iff in H as [H ?]).
  destruct (DBWIN_BUFFER m) as [bs |]; [| discriminate].
  destruct (buffer_length m) as [n |]; [| discriminate].
  assert (n = 4096) as -> by lia.
  apply firstn_length_le. apply Nat.leb_le. assumption.
Qed.

Lemma buffer_read_open (n : Z) (pos : nat) (m : machine) :
  buffer m = Some {| mclosed := false; mpos := pos |} ->
  buffer_read n m =
    let got := firstn (Z.to_nat n) (skipn pos (view m)) in
    Ok got (set_buffer (Some {| mclosed := false;
                                mpos := (pos + List.length got)%nat |}) m).
Proof. intros H. unfold buffer_read. rewrite H. reflexivity. Qed.

(** The data-ready branch on an open session, in one piece. *)
Lemma on_data_ready_open (m : machine) :
  constructed m = true -> session_open m = true ->
  on_data_ready 4092 m =
    let m1 := set_buffer (Some {| mclosed := false; mpos := 4096 |}) m in
    match utf8_decode (payload_bytes (payload_region (view m))) with
    | Some s => log_file_write (format_line (process_id_of (view m)) s) m1
    | None => Raise UnicodeDecodeError m1
    end.
Proof.
  intros Hc Ho. pose proof (view_length m Hc) as Hlen.
  unfold session_open in Ho.
  destruct (log_file m) as [f |] eqn:Hf; [| discriminate].
  destruct (buffer m) as [b |] eqn:Hb; [| discriminate].
  apply andb_true_iff in Ho as [Hfo Hbo].
  destruct b as [bc bp]. simpl in Hbo. destruct bc; [discriminate |].
  unfold on_data_ready, bind, buffer_seek. rewrite Hb. cbn [mclosed].
  rewrite (buffer_read_open _ 0) by reflexivity.
  cbv zeta. change (view (set_buffer _ m)) with (view m).
  unfold process_id_of, payload_region, id_field.
  destruct (view m) as [| b0 [| b1 [| b2 [| b3 data]]]] eqn:Hv;
    try (simpl in Hlen; discriminate).
  assert (Hdata : List.length data = 4092%nat) by (simpl in Hlen; lia).
  change (firstn (Z.to_nat process_id_length) (skipn 0 (b0 :: b1 :: b2 :: b3 :: data)))
    with [b0; b1; b2; b3].
  change (skipn 4 (b0 :: b1 :: b2 :: b3 :: data)) with data.
  change (firstn 4 (b0 :: b1 :: b2 :: b3 :: data)) with [b0; b1; b2; b3].
  unfold struct_unpack_L. cbn [unpack_L ret].
  rewrite (buffer_read_open _ 4) by reflexivity.
  cbv zeta. change (view (set_buffer _ (set_buffer _ m))) with (view m).
  rewrite Hv.
  change (skipn 4 (b0 :: b1 :: b2 :: b3 :: data)) with data.
  rewrite firstn_all2 by lia. rewrite Hdata.
  change (set_buffer ?x (set_buffer _ (set_buffer _ m))) with (set_buffer x m).
  change (4 + 4092)%nat with 4096%nat.
  unfold payload_bytes, str_utf8.
  destruct (contains0 data);
    (destruct (utf8_decode _); reflexivity).
Qed.

Lemma frame_refl m : frame m m.
Proof. split; reflexivity. Qed.

Lemma frame_trans m1 m2 m3 : frame m1 m2 -> frame m2 m3 -> frame m1 m3.
Proof. intros [] []. split; congruence. Qed.

Lemma inert_refl m : inert m m.
Proof. split; try reflexivity. apply frame_refl. Qed.

Lemma inert_trans m1 m2 m3 : inert m1 m2 -> inert m2 m3 -> inert m1 m3.
Proof.
  intros [] []. split; try congruence. eapply frame_trans; eassumption.
Qed.

Lemma quiet_ret {A} (a : A) : quiet (ret a).
Proof. intros m. split; [apply inert_refl | reflexivity]. Qed.

Lemma quiet_raise {A} (e : exn) : quiet (@raise A e).
Proof. intros m. split; [apply inert_refl | reflexivity]. Qed.

Lemma quiet_bind {A B} (c : M A) (k : A -> M B) :
  quiet c -> (forall a, quiet (k a)) -> quiet (bind c k).
Proof.
  intros Hc Hk m. unfold bind. destruct (Hc m) as [Hi Hr].
  destruct (c m) as [a m' | e m' | m']; cbn [final] in *;
    try (split; [exact Hi | exact Hr]).
  destruct (Hk a m') as [Hi' Hr']. split; [| exact Hr'].
  eapply inert_trans; eassumption.
Qed.

Lemma quiet_buffer_seek pos : quiet (buffer_seek pos).
Proof.
  intros m. unfold buffer_seek.
  destruct (buffer m) as [[[] p] |] eqn:E; cbn [final mclosed];
    try (split; [apply inert_refl | reflexivity]).
  repeat split; cbn; try reflexivity. rewrite E. reflexivity.
Qed.

Lemma quiet_buffer_read n : quiet (buffer_read n).
Proof.
  intros m. unfold buffer_read.
  destruct (buffer m) as [[[] p] |] eqn:E; cbn [final mclosed];
    try (split; [apply inert_refl | reflexivity]).
  repeat split; cbn; try reflexivity. rewrite E. reflexivity.
Qed.

Lemma quiet_get_buffer_length : quiet get_buffer_length.
Proof.
  intros m. unfold get_buffer_length.
  destruct (buffer_length m); (split; [apply inert_refl | reflexivity]).
Qed.

Lemma quiet_struct_unpack_L bs : quiet (struct_unpack_L bs).
Proof.
  unfold struct_unpack_L. destruct (unpack_L bs);
    [apply quiet_ret | apply quiet_raise].
Qed.

Lemma quiet_str_utf8 bs : quiet (str_utf8 bs).
Proof.
  unfold str_utf8. destruct (utf8_decode bs);
    [apply quiet_ret | apply quiet_raise].
Qed.

Lemma quiet_log_file_write s : quiet (log_file_write s).
Proof.
  intros m. unfold log_file_write.
  destruct (log_file m) as [[n []] |] eqn:E; cbn [final fclosed];
    try (split; [apply inert_refl | reflexivity]).
  destruct (encodable (code_page m) s); cbn [final];
    [repeat split; reflexivity | split; [apply inert_refl | reflexivity]].
Qed.

Lemma quiet_on_data_ready n : quiet (on_data_ready n).
Proof.
  unfold on_data_ready.
  repeat (first [ apply quiet_bind; [| intros ?]
                | apply quiet_buffer_seek | apply quiet_buffer_read
                | apply quiet_struct_unpack_L | apply quiet_log_file_write
                | apply quiet_str_utf8
                | match goal with
                  | |- quiet (if ?c then _ else _) => destruct c
                  end ]).
Qed.

Lemma quiet_after_wait result : quiet (after_wait result).
Proof.
  unfold after_wait.
  apply quiet_bind; [apply quiet_get_buffer_length | intros len].
  destruct (result =? WAIT_OBJECT_0).
  - apply quiet_bind; [apply quiet_on_data_ready | intros; apply quiet_ret].
  - destruct (result =? WAIT_OBJECT_0 + 1); apply quiet_ret.
Qed.

(** The wait, by cases on what is signaled. *)
Lemma wait_data (m : machine) :
  signaled H_DATA_READY m = true ->
  WaitForMultipleObjects events m
  = Some (WAIT_OBJECT_0, set_DBWIN_DATA_READY (Some false) m).
Proof.
  intros H. unfold WaitForMultipleObjects, events. cbn [first_signaled].
  rewrite H. reflexivity.
Qed.

Lemma wait_stop (m : machine) :
  signaled H_DATA_READY m = false -> signaled H_STOP m = true ->
  WaitForMultipleObjects events m
  = Some (WAIT_OBJECT_0 + 1, set_stop (Some false) m).
Proof.
  intros H0 H1. unfold WaitForMultipleObjects, events. cbn [first_signaled].
  rewrite H0, H1. reflexivity.
Qed.

Lemma wait_blocked (m : machine) :
  signaled H_DATA_READY m = false -> signaled H_STOP m = false ->
  WaitForMultipleObjects events m = None.
Proof.
  intros H0 H1. unfold WaitForMultipleObjects, events. cbn [first_signaled].
  rewrite H0, H1. reflexivity.
Qed.

Lemma after_wait_data (m : machine) :
  after_wait WAIT_OBJECT_0 m
  = (len <- get_buffer_length ;;
     on_data_ready (len - process_id_length) ;; ret Continue) m.
Proof. reflexivity. Qed.

Lemma after_wait_stop (m : machine) :
  after_wait (WAIT_OBJECT_0 + 1) m = (get_buffer_length ;; ret Break) m.
Proof. reflexivity. Qed.

Lemma after_wait_data_continues (m m' : machine) (c : loop_ctl) :
  after_wait WAIT_OBJECT_0 m = Ok c m' -> c = Continue.
Proof.
  rewrite after_wait_data. unfold bind, ret.
  destruct (get_buffer_length m); try discriminate.
  destruct (on_data_ready _ _); try discriminate.
  intros H. inversion H. reflexivity.
Qed.

Lemma after_wait_stop_breaks (m m' : machine) (c : loop_ctl) :
  after_wait (WAIT_OBJECT_0 + 1) m = Ok c m' -> c = Break /\ m' = m.
Proof.
  rewrite after_wait_stop. unfold bind, ret, get_buffer_length.
  destruct (buffer_length m); try discriminate.
  intros H. inversion H. split; reflexivity.
Qed.

Lemma bg_step_idle (m : machine) :
  running (thread m) = false -> bg_step m = m.
Proof. unfold bg_step. destruct (thread m); try discriminate; reflexivity. Qed.

Lemma iter_bg_step_idle (n : nat) (m : machine) :
  running (thread m) = false -> Nat.iter n bg_step m = m.
Proof.
  intros H. induction n as [| n IH]; [reflexivity |].
  rewrite Nat.iter_succ, IH. apply bg_step_idle. exact H.
Qed.

Lemma bg_step_InWait (m : machine) :
  thread m = InWait ->
  bg_step m =
    match WaitForMultipleObjects events m with
    | None => m
    | Some (result, m1) => settle (after_wait result m1)
    end.
Proof.
  intros H. unfold bg_step. rewrite H.
  destruct (WaitForMultipleObjects events m) as [[r m1] |]; reflexivity.
Qed.

Lemma settle_frame (m : machine) (result : Z) :
  frame m (settle (after_wait result m))
  /\ DBWIN_BUFFER_READY (settle (after_wait result m)) = DBWIN_BUFFER_READY m
  /\ DBWIN_DATA_READY (settle (after_wait result m)) = DBWIN_DATA_READY m
  /\ DBWIN_BUFFER (settle (after_wait result m)) = DBWIN_BUFFER m
  /\ stop (settle (after_wait result m)) = stop m.
Proof.
  destruct (quiet_after_wait result m) as [[[] ? ? ? ? ?] _].
  destruct (after_wait result m) as [[] m' | e m' | m']; cbn [final settle] in *;
    repeat split; assumption.
Qed.

Lemma bg_step_frame (m : machine) : frame m (bg_step m).
Proof.
  unfold bg_step. destruct (thread m) eqn:Ht; try apply frame_refl.
  - unfold SetEvent_. cbn [event_state].
    destruct (DBWIN_BUFFER_READY m); split; reflexivity.
  - destruct (WaitForMultipleObjects events m) as [[r m1] |] eqn:Hw;
      [| apply frame_refl].
    assert (Hf : frame m m1).
    { unfold WaitForMultipleObjects in Hw.
      destruct (first_signaled events 0 m) as [[i h] |]; [| discriminate].
      inversion Hw. destruct h; split; reflexivity. }
    eapply frame_trans; [exact Hf |].
    fold (settle (after_wait r m1)). apply settle_frame.
Qed.

Lemma deposit_frame (bytes : list byte) (m : machine) : frame m (deposit bytes m).
Proof.
  unfold deposit.
  destruct (DBWIN_BUFFER_READY m) as [[] |]; try apply frame_refl.
  destruct (DBWIN_DATA_READY m); try apply frame_refl.
  destruct (DBWIN_BUFFER m); try apply frame_refl.
  split; reflexivity.
Qed.

Lemma occur_frame (o : occurrence) (m : machine) : frame m (occur o m).
Proof. destruct o; [apply deposit_frame | apply bg_step_frame]. Qed.

Lemma elapse_frame (os : list occurrence) (m : machine) : frame m (elapse os m).
Proof.
  revert m. induction os as [| o os IH]; intros m; [apply frame_refl |].
  unfold elapse. cbn [fold_left]. eapply frame_trans; [apply occur_frame |].
  apply IH.
Qed.

Lemma await_exit_frame (os : list occurrence) (m : machine) :
  frame m (await_exit os m).
Proof.
  revert m. induction os as [| o os IH]; intros m; [apply frame_refl |].
  cbn [await_exit]. destruct (running (thread m)); [| apply frame_refl].
  eapply frame_trans; [apply occur_frame | apply IH].
Qed.

Lemma iter_bg_step_frame (n : nat) (m : machine) :
  frame m (Nat.iter n bg_step m).
Proof.
  induction n as [| n IH]; [apply frame_refl |].
  rewrite Nat.iter_succ. eapply frame_trans; [exact IH | apply bg_step_frame].
Qed.

(** *** The thread leaves the loop once stop is signaled *)

Lemma thread_settle_data (m : machine) :
  running (thread (settle (after_wait WAIT_OBJECT_0 m))) = true ->
  thread (settle (after_wait WAIT_OBJECT_0 m)) = AtTop.
Proof.
  destruct (quiet_after_wait WAIT_OBJECT_0 m) as [_ Hr].
  destruct (after_wait WAIT_OBJECT_0 m) as [c m' | e m' | m'] eqn:E;
    cbn [settle returns] in *; try discriminate.
  apply after_wait_data_continues in E. subst c. reflexivity.
Qed.

Lemma thread_settle_stop (m : machine) :
  running (thread (settle (after_wait (WAIT_OBJECT_0 + 1) m))) = false.
Proof.
  destruct (quiet_after_wait (WAIT_OBJECT_0 + 1) m) as [_ Hr].
  destruct (after_wait (WAIT_OBJECT_0 + 1) m) as [c m' | e m' | m'] eqn:E;
    cbn [settle returns] in *; try discriminate; try reflexivity.
  apply after_wait_stop_breaks in E as [-> _]. reflexivity.
Qed.

Lemma signaled_stop (m : machine) :
  stop m = Some true -> signaled H_STOP m = true.
Proof. intros H. unfold signaled. cbn [event_state]. rewrite H. reflexivity. Qed.

Lemma bg_step_AtTop (m : machine) :
  thread m = AtTop ->
  stop (bg_step m) = stop m
  /\ DBWIN_DATA_READY (bg_step m) = DBWIN_DATA_READY m
  /\ (thread (bg_step m) = InWait \/ running (thread (bg_step m)) = false).
Proof.
  intros H. unfold bg_step. rewrite H. unfold SetEvent_. cbn [event_state].
  destruct (DBWIN_BUFFER_READY m); repeat split; auto.
Qed.

Lemma bg_step_InWait_data (m : machine) :
  thread m = InWait -> signaled H_DATA_READY m = true ->
  stop (bg_step m) = stop m
  /\ DBWIN_DATA_READY (bg_step m) = Some false
  /\ (thread (bg_step m) = AtTop \/ running (thread (bg_step m)) = false).
Proof.
  intros Ht Hd. rewrite (bg_step_InWait m Ht), (wait_data m Hd).
  destruct (settle_frame (set_DBWIN_DATA_READY (Some false) m) WAIT_OBJECT_0)
    as (_ & _ & Hdr & _ & Hs).
  repeat split; [exact Hs | exact Hdr |].
  destruct (running (thread (settle _))) eqn:E; [left | right; reflexivity].
  apply thread_settle_data. exact E.
Qed.

Lemma bg_step_InWait_stop (m : machine) :
  thread m = InWait -> signaled H_DATA_READY m = false ->
  stop m = Some true ->
  running (thread (bg_step m)) = false.
Proof.
  intros Ht Hd Hs. rewrite (bg_step_InWait m Ht).
  rewrite (wait_stop m Hd (signaled_stop m Hs)).
  apply thread_settle_stop.
Qed.

Lemma closing_bg_step (m : machine) : closing m -> closing (bg_step m).
Proof.
  intros Hc Hr. destruct (thread m) eqn:Ht;
    try (rewrite bg_step_idle in * by (rewrite Ht; reflexivity);
         apply Hc; exact Hr).
  - destruct (bg_step_AtTop m Ht) as (-> & _ & _).
    apply Hc. rewrite Ht. reflexivity.
  - assert (Hs : stop m = Some true) by (apply Hc; rewrite Ht; reflexivity).
    destruct (signaled H_DATA_READY m) eqn:Hd.
    + destruct (bg_step_InWait_data m Ht Hd) as (-> & _ & _). exact Hs.
    + rewrite (bg_step_InWait_stop m Ht Hd Hs) in Hr. discriminate.
Qed.

Lemma closing_deposit (bytes : list byte) (m : machine) :
  closing m -> closing (deposit bytes m).
Proof.
  unfold closing, deposit.
  destruct (DBWIN_BUFFER_READY m) as [[] |]; auto.
  destruct (DBWIN_DATA_READY m); auto.
  destruct (DBWIN_BUFFER m); auto.
Qed.

Lemma closing_await_exit (os : list occurrence) (m : machine) :
  closing m -> closing (await_exit os m).
Proof.
  revert m. induction os as [| o os IH]; intros m Hc; [exact Hc |].
  cbn [await_exit]. destruct (running (thread m)); [| exact Hc].
  apply IH. destruct o; [apply closing_deposit | apply closing_bg_step];
    exact Hc.
Qed.

Lemma not_signaled_after_reset (m : machine) :
  DBWIN_DATA_READY m = Some false -> signaled H_DATA_READY m = false.
Proof. intros H. unfold signaled. cbn [event_state]. rewrite H. reflexivity. Qed.

Lemma signaled_data_ready_eq (m m' : machine) :
  DBWIN_DATA_READY m' = DBWIN_DATA_READY m ->
  signaled H_DATA_READY m' = signaled H_DATA_READY m.
Proof. intros H. unfold signaled. cbn [event_state]. rewrite H. reflexivity. Qed.

(** From the top of the loop with no message pending: two steps. *)
Lemma exit_from_top_no_data (m : machine) :
  closing m -> thread m = AtTop -> signaled H_DATA_READY m = false ->
  running (thread (Nat.iter 2 bg_step m)) = false.
Proof.
  intros Hc Ht Hd. rewrite !Nat.iter_succ_r. cbn [Nat.iter nat_rect].
  pose proof (closing_bg_step m Hc) as Hc1.
  destruct (bg_step_AtTop m Ht) as (Hs & Hdr & [Hw | Hidle]).
  - apply bg_step_InWait_stop; [exact Hw | |].
    + rewrite (signaled_data_ready_eq _ _ Hdr). exact Hd.
    + apply Hc1. rewrite Hw. reflexivity.
  - rewrite bg_step_idle by exact Hidle. exact Hidle.
Qed.

(** From inside the wait: three steps. *)
Lemma exit_from_wait (m : machine) :
  closing m -> thread m = InWait ->
  running (thread (Nat.iter 3 bg_step m)) = false.
Proof.
  intros Hc Ht. rewrite Nat.iter_succ_r.
  destruct (signaled H_DATA_READY m) eqn:Hd.
  - pose proof (closing_bg_step m Hc) as Hc1.
    destruct (bg_step_InWait_data m Ht Hd) as (_ & Hdr & [Htop | Hidle]).
    + apply exit_from_top_no_data; [exact Hc1 | exact Htop |].
      apply not_signaled_after_reset. exact Hdr.
    + rewrite iter_bg_step_idle by exact Hidle. exact Hidle.
  - assert (Hidle : running (thread (bg_step m)) = false).
    { apply bg_step_InWait_stop; [exact Ht | exact Hd |].
      apply Hc. rewrite Ht. reflexivity. }
    rewrite iter_bg_step_idle by exact Hidle. exact Hidle.
Qed.

(** From anywhere: four steps. *)
Lemma exit_within_four (m : machine) :
  closing m -> running (thread (Nat.iter 4 bg_step m)) = false.
Proof.
  intros Hc. destruct (running (thread m)) eqn:Hr.
  - destruct (thread m) eqn:Ht; try discriminate.
    + rewrite Nat.iter_succ_r.
      pose proof (closing_bg_step m Hc) as Hc1.
      destruct (bg_step_AtTop m Ht) as (_ & _ & [Hw | Hidle]).
      * apply exit_from_wait; assumption.
      * rewrite iter_bg_step_idle by exact Hidle. exact Hidle.
    + rewrite Nat.iter_succ.
      pose proof (exit_from_wait m Hc Ht) as H3.
      rewrite bg_step_idle by exact H3. exact H3.
  - rewrite iter_bg_step_idle by exact Hr. exact Hr.
Qed.

(** *** What survives the thread's steps *)

Lemma kept_refl m : kept m m.
Proof. split; auto. Qed.

Lemma kept_trans m1 m2 m3 : kept m1 m2 -> kept m2 m3 -> kept m1 m3.
Proof. intros [? ?] [? ?]. split; [auto | congruence]. Qed.

Lemma settle_kept (result : Z) (m : machine) :
  was_started (thread (settle (after_wait result m))) = true.
Proof.
  destruct (quiet_after_wait result m) as [_ Hr].
  destruct (after_wait result m) as [[] m' | e m' | m'];
    cbn [settle returns] in *; try reflexivity. discriminate.
Qed.

Lemma bg_step_kept (m : machine) : kept m (bg_step m).
Proof.
  destruct (thread m) eqn:Ht;
    try (rewrite bg_step_idle by (rewrite Ht; reflexivity); apply kept_refl).
  - unfold bg_step. rewrite Ht. unfold SetEvent_. cbn [event_state].
    destruct (DBWIN_BUFFER_READY m); split; reflexivity.
  - rewrite (bg_step_InWait m Ht).
    destruct (signaled H_DATA_READY m) eqn:Hd.
    + rewrite (wait_data m Hd). split; [intros _; apply settle_kept |].
      destruct (settle_frame (set_DBWIN_DATA_READY (Some false) m) WAIT_OBJECT_0)
        as (_ & _ & _ & _ & ->). reflexivity.
    + destruct (signaled H_STOP m) eqn:Hs.
      * rewrite (wait_stop m Hd Hs). split; [intros _; apply settle_kept |].
        destruct (settle_frame (set_stop (Some false) m) (WAIT_OBJECT_0 + 1))
          as (_ & _ & _ & _ & ->).
        unfold signaled in Hs. cbn [event_state] in Hs.
        destruct (stop m); [reflexivity | discriminate].
      * rewrite (wait_blocked m Hd Hs). apply kept_refl.
Qed.

Lemma deposit_kept (bytes : list byte) (m : machine) : kept m (deposit bytes m).
Proof.
  unfold deposit.
  destruct (DBWIN_BUFFER_READY m) as [[] |]; try apply kept_refl.
  destruct (DBWIN_DATA_READY m); try apply kept_refl.
  destruct (DBWIN_BUFFER m); try apply kept_refl.
  split; auto.
Qed.

Lemma await_exit_kept (os : list occurrence) (m : machine) :
  kept m (await_exit os m).
Proof.
  revert m. induction os as [| o os IH]; intros m; [apply kept_refl |].
  cbn [await_exit]. destruct (running (thread m)); [| apply kept_refl].
  eapply kept_trans; [| apply IH].
  destruct o; [apply deposit_kept | apply bg_step_kept].
Qed.

Lemma iter_bg_step_kept (n : nat) (m : machine) : kept m (Nat.iter n bg_step m).
Proof.
  induction n as [| n IH]; [apply kept_refl |].
  rewrite Nat.iter_succ. eapply kept_trans; [exact IH | apply bg_step_kept].
Qed.

(** *** [close] on a started session *)

Lemma started_parts (m : machine) :
  started m = true ->
  assigned (stop m) = true /\ was_started (thread m) = true
  /\ assigned (log_file m) = true /\ assigned (buffer m) = true.
Proof.
  unfold started, constructed. intros H.
  repeat (apply andb_true_iff in H as [H ?]). auto.
Qed.

Lemma joined_facts (during : list occurrence) (m : machine) :
  was_started (thread m) = true ->
  running (thread (joined during m)) = false
  /\ was_started (thread (joined during m)) = true
  /\ assigned (stop (joined during m)) = true
  /\ log_file (joined during m) = log_file m
  /\ option_map mclosed (buffer (joined during m)) = option_map mclosed (buffer m)
  /\ calls (joined during m) = calls m ++ [SetEvent H_STOP].
Proof.
  intros Hst. unfold joined.
  set (m2 := record_call (SetEvent H_STOP) (set_stop (Some true) m)).
  assert (Hc : closing m2) by (intros _; reflexivity).
  pose proof (closing_await_exit during m2 Hc) as Hc3.
  pose proof (exit_within_four _ Hc3) as Hrun.
  pose proof (frame_trans _ _ _ (await_exit_frame during m2)
                (iter_bg_step_frame 4 _)) as [_ Hlf _ Hmc Hcalls].
  pose proof (kept_trans _ _ _ (await_exit_kept during m2)
                (iter_bg_step_kept 4 _)) as [Hws Hstop].
  repeat split; auto.
Qed.

Lemma close_started (during : list occurrence) (m : machine) :
  started m = true ->
  LogDbgViewReal.close during m
  = (buffer_close ;; log_file_close) (record_call JoinThread (joined during m)).
Proof.
  intros Hs. destruct (started_parts m Hs) as (Hstop & Hws & _ & _).
  destruct (joined_facts during m Hws) as (Hrun & Hws' & _).
  unfold LogDbgViewReal.close, bind at 1. unfold SetEvent_. cbn [event_state].
  destruct (stop m) as [b |]; [| discriminate].
  cbn [set_event_state]. unfold bind at 1, modify.
  unfold bind at 1, Thread_join.
  change (was_started (thread (record_call _ (set_stop _ m))))
    with (was_started (thread m)).
  rewrite Hws. fold (joined during m). rewrite Hrun. reflexivity.
Qed.

Lemma release_ok (m : machine) :
  assigned (log_file m) = true -> assigned (buffer m) = true ->
  exists m',
    (buffer_close ;; log_file_close) m = Ok tt m'
    /\ calls m' = calls m ++ releases m
    /\ releases m' = []
    /\ files m' = files m /\ thread m' = thread m /\ stop m' = stop m
    /\ DBWIN_BUFFER_READY m' = DBWIN_BUFFER_READY m
    /\ DBWIN_DATA_READY m' = DBWIN_DATA_READY m
    /\ DBWIN_BUFFER m' = DBWIN_BUFFER m
    /\ assigned (log_file m') = true /\ assigned (buffer m') = true
    /\ (releases m = [] -> m' = m).
Proof.
  intros Hf Hb. unfold bind, buffer_close, log_file_close, releases.
  destruct (log_file m) as [[name fc] |] eqn:Ef; [| discriminate].
  destruct (buffer m) as [[bc pos] |] eqn:Eb; [| discriminate].
  destruct bc, fc; cbn; rewrite ?Ef, ?Eb; cbn;
    eexists; (split; [reflexivity |]); cbn; rewrite ?Ef, ?Eb; cbn;
    rewrite ?app_nil_r; repeat split; try reflexivity; try discriminate.
  rewrite <- app_assoc. reflexivity.
Qed.

(** *** The data-ready branch, seen from the thread *)

Lemma constructed_set_data_ready (b : bool) (m : machine) :
  constructed m = true ->
  constructed (set_DBWIN_DATA_READY (Some b) m) = true.
Proof.
  unfold constructed. cbn. intros H.
  repeat (apply andb_true_iff in H as [H ?]).
  repeat (apply andb_true_iff; split); auto.
Qed.

Lemma log_file_write_open (s : pystr) (m : machine) :
  session_open m = true ->
  log_file_write s m
  = if encodable (code_page m) s
    then Ok tt (set_files (<[log_name m := log_text m ++ s]> (files m)) m)
    else Raise UnicodeEncodeError m.
Proof.
  unfold session_open, log_file_write, log_name, log_text.
  destruct (log_file m) as [[name fc] |]; [| discriminate].
  destruct (buffer m); [| discriminate]. cbn.
  destruct fc; [discriminate | reflexivity].
Qed.

Lemma log_text_after_write (s : pystr) (m : machine) :
  assigned (log_file m) = true ->
  log_text (set_files (<[log_name m := s]> (files m)) m) = s.
Proof.
  unfold log_text, log_name. cbn.
  destruct (log_file m) as [f |]; [| discriminate]. intros _.
  rewrite lookup_insert_eq. reflexivity.
Qed.

Lemma bg_step_data_ready (m : machine) :
  constructed m = true -> session_open m = true ->
  thread m = InWait -> signaled H_DATA_READY m = true ->
  bg_step m =
    match utf8_decode (payload_bytes (payload_region (view m))) with
    | Some s =>
        if encodable (code_page m) (format_line (process_id_of (view m)) s)
        then
          set_thread AtTop
            (set_files
               (<[log_name m
                  := log_text m ++ format_line (process_id_of (view m)) s]>
                  (files m))
               (consumed m))
        else set_thread (Died UnicodeEncodeError) (consumed m)
    | None => set_thread (Died UnicodeDecodeError) (consumed m)
    end.
Proof.
  intros Hc Ho Ht Hd.
  rewrite (bg_step_InWait m Ht), (wait_data m Hd), after_wait_data.
  set (m1 := set_DBWIN_DATA_READY (Some false) m).
  assert (Hc1 : constructed m1 = true) by (apply constructed_set_data_ready; exact Hc).
  assert (Ho1 : session_open m1 = true) by exact Ho.
  assert (Hlen : buffer_length m1 = Some 4096).
  { unfold constructed in Hc1.
    repeat (apply andb_true_iff in Hc1 as [Hc1 ?]).
    destruct (buffer_length m1) as [n |]; [| discriminate].
    f_equal. lia. }
  unfold bind at 1. unfold get_buffer_length. rewrite Hlen.
  change (4096 - process_id_length) with 4092.
  unfold bind. rewrite (on_data_ready_open m1 Hc1 Ho1). cbv zeta.
  change (view m1) with (view m).
  destruct (utf8_decode _) as [s |]; [| reflexivity].
  rewrite log_file_write_open.
  - change (code_page (set_buffer _ m1)) with (code_page m).
    destruct (encodable (code_page m) _); reflexivity.
  - unfold session_open in *. cbn.
    destruct (log_file m) as [f |]; [| discriminate].
    destruct (buffer m); [| discriminate].
    apply andb_true_iff in Ho as [-> _]. reflexivity.
Qed.

Lemma thread_settle_data_not_stopped (m : machine) :
  thread (settle (after_wait WAIT_OBJECT_0 m)) <> Stopped.
Proof.
  destruct (quiet_after_wait WAIT_OBJECT_0 m) as [[_ _ _ _ _ Ht] Hr].
  destruct (after_wait WAIT_OBJECT_0 m) as [c m' | e m' | m'] eqn:E;
    cbn [settle returns final] in *; try discriminate.
  apply after_wait_data_continues in E. subst c. discriminate.
Qed.

Lemma bg_step_stop_only (m : machine) :
  thread m = InWait -> signaled H_DATA_READY m = false ->
  signaled H_STOP m = true -> assigned (buffer_length m) = true ->
  bg_step m = set_thread Stopped (set_stop (Some false) m).
Proof.
  intros Ht Hd Hs Hlen.
  rewrite (bg_step_InWait m Ht), (wait_stop m Hd Hs), after_wait_stop.
  unfold bind, get_buffer_length. cbn [buffer_length set_stop].
  destruct (buffer_length m); [reflexivity | discriminate].
Qed.

(** The loop is left through [break] only from a wait that found stop
    signaled and data-ready not. *)
Lemma bg_step_Stopped_inv (m : machine) :
  running (thread m) = true -> thread (bg_step m) = Stopped ->
  thread m = InWait /\ signaled H_DATA_READY m = false
  /\ signaled H_STOP m = true
  /\ bg_step m = set_thread Stopped (set_stop (Some false) m).
Proof.
  intros Hr Hs. destruct (thread m) eqn:Ht; try discriminate.
  - exfalso. unfold bg_step in Hs. rewrite Ht in Hs. unfold SetEvent_ in Hs.
    cbn [event_state] in Hs. destruct (DBWIN_BUFFER_READY m); discriminate.
  - destruct (signaled H_DATA_READY m) eqn:Hd.
    { exfalso. rewrite (bg_step_InWait m Ht), (wait_data m Hd) in Hs.
      exact (thread_settle_data_not_stopped _ Hs). }
    destruct (signaled H_STOP m) eqn:Hst.
    2:{ exfalso. rewrite (bg_step_InWait m Ht), (wait_blocked m Hd Hst) in Hs.
        congruence. }
    repeat split.
    destruct (buffer_length m) eqn:Hlen.
    + apply bg_step_stop_only; auto. rewrite Hlen. reflexivity.
    + exfalso. rewrite (bg_step_InWait m Ht), (wait_stop m Hd Hst) in Hs.
      rewrite after_wait_stop in Hs. unfold bind, get_buffer_length in Hs.
      cbn [buffer_length set_stop] in Hs. rewrite Hlen in Hs. discriminate.
Qed.

Lemma await_exit_idle (os : list occurrence) (m : machine) :
  running (thread m) = false -> await_exit os m = m.
Proof. intros H. destruct os; cbn [await_exit]; [| rewrite H]; reflexivity. Qed.

Lemma releases_eq (m m' : machine) :
  log_file m' = log_file m ->
  option_map mclosed (buffer m') = option_map mclosed (buffer m) ->
  releases m' = releases m.
Proof.
  intros Hf Hb. unfold releases. rewrite Hf. f_equal.
  destruct (buffer m') as [[c p] |], (buffer m) as [[c' p'] |];
    cbn in Hb; inversion Hb; reflexivity.
Qed.

Lemma assigned_option_map {A B} (f : A -> B) (o o' : option A) :
  option_map f o' = option_map f o -> assigned o' = assigned o.
Proof. destruct o, o'; cbn; intros H; inversion H; reflexivity. Qed.

(** [close] on a started session, with what it leaves behind. *)
Lemma close_started_result (during : list occurrence) (m : machine) :
  started m = true ->
  exists m',
    LogDbgViewReal.close during m = Ok tt m'
    /\ calls m' = calls m ++ [SetEvent H_STOP; JoinThread] ++ releases m
    /\ releases m' = []
    /\ running (thread m') = false
    /\ was_started (thread m') = true
    /\ assigned (stop m') = true
    /\ assigned (log_file m') = true /\ assigned (buffer m') = true.
Proof.
  intros Hs. rewrite (close_started during m Hs).
  destruct (started_parts m Hs) as (_ & Hws & Hlf & Hbf).
  destruct (joined_facts during m Hws) as (Hrun & Hws' & Hst & Hf & Hmc & Hcalls).
  set (j := record_call JoinThread (joined during m)).
  assert (Hfj : log_file j = log_file m) by exact Hf.
  assert (Hbj : option_map mclosed (buffer j) = option_map mclosed (buffer m))
    by exact Hmc.
  destruct (release_ok j) as (m' & Hrun' & Hc' & Hr' & _ & Ht' & Hs' & _ & _ & _ & Hl' & Hb' & _).
  { rewrite Hfj. exact Hlf. }
  { rewrite (assigned_option_map _ _ _ Hbj). exact Hbf. }
  exists m'. split; [exact Hrun' |].
  repeat split; try assumption.
  - rewrite Hc', (releases_eq m j Hfj Hbj). unfold j. cbn [calls record_call].
    rewrite Hcalls, <- !app_assoc. reflexivity.
  - rewrite Ht'. exact Hrun.
  - rewrite Ht'. exact Hws'.
  - rewrite Hs'. exact Hst.
Qed.

(** [close] on a session that is stopped already. *)
Lemma close_stopped (during : list occurrence) (m : machine) :
  assigned (stop m) = true -> was_started (thread m) = true ->
  running (thread m) = false ->
  assigned (log_file m) = true -> assigned (buffer m) = true ->
  releases m = [] ->
  LogDbgViewReal.close during m
  = Ok tt (record_call JoinThread
             (record_call (SetEvent H_STOP) (set_stop (Some true) m))).
Proof.
  intros Hst Hws Hrun Hlf Hbf Hrel.
  unfold LogDbgViewReal.close, bind at 1. unfold SetEvent_. cbn [event_state].
  destruct (stop m) as [b |]; [| discriminate].
  cbn [set_event_state]. unfold bind at 1, modify.
  unfold bind at 1, Thread_join.
  set (m2 := record_call (SetEvent H_STOP) (set_stop (Some true) m)).
  change (thread m2) with (thread m). rewrite Hws.
  rewrite await_exit_idle by exact Hrun.
  rewrite iter_bg_step_idle by exact Hrun.
  change (thread m2) with (thread m). rewrite Hrun.
  destruct (release_ok (record_call JoinThread m2) Hlf Hbf)
    as (m' & Hrun' & _ & _ & _ & _ & _ & _ & _ & _ & _ & _ & Hsame).
  rewrite Hrun'. f_equal. apply Hsame. exact Hrel.
Qed.

(** The step that leaves the wait on data-ready, by what the payload is. *)
Lemma data_ready_step (m : machine) :
  constructed m = true -> session_open m = true ->
  thread m = InWait -> signaled H_DATA_READY m = true ->
  match utf8_decode (payload_bytes (payload_region (view m))) with
  | Some s =>
      if encodable (code_page m) s then
        thread (bg_step m) = AtTop
        /\ log_text (bg_step m)
           = log_text m ++ format_line (process_id_of (view m)) s
      else
        thread (bg_step m) = Died UnicodeEncodeError
        /\ files (bg_step m) = files m
  | None =>
      thread (bg_step m) = Died UnicodeDecodeError
      /\ files (bg_step m) = files m
  end.
Proof.
  intros Hc Ho Ht Hd. rewrite (bg_step_data_ready m Hc Ho Ht Hd).
  destruct (utf8_decode _) as [s |]; [| split; reflexivity].
  rewrite encodable_format_line.
  destruct (encodable (code_page m) s); split; try reflexivity.
  change (log_text (set_thread AtTop (set_files ?fs (consumed m))))
    with (log_text (set_files fs m)).
  apply log_text_after_write.
  unfold session_open in Ho. destruct (log_file m); [reflexivity | discriminate].
Qed.

(** *** The constructor, step by step *)

Lemma CreateEvent_granted (h : handle) (m : machine) :
  refused m (event_resource h) = false -> CreateEvent_ h m = Ok tt (created h m).
Proof. intros H. unfold CreateEvent_. rewrite H. reflexivity. Qed.

Lemma CreateEvent_refused (h : handle) (m : machine) :
  refused m (event_resource h) = true ->
  CreateEvent_ h m = Raise pywintypes_error m.
Proof. intros H. unfold CreateEvent_. rewrite H. reflexivity. Qed.

Lemma mmap_granted (m : machine) :
  refused m ResBuffer = false ->
  match DBWIN_BUFFER m with
  | Some bs => (4096 <=? List.length bs)%nat
  | None => true
  end = true ->
  (b <- mmap_mmap 4096 "DBWIN_BUFFER" ;; modify (set_buffer (Some b))) m
  = Ok tt (mapped m).
Proof.
  intros H Hsec. unfold bind, mmap_mmap, mapped. rewrite H.
  destruct (DBWIN_BUFFER m) as [bs |]; [| reflexivity].
  apply Nat.leb_le in Hsec.
  destruct (Z.ltb_spec (Z.of_nat (List.length bs)) 4096); [lia | reflexivity].
Qed.

Lemma grants_all_parts (m : machine) :
  grants_all m = true ->
  refused m ResLogFile = false /\ refused m ResBufferReady = false
  /\ refused m ResDataReady = false /\ refused m ResStop = false
  /\ refused m ResBuffer = false
  /\ match DBWIN_BUFFER m with
     | Some bs => (4096 <=? List.length bs)%nat
     | None => true
     end = true.
Proof.
  unfold grants_all. cbn [forallb]. intros H.
  apply andb_true_iff in H as [H Hsec].
  repeat (apply andb_true_iff in H as [?%negb_true_iff H]). auto 10.
Qed.


Lemma constructed_after_init (name : string) (m : machine) :
  match DBWIN_BUFFER m with
  | Some bs => (4096 <=? List.length bs)%nat
  | None => true
  end = true ->
  constructed (after_init name m) = true.
Proof.
  destruct m as [fs br dr sec refuse cp lf st bl bf th cs].
  cbn [DBWIN_BUFFER]. intros Hsec.
  unfold constructed, after_init, mapped, created, opened.
  destruct sec as [bs |], br, dr;
    cbn -[repeat Z.to_nat Nat.leb insert];
    rewrite ?Hsec, ?repeat_length; vm_compute; reflexivity.
Qed.

(** The constructor, by the first resource that is refused. *)
Lemma init_outcome (name : string) (m : machine) :
  LogDbgViewReal.__init__ name m =
    if refused m ResLogFile then Raise OSError (set_thread Initial m)
    else if refused m ResBufferReady then
      Raise pywintypes_error (opened name m)
    else if refused m ResDataReady then
      Raise pywintypes_error (created H_BUFFER_READY (opened name m))
    else if refused m ResStop then
      Raise pywintypes_error
        (created H_DATA_READY (created H_BUFFER_READY (opened name m)))
    else
      (b <- mmap_mmap 4096 "DBWIN_BUFFER" ;; modify (set_buffer (Some b)))
        (set_buffer_length (Some 4096)
           (created H_STOP (created H_DATA_READY (created H_BUFFER_READY
              (opened name m))))).
Proof.
  destruct m as [fs br dr sec refuse cp lf st bl bf th cs].
  unfold LogDbgViewReal.__init__, bind, modify, open_w, CreateEvent_,
    mmap_mmap, opened, created.
  cbn [refused set_thread event_resource].
  destruct (refuse ResLogFile); [reflexivity |].
  cbn [refused set_thread set_files record_call set_log_file event_resource].
  destruct (refuse ResBufferReady); [reflexivity |].
  cbn [refused set_thread set_files record_call set_log_file event_resource
       set_event_state set_DBWIN_BUFFER_READY].
  destruct (refuse ResDataReady); [reflexivity |].
  cbn [refused set_thread set_files record_call set_log_file event_resource
       set_event_state set_DBWIN_BUFFER_READY set_DBWIN_DATA_READY].
  destruct (refuse ResStop); [reflexivity |].
  reflexivity.
Qed.

Lemma init_granted (name : string) (m : machine) :
  grants_all m = true ->
  LogDbgViewReal.__init__ name m = Ok tt (after_init name m).
Proof.
  intros H. destruct (grants_all_parts m H) as (H0 & H1 & H2 & H3 & H4 & Hsec).
  rewrite init_outcome, H0, H1, H2, H3.
  exact (mmap_granted
           (set_buffer_length (Some 4096)
              (created H_STOP (created H_DATA_READY (created H_BUFFER_READY
                 (opened name m)))))
           H4 Hsec).
Qed.

Lemma after_init_fields (name : string) (m : machine) :
  thread (after_init name m) = Initial
  /\ files (after_init name m) = <[name := []]> (files m)
  /\ log_file (after_init name m) = Some {| fname := name; fclosed := false |}
  /\ buffer (after_init name m) = Some {| mclosed := false; mpos := 0 |}
  /\ stop (after_init name m) = Some false
  /\ calls (after_init name m)
     = calls m ++ [OpenForWriting name;
                   CreateEvent (Some "DBWIN_BUFFER_READY"%string);
                   CreateEvent (Some "DBWIN_DATA_READY"%string);
                   CreateEvent None;
                   MapBuffer "DBWIN_BUFFER"].
Proof.
  destruct m as [fs br dr sec refuse cp lf st bl bf th cs].
  unfold after_init, mapped, created, opened.
  destruct sec as [bs |];
    cbn -[insert repeat Z.to_nat]; rewrite <- !app_assoc;
    do 5 (split; [reflexivity |]); reflexivity.
Qed.

(** *** Bodies *)

Lemma exec_meanwhile (x : pyvalue) (os : list occurrence) (m : machine) :
  exec x (map Meanwhile os) m = Ok tt (elapse os m).
Proof.
  revert m. induction os as [| o os IH]; intros m; [reflexivity |].
  cbn [map exec]. unfold bind. cbn [exec_stmt modify]. apply IH.
Qed.

Lemma exec_app (x : pyvalue) (b1 b2 : list stmt) (m : machine) :
  exec x (b1 ++ b2) m = (exec x b1 ;; exec x b2) m.
Proof.
  revert m. induction b1 as [| s b1 IH]; intros m; [reflexivity |].
  cbn [app exec]. unfold bind in *.
  destruct (exec_stmt x s m) as [[] m' | e m' | m']; try reflexivity.
  apply IH.
Qed.

(** A [with] statement whose body only lets time pass. *)
Lemma with_stmt_meanwhile (mgr : instance) (os during : list occurrence)
  (m : machine) :
  with_stmt mgr (map Meanwhile os) during m
  = (start mgr ;; exec (PyObject mgr) (map Meanwhile os) ;; close mgr during) m.
Proof.
  unfold with_stmt, __enter__, __exit__, bind, ret.
  destruct (start mgr m) as [[] m1 | e m1 | m1]; try reflexivity.
  rewrite !exec_meanwhile.
  destruct (close mgr during (elapse os m1)) as [[] m2 | e m2 | m2];
    reflexivity.
Qed.

Lemma bind_ext {A B} (c : M A) (k1 k2 : A -> M B) (m : machine) :
  (forall a m', k1 a m' = k2 a m') -> bind c k1 m = bind c k2 m.
Proof. intros H. unfold bind. destruct (c m); auto. Qed.

End MachineFacts.

(** ** Worked examples *)

Example format_line_100_foo :
  Bytes.format_line 100 (Bytes.of_ascii "foo")
  = Bytes.of_ascii "Process 100: foo" ++ [10].
Proof. reflexivity. Qed.

Example unpack_L_little_endian :
  Bytes.unpack_L [x78; x56; x34; x12] = Some 0x12345678.
Proof. reflexivity. Qed.

Example utf8_decode_euro : Bytes.utf8_decode [xe2; x82; xac] = Some [0x20AC].
Proof. reflexivity. Qed.

Example utf8_decode_overlong : Bytes.utf8_decode [xc0; x80] = None.
Proof. reflexivity. Qed.

Example utf8_decode_surrogate : Bytes.utf8_decode [xed; xa0; x80] = None.
Proof. reflexivity. Qed.

Example payload_bytes_stale_tail :
  Bytes.payload_bytes (bytes_of "hi" ++ [x00] ++ bytes_of "stale")
  = bytes_of "hi".
Proof. reflexivity. Qed.

(** Three messages sent to a running session, then [close]. *)
Example three_messages_logged :
  log_text
    (final (explicit_form (PyBool true) "L"
              (map Meanwhile
                 (send 100 "foo" ++ send 100 "bar" ++ send 200 "baz"))
              [] fresh_host))
  = of_ascii "Process 100: foo" ++ [10]
    ++ of_ascii "Process 100: bar" ++ [10]
    ++ of_ascii "Process 200: baz" ++ [10].
Proof. vm_compute. reflexivity. Qed.

(** A message deposited while the controller is already in [close] is
    still logged: data-ready is served before stop. *)
Example late_message_logged :
  log_text
    (final (explicit_form (PyBool true) "L" [Meanwhile Background]
              [Deposit (message 9 (bytes_of "late" ++ [x00]))] fresh_host))
  = of_ascii "Process 9: late" ++ [10].
Proof. vm_compute. reflexivity. Qed.

(** A message that is not UTF-8 ends the capture: the message after it is
    never logged, and [close] still returns. *)
Example capture_ends_at_invalid_message :
  explicit_form (PyBool true) "L"
    (map Meanwhile
       ([Background; Deposit (message 7 [xff; x00]); Background]
        ++ send 100 "foo"))
    [] fresh_host
  = Ok tt
      (final (explicit_form (PyBool true) "L"
                (map Meanwhile
                   [Background; Deposit (message 7 [xff; x00]); Background])
                [] fresh_host))
  /\ log_text
       (final (explicit_form (PyBool true) "L"
                 (map Meanwhile
                    ([Background; Deposit (message 7 [xff; x00]); Background]
                     ++ send 100 "foo"))
                 [] fresh_host))
     = []
  /\ thread
       (final (explicit_form (PyBool true) "L"
                 (map Meanwhile
                    ([Background; Deposit (message 7 [xff; x00]); Background]
                     ++ send 100 "foo"))
                 [] fresh_host))
     = Died UnicodeDecodeError.
Proof. vm_compute. repeat split; reflexivity. Qed.

(** The two forms of [LogDbgView.test] on the same messages. *)
Example scoped_form_logs_the_same :
  log_text
    (final (scoped_form (PyBool true) "L"
              (map Meanwhile (send 1 "hi" ++ send 1 "there")) [] fresh_host))
  = of_ascii "Process 1: hi" ++ [10] ++ of_ascii "Process 1: there" ++ [10].
Proof. vm_compute. reflexivity. Qed.

(** ** The capture loop *)

Import BytesFacts MachineFacts.

(** C1 (as amended): on data-ready, a snapshot whose selected payload bytes
    are valid UTF-8 and decode to text that the encoding of the log file
    (the preferred encoding of the locale) has is decoded and logged, and
    the loop goes on to its next iteration.  One whose bytes are not valid
    UTF-8 raises [UnicodeDecodeError] out of [run], and one whose text has a
    character the encoding of the log file does not have raises
    [UnicodeEncodeError] out of [run]: in both cases nothing is written and
    the thread ends. *)
Theorem capture_step_logs_or_dies (m : machine) :
  constructed m = true -> session_open m = true ->
  thread m = InWait -> signaled H_DATA_READY m = true ->
  match utf8_decode (payload_bytes (payload_region (view m))) with
  | Some s =>
      if encodable (code_page m) s then
        thread (bg_step m) = AtTop
        /\ log_text (bg_step m)
           = log_text m ++ format_line (process_id_of (view m)) s
      else
        thread (bg_step m) = Died UnicodeEncodeError
        /\ files (bg_step m) = files m
  | None =>
      thread (bg_step m) = Died UnicodeDecodeError
      /\ files (bg_step m) = files m
  end.
Proof. exact (data_ready_step m). Qed.

Lemma capture_step_logs_or_dies_witness :
  constructed holding_foo = true /\ session_open holding_foo = true
  /\ thread holding_foo = InWait /\ signaled H_DATA_READY holding_foo = true
  /\ thread (bg_step holding_foo) = AtTop
  /\ log_text (bg_step holding_foo) = of_ascii "Process 100: foo" ++ [10].
Proof.
  assert (Hc : constructed holding_foo = true) by (vm_compute; reflexivity).
  assert (Ho : session_open holding_foo = true) by (vm_compute; reflexivity).
  assert (Ht : thread holding_foo = InWait) by (vm_compute; reflexivity).
  assert (Hd : signaled H_DATA_READY holding_foo = true)
    by (vm_compute; reflexivity).
  pose proof (capture_step_logs_or_dies holding_foo Hc Ho Ht Hd) as H.
  assert (Hdec : utf8_decode (payload_bytes (payload_region (view holding_foo)))
                 = Some (of_ascii "foo")) by (vm_compute; reflexivity).
  assert (Henc : encodable (code_page holding_foo) (of_ascii "foo") = true)
    by (vm_compute; reflexivity).
  rewrite Hdec, Henc in H. destruct H as [H1 H2].
  split; [exact Hc |]. split; [exact Ho |]. split; [exact Ht |].
  split; [exact Hd |]. split; [exact H1 |].
  etransitivity; [exact H2 | vm_compute; reflexivity].
Defined.

(** C1, as stated, fails: a payload that is not UTF-8 ends the loop with
    nothing logged. *)
Lemma capture_step_raises_on_invalid_payload :
  thread holding_invalid = InWait
  /\ signaled H_DATA_READY holding_invalid = true
  /\ payload_bytes (payload_region (view holding_invalid)) = [xff]
  /\ thread (bg_step holding_invalid) = Died UnicodeDecodeError
  /\ log_text (bg_step holding_invalid) = log_text holding_invalid.
Proof. vm_compute. repeat split; reflexivity. Qed.

(** Text that decodes but that the encoding of the log file does not have
    ends the loop as well, with nothing logged. *)
Example capture_step_raises_on_unencodable_text :
  thread holding_unencodable = InWait
  /\ signaled H_DATA_READY holding_unencodable = true
  /\ utf8_decode (payload_bytes (payload_region (view holding_unencodable)))
     = Some [0x4E2D]
  /\ encodable (code_page holding_unencodable) [0x4E2D] = false
  /\ thread (bg_step holding_unencodable) = Died UnicodeEncodeError
  /\ log_text (bg_step holding_unencodable) = log_text holding_unencodable.
Proof. vm_compute. repeat split; reflexivity. Qed.

(** C4 (as amended): for a snapshot whose selected payload bytes are valid
    UTF-8 and decode to text that the encoding of the log file has, the
    decode-and-log branch writes the line
    [Process {id}: {payload}] and a newline, where the payload is the text
    of the bytes before the first NUL of the 4092-byte region when it has
    one, and of the whole region when it has none. *)
Theorem logged_line_stops_at_first_nul (m : machine) (s : pystr) :
  constructed m = true -> session_open m = true ->
  utf8_decode (payload_bytes (payload_region (view m))) = Some s ->
  encodable (code_page m) s = true ->
  List.length (payload_region (view m)) = 4092%nat
  /\ (exists m',
        on_data_ready 4092 m = Ok tt m'
        /\ log_text m'
           = log_text m ++ of_ascii "Process " ++ decimal (process_id_of (view m))
             ++ of_ascii ": " ++ s ++ [10])
  /\ (forall pre z post,
        payload_region (view m) = pre ++ z :: post ->
        contains0 pre = false -> byte_val z = 0 ->
        utf8_encode s = map byte_val pre)
  /\ (contains0 (payload_region (view m)) = false ->
      utf8_encode s = map byte_val (payload_region (view m))).
Proof.
  intros Hc Ho Hdec Henc. split; [| split; [| split]].
  - unfold payload_region. rewrite length_skipn, (view_length m Hc). reflexivity.
  - rewrite (on_data_ready_open m Hc Ho). cbv zeta. rewrite Hdec.
    rewrite log_file_write_open.
    + change (code_page (set_buffer _ m)) with (code_page m).
      rewrite encodable_format_line, Henc.
      eexists. split; [reflexivity |].
      change (log_text (set_files ?fs (set_buffer _ m)))
        with (log_text (set_files fs m)).
      change (log_name (set_buffer _ m)) with (log_name m).
      change (log_text (set_buffer _ m)) with (log_text m).
      change (files (set_buffer _ m)) with (files m).
      rewrite log_text_after_write; [reflexivity |].
      unfold session_open in Ho.
      destruct (log_file m); [reflexivity | discriminate].
    + unfold session_open in *. cbn.
      destruct (log_file m) as [f |]; [| discriminate].
      destruct (buffer m); [| discriminate].
      apply andb_true_iff in Ho as [-> _]. reflexivity.
  - intros pre z post Hsplit Hpre Hz. rewrite Hsplit in Hdec.
    rewrite payload_bytes_before_first_nul in Hdec by assumption.
    apply utf8_decode_encode. exact Hdec.
  - intros Hno. rewrite payload_bytes_no_nul in Hdec by exact Hno.
    apply utf8_decode_encode. exact Hdec.
Qed.

Lemma logged_line_stops_at_first_nul_witness :
  constructed holding_foo = true /\ session_open holding_foo = true
  /\ utf8_decode (payload_bytes (payload_region (view holding_foo)))
     = Some (of_ascii "foo")
  /\ (exists m',
        on_data_ready 4092 holding_foo = Ok tt m'
        /\ log_text m' = of_ascii "Process 100: foo" ++ [10])
  /\ utf8_encode (of_ascii "foo") = map byte_val (bytes_of "foo").
Proof.
  assert (Hc : constructed holding_foo = true) by (vm_compute; reflexivity).
  assert (Ho : session_open holding_foo = true) by (vm_compute; reflexivity).
  assert (Hdec : utf8_decode (payload_bytes (payload_region (view holding_foo)))
                 = Some (of_ascii "foo")) by (vm_compute; reflexivity).
  destruct (logged_line_stops_at_first_nul holding_foo _ Hc Ho Hdec
              ltac:(vm_compute; reflexivity))
    as (_ & (m' & Hrun & Hlog) & Hnul & _).
  split; [exact Hc |]. split; [exact Ho |]. split; [exact Hdec |]. split.
  - exists m'. split; [exact Hrun |].
    etransitivity; [exact Hlog | vm_compute; reflexivity].
  - apply (Hnul (bytes_of "foo") x00 (repeat x00 4088)); vm_compute; reflexivity.
Defined.

(** C4, as stated, fails: the bytes before the first NUL need not be text,
    and then no line is written. *)
Lemma no_line_for_undecodable_prefix :
  payload_region (view holding_cut_short) = [xc3; x00; xa9] ++ repeat x00 4089
  /\ (exists m',
        on_data_ready 4092 holding_cut_short = Raise UnicodeDecodeError m'
        /\ files m' = files holding_cut_short).
Proof.
  split; [vm_compute; reflexivity |].
  eexists. split; vm_compute; reflexivity.
Qed.

(** C10 (as amended): in the wait, data-ready has priority over stop.  When
    both are signaled the wait returns the data-ready index and resets
    data-ready only, so the data-ready branch runs first with stop still
    signaled for a later iteration; that branch logs the message and
    continues when the payload is valid UTF-8 and decodes to text that the
    encoding of the log file has.  The loop is left through
    [break] only from a wait that found data-ready not signaled, so never
    with a message consumed and not logged, and a wait that returns the stop
    index exits with nothing read or written. *)
Theorem data_ready_served_before_stop (m : machine) :
  (signaled H_DATA_READY m = true ->
   WaitForMultipleObjects events m
   = Some (WAIT_OBJECT_0, set_DBWIN_DATA_READY (Some false) m))
  /\ (constructed m = true -> session_open m = true -> thread m = InWait ->
      signaled H_DATA_READY m = true -> signaled H_STOP m = true ->
      signaled H_STOP (bg_step m) = true
      /\ forall s,
           utf8_decode (payload_bytes (payload_region (view m))) = Some s ->
           encodable (code_page m) s = true ->
           thread (bg_step m) = AtTop
           /\ log_text (bg_step m)
              = log_text m ++ format_line (process_id_of (view m)) s)
  /\ (running (thread m) = true -> thread (bg_step m) = Stopped ->
      thread m = InWait /\ signaled H_DATA_READY m = false
      /\ signaled H_STOP m = true
      /\ bg_step m = set_thread Stopped (set_stop (Some false) m))
  /\ (thread m = InWait -> signaled H_DATA_READY m = false ->
      signaled H_STOP m = true -> assigned (buffer_length m) = true ->
      bg_step m = set_thread Stopped (set_stop (Some false) m)
      /\ files (bg_step m) = files m /\ buffer (bg_step m) = buffer m).
Proof.
  split; [| split; [| split]].
  - apply wait_data.
  - intros Hc Ho Ht Hd Hs. split.
    + destruct (bg_step_InWait_data m Ht Hd) as (Hstop & _ & _).
      unfold signaled in *. cbn [event_state] in *. rewrite Hstop. exact Hs.
    + intros s Hdec Henc.
      pose proof (data_ready_step m Hc Ho Ht Hd) as H.
      rewrite Hdec, Henc in H. exact H.
  - apply bg_step_Stopped_inv.
  - intros Ht Hd Hs Hlen.
    rewrite (bg_step_stop_only m Ht Hd Hs Hlen). repeat split.
Qed.

Lemma data_ready_served_before_stop_witness :
  (signaled H_DATA_READY both_signaled_foo = true
   /\ signaled H_STOP both_signaled_foo = true
   /\ thread both_signaled_foo = InWait
   /\ thread (bg_step both_signaled_foo) = AtTop
   /\ signaled H_STOP (bg_step both_signaled_foo) = true
   /\ log_text (bg_step both_signaled_foo) = of_ascii "Process 100: foo" ++ [10])
  /\ (signaled H_DATA_READY stop_signaled = false
      /\ signaled H_STOP stop_signaled = true
      /\ thread (bg_step stop_signaled) = Stopped
      /\ files (bg_step stop_signaled) = files stop_signaled).
Proof.
  destruct (data_ready_served_before_stop both_signaled_foo)
    as (_ & Hboth & _ & _).
  destruct (data_ready_served_before_stop stop_signaled)
    as (_ & _ & _ & Hstop).
  assert (Hd : signaled H_DATA_READY both_signaled_foo = true)
    by (vm_compute; reflexivity).
  assert (Hs : signaled H_STOP both_signaled_foo = true)
    by (vm_compute; reflexivity).
  assert (Ht : thread both_signaled_foo = InWait) by (vm_compute; reflexivity).
  destruct (Hboth ltac:(vm_compute; reflexivity) ltac:(vm_compute; reflexivity)
              Ht Hd Hs) as [Hkeep Hlog].
  destruct (Hlog (of_ascii "foo") ltac:(vm_compute; reflexivity)
              ltac:(vm_compute; reflexivity)) as [Htop Htext].
  assert (Hd' : signaled H_DATA_READY stop_signaled = false)
    by (vm_compute; reflexivity).
  assert (Hs' : signaled H_STOP stop_signaled = true)
    by (vm_compute; reflexivity).
  destruct (Hstop ltac:(vm_compute; reflexivity) Hd' Hs'
              ltac:(vm_compute; reflexivity)) as (Hexit & Hfiles & _).
  split; [| split; [exact Hd' | split; [exact Hs' | split]]].
  - split; [exact Hd |]. split; [exact Hs |]. split; [exact Ht |].
    split; [exact Htop |]. split; [exact Hkeep |].
    etransitivity; [exact Htext | vm_compute; reflexivity].
  - rewrite Hexit. reflexivity.
  - exact Hfiles.
Defined.

(** C10, as stated, fails: with both events signaled and a payload that is
    not UTF-8, the message is consumed, nothing is logged and the loop ends
    without a further iteration. *)
Lemma pending_message_consumed_but_not_logged :
  thread both_signaled_invalid = InWait
  /\ signaled H_DATA_READY both_signaled_invalid = true
  /\ signaled H_STOP both_signaled_invalid = true
  /\ signaled H_DATA_READY (bg_step both_signaled_invalid) = false
  /\ option_map mpos (buffer (bg_step both_signaled_invalid)) = Some 4096%nat
  /\ log_text (bg_step both_signaled_invalid) = log_text both_signaled_invalid
  /\ thread (bg_step both_signaled_invalid) = Died UnicodeDecodeError
  /\ bg_step (bg_step both_signaled_invalid) = bg_step both_signaled_invalid.
Proof.
  do 7 (split; [vm_compute; reflexivity |]).
  apply bg_step_idle. vm_compute. reflexivity.
Qed.

(** ** Teardown *)

(** C3: [close] on a started session signals stop, joins the background
    thread, then unmaps the buffer, then closes the log file, each release
    being made once; when [close] returns the background thread is no longer
    running. *)
Theorem close_tears_down_in_order (during : list occurrence) (m : machine) :
  started m = true ->
  exists m',
    close LogDbgViewReal_object during m = Ok tt m'
    /\ calls m' = calls m ++ [SetEvent H_STOP; JoinThread] ++ releases m
    /\ (session_open m = true ->
        releases m = [UnmapBuffer; CloseFile (log_name m)])
    /\ releases m' = []
    /\ running (thread m') = false.
Proof.
  intros Hs.
  destruct (close_started_result during m Hs)
    as (m' & Hrun & Hcalls & Hrel & Hthr & _).
  exists m'. repeat split; try assumption.
  unfold session_open, releases, log_name.
  destruct (log_file m) as [[name fc] |]; [| discriminate].
  destruct (buffer m) as [[bc pos] |]; [| discriminate].
  cbn. destruct fc, bc; cbn; try discriminate. reflexivity.
Qed.

Lemma close_tears_down_in_order_witness :
  started after_three = true
  /\ exists m',
       close LogDbgViewReal_object [] after_three = Ok tt m'
       /\ calls m' = calls after_three
                     ++ [SetEvent H_STOP; JoinThread; UnmapBuffer; CloseFile "L"]
       /\ running (thread m') = false.
Proof.
  assert (Hs : started after_three = true) by (vm_compute; reflexivity).
  split; [exact Hs |].
  destruct (close_tears_down_in_order [] after_three Hs)
    as (m' & Hrun & Hcalls & Hopen & _ & Hthr).
  exists m'. split; [exact Hrun |]. split; [| exact Hthr].
  rewrite Hcalls, Hopen by (vm_compute; reflexivity).
  vm_compute. reflexivity.
Defined.

(** C2 (as amended): a second [close] on a session that was started and
    closed does not raise, writes nothing to the log and releases nothing;
    it signals the private stop event once more and joins the finished
    thread, and changes nothing else. *)
Theorem second_close_signals_stop_again (d1 d2 : list occurrence) (m : machine) :
  started m = true ->
  let m1 := final (close LogDbgViewReal_object d1 m) in
  let m2 := final (close LogDbgViewReal_object d2 m1) in
  close LogDbgViewReal_object d2 m1
  = Ok tt (record_call JoinThread
             (record_call (SetEvent H_STOP) (set_stop (Some true) m1)))
  /\ files m2 = files m1 /\ log_file m2 = log_file m1
  /\ buffer m2 = buffer m1 /\ thread m2 = thread m1
  /\ DBWIN_BUFFER m2 = DBWIN_BUFFER m1
  /\ DBWIN_BUFFER_READY m2 = DBWIN_BUFFER_READY m1
  /\ DBWIN_DATA_READY m2 = DBWIN_DATA_READY m1
  /\ stop m2 = Some true
  /\ calls m2 = calls m1 ++ [SetEvent H_STOP; JoinThread].
Proof.
  intros Hs m1 m2.
  destruct (close_started_result d1 m Hs)
    as (m' & Hrun & _ & Hrel & Hthr & Hws & Hst & Hlf & Hbf).
  assert (Hm1 : m1 = m').
  { unfold m1. cbn [close]. rewrite Hrun. reflexivity. }
  assert (Hsecond : close LogDbgViewReal_object d2 m1
                    = Ok tt (record_call JoinThread
                               (record_call (SetEvent H_STOP)
                                  (set_stop (Some true) m1)))).
  { rewrite Hm1. apply close_stopped; assumption. }
  split; [exact Hsecond |].
  unfold m2. rewrite Hsecond. cbn. rewrite <- app_assoc.
  repeat split; reflexivity.
Qed.

(** The session of [after_three], closed once. *)
Lemma second_close_signals_stop_again_witness :
  started after_three = true
  /\ stop (final (close LogDbgViewReal_object [] after_three)) = Some false
  /\ stop (final (close LogDbgViewReal_object []
                    (final (close LogDbgViewReal_object [] after_three))))
     = Some true
  /\ files (final (close LogDbgViewReal_object []
                     (final (close LogDbgViewReal_object [] after_three))))
     = files (final (close LogDbgViewReal_object [] after_three)).
Proof.
  assert (Hs : started after_three = true) by (vm_compute; reflexivity).
  destruct (second_close_signals_stop_again [] [] after_three Hs)
    as (_ & Hfiles & _ & _ & _ & _ & _ & _ & Hstop & _).
  split; [exact Hs |]. split; [vm_compute; reflexivity |].
  split; [exact Hstop | exact Hfiles].
Defined.

(** C2, as stated, fails: the second [close] is not a no-op, it sets the
    stop event that the exiting thread had reset. *)
Lemma second_close_changes_the_stop_event :
  let m1 := final (close LogDbgViewReal_object [] after_three) in
  stop m1 = Some false
  /\ close LogDbgViewReal_object [] m1 <> Ok tt m1
  /\ stop (final (close LogDbgViewReal_object [] m1)) = Some true
  /\ calls (final (close LogDbgViewReal_object [] m1))
     = calls m1 ++ [SetEvent H_STOP; JoinThread].
Proof.
  cbv zeta. split; [vm_compute; reflexivity |]. split.
  - intros H.
    apply (f_equal (fun o => stop (final o))) in H.
    vm_compute in H. discriminate.
  - split; vm_compute; reflexivity.
Qed.

(** ** Construction *)

(** C5 (as amended): the log file is opened for writing, truncating it, and
    the two named events, the private stop event and the 4096-byte view of
    the shared buffer are created or attached when the session object is
    constructed, before [start()] is called; [start()] acquires nothing, it
    only launches the background thread. *)
Theorem resources_acquired_by_constructor (log_file_name : string) (m : machine) :
  grants_all m = true ->
  exists m1,
    makeLogDbgView (PyBool true) log_file_name m = Ok LogDbgViewReal_object m1
    /\ thread m1 = Initial
    /\ files m1 = <[log_file_name := []]> (files m)
    /\ log_file m1 = Some {| fname := log_file_name; fclosed := false |}
    /\ buffer m1 = Some {| mclosed := false; mpos := 0 |}
    /\ stop m1 = Some false
    /\ constructed m1 = true
    /\ calls m1 = calls m ++ [OpenForWriting log_file_name;
                              CreateEvent (Some "DBWIN_BUFFER_READY"%string);
                              CreateEvent (Some "DBWIN_DATA_READY"%string);
                              CreateEvent None;
                              MapBuffer "DBWIN_BUFFER"]
    /\ start LogDbgViewReal_object m1
       = Ok tt (record_call StartThread (set_thread AtTop m1)).
Proof.
  intros H. exists (after_init log_file_name m).
  destruct (grants_all_parts m H) as (_ & _ & _ & _ & _ & Hsec).
  destruct (after_init_fields log_file_name m)
    as (Hth & Hfs & Hlf & Hbf & Hst & Hcalls).
  unfold makeLogDbgView, eq_True, bind. rewrite (init_granted _ _ H).
  split; [reflexivity |].
  split; [exact Hth |]. split; [exact Hfs |]. split; [exact Hlf |].
  split; [exact Hbf |]. split; [exact Hst |].
  split; [apply constructed_after_init; exact Hsec |].
  split; [exact Hcalls |].
  cbn [start]. unfold Thread_start. rewrite Hth. reflexivity.
Qed.

Lemma resources_acquired_by_constructor_witness :
  grants_all fresh_host = true
  /\ exists m1,
       makeLogDbgView (PyBool true) "L" fresh_host = Ok LogDbgViewReal_object m1
       /\ thread m1 = Initial
       /\ files m1 !! "L"%string = Some []
       /\ constructed m1 = true.
Proof.
  assert (H : grants_all fresh_host = true) by (vm_compute; reflexivity).
  split; [exact H |].
  destruct (resources_acquired_by_constructor "L" fresh_host H)
    as (m1 & Hmk & Hth & Hfiles & _ & _ & _ & Hc & _).
  exists m1. split; [exact Hmk |]. split; [exact Hth |]. split; [| exact Hc].
  rewrite Hfiles. apply lookup_insert_eq.
Defined.

(** C5, as stated, fails: with [start()] never called, the log file has
    been truncated and the events and the mapping exist. *)
Lemma resources_held_before_start :
  files fresh_host !! "L"%string = Some (of_ascii "stale")
  /\ DBWIN_BUFFER_READY fresh_host = None
  /\ DBWIN_BUFFER fresh_host = None
  /\ exists m1,
       makeLogDbgView (PyBool true) "L" fresh_host = Ok LogDbgViewReal_object m1
       /\ thread m1 = Initial
       /\ files m1 !! "L"%string = Some []
       /\ log_file m1 = Some {| fname := "L"; fclosed := false |}
       /\ DBWIN_BUFFER_READY m1 = Some false
       /\ DBWIN_DATA_READY m1 = Some false
       /\ stop m1 = Some false
       /\ option_map (@List.length byte) (DBWIN_BUFFER m1) = Some 4096%nat
       /\ calls m1 = [OpenForWriting "L";
                      CreateEvent (Some "DBWIN_BUFFER_READY"%string);
                      CreateEvent (Some "DBWIN_DATA_READY"%string);
                      CreateEvent None;
                      MapBuffer "DBWIN_BUFFER"].
Proof.
  do 3 (split; [vm_compute; reflexivity |]).
  eexists. split; [vm_compute; reflexivity |].
  do 7 (split; [vm_compute; reflexivity |]). vm_compute. reflexivity.
Qed.

(** What the constructor has acquired and assigned when it reaches a
    stage. *)
Lemma reached_fields (r : resource) (name : string) (m : machine) :
  thread (reached r name m) = Initial
  /\ calls (reached r name m) = calls m ++ acquired_before r name
  /\ (before ResLogFile r = true ->
      log_file (reached r name m) = Some {| fname := name; fclosed := false |}
      /\ files (reached r name m) = <[name := []]> (files m))
  /\ (before ResBufferReady r = true ->
      DBWIN_BUFFER_READY (reached r name m) = Some (signaled H_BUFFER_READY m))
  /\ (before ResDataReady r = true ->
      DBWIN_DATA_READY (reached r name m) = Some (signaled H_DATA_READY m))
  /\ (before ResStop r = true -> stop (reached r name m) = Some false)
  /\ DBWIN_BUFFER (reached r name m) = DBWIN_BUFFER m
  /\ refused (reached r name m) = refused m.
Proof.
  destruct m as [fs br dr sec refuse cp lf st bl bf th cs].
  unfold reached, opened, created, signaled, acquired_before, before.
  destruct r, br as [[] |], dr as [[] |];
    cbn -[insert]; rewrite <- ?app_assoc, ?app_nil_r;
    repeat split; intros; try reflexivity; discriminate.
Qed.

Lemma mmap_fails (m : machine) :
  refused m ResBuffer
  || match DBWIN_BUFFER m with
     | Some bs => (List.length bs <? 4096)%nat
     | None => false
     end = true ->
  (b <- mmap_mmap 4096 "DBWIN_BUFFER" ;; modify (set_buffer (Some b))) m
  = Raise OSError m.
Proof.
  intros H. unfold bind, mmap_mmap.
  destruct (refused m ResBuffer); [reflexivity |]. cbn [orb] in H.
  destruct (DBWIN_BUFFER m) as [bs |]; [| discriminate].
  apply Nat.ltb_lt in H.
  destruct (Z.ltb_spec (Z.of_nat (List.length bs)) 4096); [reflexivity | lia].
Qed.

(** C6 (as amended): when the system fails one of the requests of the
    constructor (it refuses the log file, one of the events or the mapping,
    or the named section exists and is too short for the view), the error
    is raised to the caller and no session is started; the constructor
    releases nothing, so everything it acquired before the failure stays
    acquired: the log file, once opened, is left truncated and open, and
    every event created before the failure still exists, in the state its
    creation gave it. *)
Theorem failed_construction_releases_nothing
  (log_file_name : string) (m : machine) :
  grants_all m = false ->
  exists r,
    first_failure m = Some r
    /\ makeLogDbgView (PyBool true) log_file_name m
       = Raise (error_of r) (reached r log_file_name m)
    /\ thread (reached r log_file_name m) = Initial
    /\ calls (reached r log_file_name m)
       = calls m ++ acquired_before r log_file_name
    /\ (before ResLogFile r = true ->
        log_file (reached r log_file_name m)
        = Some {| fname := log_file_name; fclosed := false |}
        /\ files (reached r log_file_name m)
           = <[log_file_name := []]> (files m))
    /\ (before ResBufferReady r = true ->
        DBWIN_BUFFER_READY (reached r log_file_name m)
        = Some (signaled H_BUFFER_READY m))
    /\ (before ResDataReady r = true ->
        DBWIN_DATA_READY (reached r log_file_name m)
        = Some (signaled H_DATA_READY m))
    /\ (before ResStop r = true ->
        stop (reached r log_file_name m) = Some false)
    /\ DBWIN_BUFFER (reached r log_file_name m) = DBWIN_BUFFER m.
Proof.
  intros Hg.
  assert (Hfields : forall r,
            thread (reached r log_file_name m) = Initial
            /\ calls (reached r log_file_name m)
               = calls m ++ acquired_before r log_file_name
            /\ (before ResLogFile r = true ->
                log_file (reached r log_file_name m)
                = Some {| fname := log_file_name; fclosed := false |}
                /\ files (reached r log_file_name m)
                   = <[log_file_name := []]> (files m))
            /\ (before ResBufferReady r = true ->
                DBWIN_BUFFER_READY (reached r log_file_name m)
                = Some (signaled H_BUFFER_READY m))
            /\ (before ResDataReady r = true ->
                DBWIN_DATA_READY (reached r log_file_name m)
                = Some (signaled H_DATA_READY m))
            /\ (before ResStop r = true ->
                stop (reached r log_file_name m) = Some false)
            /\ DBWIN_BUFFER (reached r log_file_name m) = DBWIN_BUFFER m).
  { intros r.
    destruct (reached_fields r log_file_name m)
      as (H1 & H2 & H3 & H4 & H5 & H6 & H7 & _).
    split; [exact H1 |]. split; [exact H2 |]. split; [exact H3 |].
    split; [exact H4 |]. split; [exact H5 |]. split; [exact H6 | exact H7]. }
  assert (Hmk : makeLogDbgView (PyBool true) log_file_name m
                = match LogDbgViewReal.__init__ log_file_name m with
                  | Ok _ m0 => Ok LogDbgViewReal_object m0
                  | Raise e m0 => Raise e m0
                  | Hang m0 => Hang m0
                  end) by reflexivity.
  rewrite Hmk, init_outcome. clear Hmk.
  unfold first_failure, stages, fails, grants_all in *.
  cbn [find forallb] in *.
  destruct (refused m ResLogFile) eqn:H0; cbn [orb negb andb] in *.
  { exists ResLogFile. split; [reflexivity |]. split; [reflexivity |].
    apply Hfields. }
  destruct (refused m ResBufferReady) eqn:H1; cbn [orb negb andb] in *.
  { exists ResBufferReady. split; [reflexivity |]. split; [reflexivity |].
    apply Hfields. }
  destruct (refused m ResDataReady) eqn:H2; cbn [orb negb andb] in *.
  { exists ResDataReady. split; [reflexivity |]. split; [reflexivity |].
    apply Hfields. }
  destruct (refused m ResStop) eqn:H3; cbn [orb negb andb] in *.
  { exists ResStop. split; [reflexivity |]. split; [reflexivity |].
    apply Hfields. }
  assert (Hfail : refused m ResBuffer
                  || match DBWIN_BUFFER m with
                     | Some bs => (List.length bs <? 4096)%nat
                     | None => false
                     end = true).
  { destruct (refused m ResBuffer); [reflexivity |]. cbn [orb negb andb] in *.
    destruct (DBWIN_BUFFER m) as [bs |]; [| discriminate].
    apply Nat.ltb_lt. apply Nat.leb_gt. exact Hg. }
  exists ResBuffer. rewrite Hfail. split; [reflexivity |].
  split; [| apply Hfields].
  change (set_buffer_length (Some 4096)
            (created H_STOP (created H_DATA_READY (created H_BUFFER_READY
               (opened log_file_name m)))))
    with (reached ResBuffer log_file_name m).
  rewrite mmap_fails; [reflexivity |].
  destruct (reached_fields ResBuffer log_file_name m)
    as (_ & _ & _ & _ & _ & _ & Hsec & Href).
  rewrite Hsec, Href. exact Hfail.
Qed.

Lemma failed_construction_releases_nothing_witness :
  grants_all (host_refusing ResDataReady) = false
  /\ exists m',
       makeLogDbgView (PyBool true) "L" (host_refusing ResDataReady)
       = Raise pywintypes_error m'
       /\ thread m' = Initial
       /\ log_file m' = Some {| fname := "L"; fclosed := false |}
       /\ DBWIN_BUFFER_READY m' = Some false.
Proof.
  assert (H : grants_all (host_refusing ResDataReady) = false)
    by (vm_compute; reflexivity).
  split; [exact H |].
  destruct (failed_construction_releases_nothing "L" _ H)
    as (r & Hr & Hmk & Hth & _ & Hopen & Hbr & _).
  assert (E : r = ResDataReady).
  { vm_compute in Hr. inversion Hr. reflexivity. }
  subst r. eexists. split; [exact Hmk |]. split; [exact Hth |].
  split; [apply Hopen; reflexivity |].
  etransitivity; [apply Hbr; reflexivity | vm_compute; reflexivity].
Defined.

(** The mapping also fails when the named section exists and is too short:
    the three events and the open log file are left behind. *)
Example short_section_fails_the_mapping :
  refused host_with_short_section ResBuffer = false
  /\ first_failure host_with_short_section = Some ResBuffer
  /\ exists m',
       makeLogDbgView (PyBool true) "L" host_with_short_section
       = Raise OSError m'
       /\ log_file m' = Some {| fname := "L"; fclosed := false |}
       /\ DBWIN_BUFFER_READY m' = Some false
       /\ DBWIN_DATA_READY m' = Some false
       /\ stop m' = Some false.
Proof.
  split; [reflexivity |]. split; [vm_compute; reflexivity |].
  eexists. split; [vm_compute; reflexivity |].
  repeat split; vm_compute; reflexivity.
Qed.

(** C6, as stated, fails: when the mapping is refused, the error surfaces
    with the log file truncated and still open and the three events
    created, and nothing was released on the way. *)
Lemma refused_mapping_leaves_log_file_open :
  files (host_refusing ResBuffer) !! "L"%string = Some (of_ascii "stale")
  /\ exists m',
       makeLogDbgView (PyBool true) "L" (host_refusing ResBuffer)
       = Raise OSError m'
       /\ log_file m' = Some {| fname := "L"; fclosed := false |}
       /\ files m' !! "L"%string = Some []
       /\ DBWIN_BUFFER_READY m' = Some false
       /\ DBWIN_DATA_READY m' = Some false
       /\ stop m' = Some false
       /\ calls m' = [OpenForWriting "L";
                      CreateEvent (Some "DBWIN_BUFFER_READY"%string);
                      CreateEvent (Some "DBWIN_DATA_READY"%string);
                      CreateEvent None].
Proof.
  split; [vm_compute; reflexivity |].
  eexists. split; [vm_compute; reflexivity |].
  do 5 (split; [vm_compute; reflexivity |]). vm_compute. reflexivity.
Qed.

(** ** The session factory and the scoped form *)

(** C7: the session made with capture disabled is a [LogDbgView]; its
    construction, [start()] and [close()] (and so [__enter__] and
    [__exit__]) leave the machine as it is: no file is created or written,
    no named object is opened or signaled.  A program run with it ends in
    the state the rest of the system alone produces. *)
Theorem null_session_touches_nothing
  (log_file_name : string) (os during : list occurrence) (m : machine) :
  makeLogDbgView (PyBool false) log_file_name m = Ok LogDbgView_object m
  /\ start LogDbgView_object m = Ok tt m
  /\ close LogDbgView_object during m = Ok tt m
  /\ __enter__ LogDbgView_object m = Ok PyNone m
  /\ __exit__ LogDbgView_object during m = Ok PyNone m
  /\ explicit_form (PyBool false) log_file_name (map Meanwhile os) during m
     = Ok tt (elapse os m)
  /\ scoped_form (PyBool false) log_file_name (map Meanwhile os) during m
     = Ok tt (elapse os m).
Proof.
  assert (Hmake : makeLogDbgView (PyBool false) log_file_name m
                  = Ok LogDbgView_object m) by reflexivity.
  do 5 (split; [reflexivity |]). split.
  - unfold explicit_form. unfold bind at 1. rewrite Hmake.
    unfold bind at 1. change (start LogDbgView_object m) with (Ok tt m).
    cbv iota beta. unfold bind at 1. rewrite exec_meanwhile. reflexivity.
  - unfold scoped_form. unfold bind at 1. rewrite Hmake.
    unfold with_stmt.
    change (__enter__ LogDbgView_object m) with (@Ok pyvalue PyNone m).
    cbv iota beta. rewrite exec_meanwhile. reflexivity.
Qed.

(** C8: for every sequence of deposits and thread steps, the [with]
    statement and the explicit [start()] ... [close()] form end in the same
    outcome on the same machine; in particular the log file holds the same
    text. *)
Theorem scoped_form_equals_explicit_form
  (log_debug_strings : pyvalue) (log_file_name : string)
  (os during : list occurrence) (m : machine) :
  scoped_form log_debug_strings log_file_name (map Meanwhile os) during m
  = explicit_form log_debug_strings log_file_name (map Meanwhile os) during m
  /\ files (final (scoped_form log_debug_strings log_file_name
                     (map Meanwhile os) during m)) !! log_file_name
     = files (final (explicit_form log_debug_strings log_file_name
                       (map Meanwhile os) during m)) !! log_file_name.
Proof.
  assert (H : scoped_form log_debug_strings log_file_name (map Meanwhile os)
                during m
              = explicit_form log_debug_strings log_file_name
                  (map Meanwhile os) during m).
  { unfold scoped_form, explicit_form. apply bind_ext. intros mgr m0.
    apply with_stmt_meanwhile. }
  split; [exact H | rewrite H; reflexivity].
Qed.

(** C9: [__enter__] calls [start()] and returns [None], for both classes;
    a call of a session method on [None] raises [AttributeError]; so in
    [with ... as x] the body runs with [x] bound to [None], and a body that
    calls a method on [x] raises there, after which [__exit__] runs and the
    error is raised again. *)
Theorem enter_returns_None
  (self : instance) (a : method) (pre during during' : list occurrence)
  (post : list stmt) (m : machine) :
  __enter__ self m
  = match start self m with
    | Ok _ m1 => Ok PyNone m1
    | Raise e m1 => Raise e m1
    | Hang m1 => Hang m1
    end
  /\ call_method PyNone a during m = Raise AttributeError m
  /\ exec PyNone (map Meanwhile pre ++ Invoke a during :: post) m
     = Raise AttributeError (elapse pre m)
  /\ with_stmt self (map Meanwhile pre ++ Invoke a during :: post) during' m
     = match start self m with
       | Ok _ m1 =>
           match __exit__ self during' (elapse pre m1) with
           | Ok _ m2 => Raise AttributeError m2
           | Raise e m2 => Raise e m2
           | Hang m2 => Hang m2
           end
       | Raise e m1 => Raise e m1
       | Hang m1 => Hang m1
       end.
Proof.
  assert (Hexec : forall m0,
             exec PyNone (map Meanwhile pre ++ Invoke a during :: post) m0
             = Raise AttributeError (elapse pre m0)).
  { intros m0. rewrite exec_app. unfold bind at 1. rewrite exec_meanwhile.
    reflexivity. }
  split; [| split; [reflexivity | split; [apply Hexec |]]].
  - unfold __enter__, bind. destruct (start self m) as [[] m1 | e m1 | m1];
      reflexivity.
  - unfold with_stmt, __enter__. unfold bind at 1.
    destruct (start self m) as [[] m1 | e m1 | m1]; try reflexivity.
    cbn [ret]. rewrite Hexec.
    unfold __exit__, bind.
    destruct (close self during' (elapse pre m1)) as [[] m2 | e m2 | m2];
      reflexivity.
Qed.

(** * Further properties of the code *)

(** ** Further properties of the byte layer *)

Lemma contains0_cons (b : byte) (bs : list byte) :
  contains0 (b :: bs) = false -> byte_val b <> 0 /\ contains0 bs = false.
Proof.
  unfold contains0. cbn [existsb]. intros H.
  apply orb_false_iff in H as [Hb Hbs]. split; [lia | exact Hbs].
Qed.

Lemma contains0_firstn_index0 (data : list byte) :
  contains0 (firstn (index0 data) data) = false.
Proof.
  induction data as [| b data IH]; [reflexivity |].
  cbn [index0]. destruct (Z.eqb_spec (byte_val b) 0) as [Hz | Hz];
    [reflexivity |].
  cbn [firstn]. unfold contains0 in *. cbn [existsb]. rewrite IH.
  destruct (Z.eqb_spec (byte_val b) 0); [contradiction | reflexivity].
Qed.

Lemma contains0_payload_bytes (data : list byte) :
  contains0 (payload_bytes data) = false.
Proof.
  unfold payload_bytes, slice_to. destruct (contains0 data) eqn:E;
    [apply contains0_firstn_index0 | exact E].
Qed.

Lemma decoded_scalars_bounded (n : nat) :
  forall (bs : list byte) (s : pystr),
    (List.length bs <= n)%nat -> contains0 bs = false ->
    utf8_decode bs = Some s -> Forall scalar_not_nul s.
Proof.
  induction n as [| n IH]; intros bs s Hlen Hnz Hdec.
  - destruct bs; [| simpl in Hlen; lia]. inversion Hdec. constructor.
  - destruct bs as [| b0 r0]; [inversion Hdec; constructor |].
    cbn [utf8_decode] in Hdec.
    pose proof (byte_val_range b0) as R0.
    apply contains0_cons in Hnz as [Hb0 Hr0].
    destruct (Z.ltb_spec (byte_val b0) 0x80).
    { apply option_map_cons_Some in Hdec as (t & Ht & ->).
      simpl in Hlen. constructor; [unfold scalar_not_nul; lia |].
      apply (IH r0); [lia | exact Hr0 | exact Ht]. }
    destruct (in_range 0xC2 0xDF b0) eqn:E2.
    { apply in_range_spec in E2.
      destruct r0 as [| b1 r1]; [discriminate |].
      destruct (is_cont b1) eqn:C1; [| discriminate].
      apply is_cont_spec in C1.
      apply contains0_cons in Hr0 as [_ Hr1].
      apply option_map_cons_Some in Hdec as (t & Ht & ->).
      simpl in Hlen. unfold cont_bits.
      constructor; [unfold scalar_not_nul; lia |].
      apply (IH r1); [lia | exact Hr1 | exact Ht]. }
    destruct (in_range 0xE0 0xEF b0) eqn:E3.
    { apply in_range_spec in E3.
      destruct r0 as [| b1 [| b2 r2]]; try discriminate.
      match type of Hdec with
      | (if ?c then _ else _) = _ => destruct c eqn:C; [| discriminate]
      end.
      apply andb_true_iff in C as [C1 C2].
      apply in_range_spec in C1. apply is_cont_spec in C2.
      apply contains0_cons in Hr0 as [_ Hr1].
      apply contains0_cons in Hr1 as [_ Hr2].
      apply option_map_cons_Some in Hdec as (t & Ht & ->).
      simpl in Hlen. unfold cont_bits.
      constructor.
      - unfold scalar_not_nul.
        destruct (Z.eqb_spec (byte_val b0) 0xE0);
          destruct (Z.eqb_spec (byte_val b0) 0xED); lia.
      - apply (IH r2); [lia | exact Hr2 | exact Ht]. }
    destruct (in_range 0xF0 0xF4 b0) eqn:E4; [| discriminate].
    apply in_range_spec in E4.
    destruct r0 as [| b1 [| b2 [| b3 r3]]]; try discriminate.
    match type of Hdec with
    | (if ?c then _ else _) = _ => destruct c eqn:C; [| discriminate]
    end.
    apply andb_true_iff in C as [C12 C3].
    apply andb_true_iff in C12 as [C1 C2].
    apply in_range_spec in C1. apply is_cont_spec in C2. apply is_cont_spec in C3.
    apply contains0_cons in Hr0 as [_ Hr1].
    apply contains0_cons in Hr1 as [_ Hr2].
    apply contains0_cons in Hr2 as [_ Hr3].
    apply option_map_cons_Some in Hdec as (t & Ht & ->).
    simpl in Hlen. unfold cont_bits.
    constructor.
    + unfold scalar_not_nul.
      destruct (Z.eqb_spec (byte_val b0) 0xF0);
        destruct (Z.eqb_spec (byte_val b0) 0xF4); lia.
    + apply (IH r3); [lia | exact Hr3 | exact Ht].
Qed.

Lemma utf8_decode_ascii (bs : list byte) :
  all_ascii bs = true -> utf8_decode bs = Some (map byte_val bs).
Proof.
  induction bs as [| b bs IH]; [reflexivity |].
  unfold all_ascii. cbn [forallb]. intros H.
  apply andb_true_iff in H as [Hb Hbs].
  cbn [utf8_decode map]. rewrite Hb, (IH Hbs). reflexivity.
Qed.

(** X1: whatever bytes the channel holds, the payload text that [run] logs
    never contains a NUL character: every character of it is a Unicode
    scalar value other than U+0000 (no surrogate, nothing above
    U+10FFFF). *)
Theorem logged_text_has_no_nul (data : list byte) (s : pystr) :
  utf8_decode (payload_bytes data) = Some s -> Forall scalar_not_nul s.
Proof.
  intros H.
  apply (decoded_scalars_bounded (List.length (payload_bytes data))
           (payload_bytes data)); [lia | apply contains0_payload_bytes | exact H].
Qed.

Lemma logged_text_has_no_nul_witness :
  utf8_decode (payload_bytes [xe2; x82; xac; x00; xff]) = Some [0x20AC]
  /\ Forall scalar_not_nul [0x20AC].
Proof.
  assert (H : utf8_decode (payload_bytes [xe2; x82; xac; x00; xff])
              = Some [0x20AC]) by reflexivity.
  split; [exact H |].
  exact (logged_text_has_no_nul [xe2; x82; xac; x00; xff] [0x20AC] H).
Defined.

Lemma unpack_L_range (bs : list byte) (n : Z) :
  unpack_L bs = Some n -> 0 <= n < 2 ^ 32.
Proof.
  destruct bs as [| b0 [| b1 [| b2 [| b3 [| b4 r]]]]]; try discriminate.
  cbn [unpack_L]. intros H. inversion H.
  pose proof (byte_val_range b0). pose proof (byte_val_range b1).
  pose proof (byte_val_range b2). pose proof (byte_val_range b3).
  change (2 ^ 32) with 4294967296. lia.
Qed.

Lemma byte_val_of_N (k : Z) :
  0 <= k < 256 ->
  byte_val (match Byte.of_N (Z.to_N k) with Some b => b | None => x00 end) = k.
Proof.
  intros Hk. unfold byte_val.
  destruct (Byte.of_N (Z.to_N k)) as [b |] eqn:E.
  - apply Byte.to_of_N in E. rewrite E. lia.
  - exfalso. pose proof (Byte.to_of_N_option_map (Z.to_N k)) as H.
    rewrite E in H. cbn [option_map] in H.
    destruct (N.leb_spec (Z.to_N k) 255); [discriminate | lia].
Qed.

Lemma process_id_of_range (snapshot : list byte) :
  0 <= process_id_of snapshot < 2 ^ 32.
Proof.
  unfold process_id_of.
  destruct (unpack_L (id_field snapshot)) as [k |] eqn:E.
  - exact (unpack_L_range _ _ E).
  - change (2 ^ 32) with 4294967296. lia.
Qed.

Lemma process_id_of_message (n : Z) (payload : list byte) :
  0 <= n < 2 ^ 32 -> process_id_of (message n payload) = n.
Proof.
  intros Hn. unfold process_id_of, id_field, message, le32.
  cbn [map app firstn unpack_L].
  rewrite !byte_val_of_N by (apply Z.mod_pos_bound; lia).
  change (256 ^ 0) with 1. change (256 ^ 1) with 256.
  change (256 ^ 2) with (256 * 256). change (256 ^ 3) with (256 * 256 * 256).
  change (2 ^ 32) with 4294967296 in Hn.
  rewrite Z.div_1_r.
  rewrite <- !Z.div_div by lia.
  set (q1 := n / 256). set (q2 := q1 / 256). set (q3 := q2 / 256).
  pose proof (Z.div_mod n 256 ltac:(lia)) as E0.
  pose proof (Z.div_mod q1 256 ltac:(lia)) as E1.
  pose proof (Z.div_mod q2 256 ltac:(lia)) as E2.
  pose proof (Z.mod_pos_bound n 256 ltac:(lia)).
  pose proof (Z.mod_pos_bound q1 256 ltac:(lia)).
  pose proof (Z.mod_pos_bound q2 256 ltac:(lia)).
  fold q1 in E0. fold q2 in E1. fold q3 in E2.
  assert (Hq3 : q3 mod 256 = q3).
  { apply Z.mod_small.
    set (r0 := n mod 256) in *. set (r1 := q1 mod 256) in *.
    set (r2 := q2 mod 256) in *. clearbody q1 q2 q3 r0 r1 r2. lia. }
  rewrite Hq3. change (firstn 0 payload) with (@nil byte).
  cbv iota beta.
  set (r0 := n mod 256) in *. set (r1 := q1 mod 256) in *.
  set (r2 := q2 mod 256) in *. clearbody q1 q2 q3 r0 r1 r2. lia.
Qed.

(** X2: the process identifier that [run] logs is the unsigned 32-bit
    little-endian reading of the first four bytes of the channel: it lies in
    0 .. 2^32 - 1 for every snapshot, and for a snapshot that starts with the
    four little-endian bytes of [n] it is [n], whatever the payload is. *)
Theorem process_id_is_unsigned_little_endian
  (snapshot payload : list byte) (n : Z) :
  0 <= process_id_of snapshot < 2 ^ 32
  /\ (0 <= n < 2 ^ 32 -> process_id_of (message n payload) = n).
Proof.
  split; [apply process_id_of_range | apply process_id_of_message].
Qed.

Lemma process_id_is_unsigned_little_endian_witness :
  0 <= 4294967295 < 2 ^ 32
  /\ process_id_of (message 4294967295 [x41; x00]) = 4294967295.
Proof.
  assert (H : 0 <= 4294967295 < 2 ^ 32) by (change (2 ^ 32) with 4294967296; lia).
  split; [exact H |].
  exact (proj2 (process_id_is_unsigned_little_endian [] [x41; x00] 4294967295) H).
Defined.

(** ** The session and the file system *)

Lemma log_name_eq (m m' : machine) :
  option_map fname (log_file m') = option_map fname (log_file m) ->
  log_name m' = log_name m.
Proof.
  unfold log_name. destruct (log_file m'), (log_file m); cbn;
    intros H; inversion H; reflexivity.
Qed.

Lemma log_text_eq (m m' : machine) :
  option_map fname (log_file m') = option_map fname (log_file m) ->
  files m' = files m -> log_text m' = log_text m.
Proof.
  unfold log_text. intros Hn Hf. rewrite Hf.
  destruct (log_file m'), (log_file m); cbn in Hn; inversion Hn;
    congruence.
Qed.

Lemma log_only_same (m m' : machine) :
  option_map fname (log_file m') = option_map fname (log_file m) ->
  files m' = files m -> log_only m m'.
Proof.
  intros Hn Hf. split; [exact Hn | intros; rewrite Hf; reflexivity |].
  exists []. rewrite app_nil_r. apply log_text_eq; assumption.
Qed.

Lemma log_only_refl (m : machine) : log_only m m.
Proof. apply log_only_same; reflexivity. Qed.

Lemma log_only_trans (m1 m2 m3 : machine) :
  log_only m1 m2 -> log_only m2 m3 -> log_only m1 m3.
Proof.
  intros [Hn1 Ho1 [s1 Hg1]] [Hn2 Ho2 [s2 Hg2]].
  split; [congruence | |].
  - intros other Hne. rewrite Ho2, Ho1; [reflexivity | exact Hne |].
    rewrite (log_name_eq _ _ Hn1). exact Hne.
  - exists (s1 ++ s2). rewrite Hg2, Hg1, app_assoc. reflexivity.
Qed.

Lemma logs_only_ret {A} (a : A) : logs_only (ret a).
Proof. intros m. apply log_only_refl. Qed.

Lemma logs_only_raise {A} (e : exn) : logs_only (@raise A e).
Proof. intros m. apply log_only_refl. Qed.

Lemma logs_only_bind {A B} (c : M A) (k : A -> M B) :
  logs_only c -> (forall a, logs_only (k a)) -> logs_only (bind c k).
Proof.
  intros Hc Hk m. unfold bind. specialize (Hc m).
  destruct (c m) as [a m' | e m' | m']; cbn [final] in *; try exact Hc.
  eapply log_only_trans; [exact Hc | apply Hk].
Qed.

Lemma logs_only_modify (f : machine -> machine) :
  (forall m, log_file (f m) = log_file m /\ files (f m) = files m) ->
  logs_only (modify f).
Proof.
  intros H m. destruct (H m) as [Hl Hf]. cbn [modify final].
  apply log_only_same; [rewrite Hl; reflexivity | exact Hf].
Qed.

Lemma logs_only_log_file_write (s : pystr) : logs_only (log_file_write s).
Proof.
  intros m. unfold log_file_write.
  destruct (log_file m) as [[name fc] |] eqn:E; cbn [final fclosed fname];
    try apply log_only_refl.
  destruct fc; cbn [final]; [apply log_only_refl |].
  destruct (encodable (code_page m) s); cbn [final]; [| apply log_only_refl].
  split.
  - reflexivity.
  - intros other Hne. unfold log_name in Hne. rewrite E in Hne. cbn in Hne.
    cbn [files set_files]. apply lookup_insert_ne. congruence.
  - exists s. unfold log_text. cbn [log_file set_files files]. rewrite E.
    cbn [fname]. rewrite lookup_insert_eq. reflexivity.
Qed.

Lemma logs_only_untouched {A} (c : M A) :
  (forall m, log_file (final (c m)) = log_file m
             /\ files (final (c m)) = files m) ->
  logs_only c.
Proof.
  intros H m. destruct (H m) as [Hl Hf].
  apply log_only_same; [rewrite Hl; reflexivity | exact Hf].
Qed.

Lemma logs_only_quiet_parts :
  (forall pos, logs_only (buffer_seek pos))
  /\ (forall n, logs_only (buffer_read n))
  /\ logs_only get_buffer_length
  /\ (forall bs, logs_only (struct_unpack_L bs))
  /\ (forall bs, logs_only (str_utf8 bs))
  /\ (forall h, logs_only (SetEvent_ h))
  /\ logs_only buffer_close
  /\ logs_only Thread_start.
Proof.
  split; [intros pos | split; [intros n | split; [| split; [intros bs |
    split; [intros bs | split; [intros h | split]]]]]];
    apply logs_only_untouched; intros m.
  - unfold buffer_seek. destruct (buffer m) as [[[] p] |]; split; reflexivity.
  - unfold buffer_read. destruct (buffer m) as [[[] p] |]; split; reflexivity.
  - unfold get_buffer_length. destruct (buffer_length m); split; reflexivity.
  - unfold struct_unpack_L. destruct (unpack_L bs); split; reflexivity.
  - unfold str_utf8. destruct (utf8_decode bs); split; reflexivity.
  - unfold SetEvent_. destruct (event_state h m); [| split; reflexivity].
    destruct h; split; reflexivity.
  - unfold buffer_close. destruct (buffer m) as [[[] p] |]; split; reflexivity.
  - unfold Thread_start. destruct (thread m); split; reflexivity.
Qed.

Lemma logs_only_log_file_close : logs_only log_file_close.
Proof.
  intros m. unfold log_file_close.
  destruct (log_file m) as [[name fc] |] eqn:E; cbn [final fclosed fname];
    try apply log_only_refl.
  destruct fc; cbn [final]; [apply log_only_refl |].
  apply log_only_same; [| reflexivity].
  cbn [log_file set_log_file record_call]. rewrite E. reflexivity.
Qed.

Lemma logs_only_on_data_ready (n : Z) : logs_only (on_data_ready n).
Proof.
  destruct logs_only_quiet_parts as (Hseek & Hread & _ & Hunpack & Hstr & _).
  unfold on_data_ready.
  repeat (first [ apply logs_only_bind; [| intros ?]
                | apply Hseek | apply Hread | apply Hunpack | apply Hstr
                | apply logs_only_log_file_write
                | match goal with
                  | |- logs_only (if ?c then _ else _) => destruct c
                  end ]).
Qed.

Lemma logs_only_after_wait (result : Z) : logs_only (after_wait result).
Proof.
  destruct logs_only_quiet_parts as (_ & _ & Hlen & _).
  unfold after_wait. apply logs_only_bind; [exact Hlen | intros len].
  destruct (result =? WAIT_OBJECT_0).
  - apply logs_only_bind; [apply logs_only_on_data_ready |].
    intros; apply logs_only_ret.
  - destruct (result =? WAIT_OBJECT_0 + 1); apply logs_only_ret.
Qed.

Lemma log_only_settle (result : Z) (m : machine) :
  log_only m (settle (after_wait result m)).
Proof.
  pose proof (logs_only_after_wait result m) as H.
  destruct (after_wait result m) as [[] m' | e m' | m'];
    cbn [final settle] in *; try exact H;
    (eapply log_only_trans; [exact H |]; apply log_only_same; reflexivity).
Qed.

Lemma log_only_bg_step (m : machine) : log_only m (bg_step m).
Proof.
  destruct (thread m) eqn:Ht;
    try (rewrite bg_step_idle by (rewrite Ht; reflexivity); apply log_only_refl).
  - unfold bg_step. rewrite Ht. unfold SetEvent_. cbn [event_state].
    destruct (DBWIN_BUFFER_READY m); apply log_only_same; reflexivity.
  - rewrite (bg_step_InWait m Ht).
    destruct (WaitForMultipleObjects events m) as [[r m1] |] eqn:Hw;
      [| apply log_only_refl].
    eapply log_only_trans; [| apply log_only_settle].
    unfold WaitForMultipleObjects in Hw.
    destruct (first_signaled events 0 m) as [[i h] |]; [| discriminate].
    inversion Hw. destruct h; apply log_only_same; reflexivity.
Qed.

Lemma log_only_deposit (bytes : list byte) (m : machine) :
  log_only m (deposit bytes m).
Proof.
  unfold deposit.
  destruct (DBWIN_BUFFER_READY m) as [[] |]; try apply log_only_refl.
  destruct (DBWIN_DATA_READY m); try apply log_only_refl.
  destruct (DBWIN_BUFFER m); try apply log_only_refl.
  apply log_only_same; reflexivity.
Qed.

Lemma log_only_occur (o : occurrence) (m : machine) : log_only m (occur o m).
Proof. destruct o; [apply log_only_deposit | apply log_only_bg_step]. Qed.

Lemma log_only_elapse (os : list occurrence) (m : machine) :
  log_only m (elapse os m).
Proof.
  revert m. induction os as [| o os IH]; intros m; [apply log_only_refl |].
  unfold elapse. cbn [fold_left].
  eapply log_only_trans; [apply log_only_occur | apply IH].
Qed.

Lemma log_only_await_exit (os : list occurrence) (m : machine) :
  log_only m (await_exit os m).
Proof.
  revert m. induction os as [| o os IH]; intros m; [apply log_only_refl |].
  cbn [await_exit]. destruct (running (thread m)); [| apply log_only_refl].
  eapply log_only_trans; [apply log_only_occur | apply IH].
Qed.

Lemma log_only_iter_bg_step (n : nat) (m : machine) :
  log_only m (Nat.iter n bg_step m).
Proof.
  induction n as [| n IH]; [apply log_only_refl |].
  rewrite Nat.iter_succ.
  eapply log_only_trans; [exact IH | apply log_only_bg_step].
Qed.

Lemma logs_only_Thread_join (during : list occurrence) :
  logs_only (Thread_join during).
Proof.
  intros m. unfold Thread_join.
  destruct (was_started (thread m)); [| apply log_only_refl].
  assert (H : log_only m (Nat.iter 4 bg_step (await_exit during m))).
  { eapply log_only_trans;
      [apply log_only_await_exit | apply log_only_iter_bg_step]. }
  cbv zeta. destruct (running (thread (Nat.iter 4 bg_step _)));
    cbn [final]; [exact H |].
  eapply log_only_trans; [exact H | apply log_only_same; reflexivity].
Qed.

Lemma logs_only_close (self : instance) (during : list occurrence) :
  logs_only (close self during).
Proof.
  destruct logs_only_quiet_parts as (_ & _ & _ & _ & _ & Hset & Hbc & _).
  destruct self; [apply logs_only_ret |].
  cbn [close]. unfold LogDbgViewReal.close.
  apply logs_only_bind; [apply Hset | intros _].
  apply logs_only_bind;
    [apply logs_only_modify; intros; split; reflexivity | intros _].
  apply logs_only_bind; [apply logs_only_Thread_join | intros _].
  apply logs_only_bind; [apply Hbc | intros _].
  apply logs_only_log_file_close.
Qed.

Lemma logs_only_start (self : instance) : logs_only (start self).
Proof.
  destruct logs_only_quiet_parts as (_ & _ & _ & _ & _ & _ & _ & Hst).
  destruct self; [apply logs_only_ret | exact Hst].
Qed.

Lemma logs_only_call_method (x : pyvalue) (a : method)
  (during : list occurrence) : logs_only (call_method x a during).
Proof.
  destruct x; try apply logs_only_raise.
  destruct a; cbn [call_method]; unfold __enter__, __exit__;
    (apply logs_only_bind;
     [first [apply logs_only_start | apply logs_only_close]
     | intros; apply logs_only_ret]).
Qed.

Lemma logs_only_exec (x : pyvalue) (body : list stmt) : logs_only (exec x body).
Proof.
  induction body as [| s body IH]; [apply logs_only_ret |].
  cbn [exec]. apply logs_only_bind; [| intros; exact IH].
  destruct s as [o | a during]; cbn [exec_stmt].
  - intros m. cbn [modify final]. apply log_only_occur.
  - apply logs_only_bind; [apply logs_only_call_method |].
    intros; apply logs_only_ret.
Qed.

Lemma logs_only_with_stmt (mgr : instance) (body : list stmt)
  (during : list occurrence) : logs_only (with_stmt mgr body during).
Proof.
  intros m. unfold with_stmt, __enter__, __exit__.
  pose proof (logs_only_bind _ _ (logs_only_start mgr)
                (fun _ => logs_only_ret PyNone) m) as H1.
  destruct ((start mgr ;; ret PyNone) m) as [x m1 | e m1 | m1];
    cbn [final] in *; try exact H1.
  pose proof (logs_only_exec x body m1) as H2.
  destruct (exec x body m1) as [[] m2 | e m2 | m2]; cbn [final] in *;
    try (eapply log_only_trans; eassumption).
  - pose proof (logs_only_bind _ _ (logs_only_close mgr during)
                  (fun _ => logs_only_ret PyNone) m2) as H3.
    destruct ((close mgr during ;; ret PyNone) m2) as [r m3 | e m3 | m3];
      cbn [final] in *;
      (eapply log_only_trans; [exact H1 |];
       eapply log_only_trans; eassumption).
  - pose proof (logs_only_bind _ _ (logs_only_close mgr during)
                  (fun _ => logs_only_ret PyNone) m2) as H3.
    destruct ((close mgr during ;; ret PyNone) m2) as [r m3 | e' m3 | m3];
      cbn [final] in *; [destruct (truthy r) | |]; cbn [final];
      (eapply log_only_trans; [exact H1 |];
       eapply log_only_trans; eassumption).
Qed.

Lemma session_appends_only
  (self : instance) (body : list stmt) (during : list occurrence)
  (m : machine) :
  log_only m
    (final ((start self ;; exec (PyObject self) body ;; close self during) m))
  /\ log_only m (final (with_stmt self body during m)).
Proof.
  split; [| apply logs_only_with_stmt].
  apply logs_only_bind; [apply logs_only_start | intros _].
  apply logs_only_bind; [apply logs_only_exec | intros _].
  apply logs_only_close.
Qed.

(** X3: whatever a session does once it exists (start, the thread's steps
    under any schedule, method calls of the body, close, also through a
    [with] statement), every file other than its log file keeps its
    content, and the log file only grows at its end: what was logged is
    never rewritten or removed. *)
Theorem session_only_appends_to_its_log
  (self : instance) (body : list stmt) (during : list occurrence)
  (m : machine) :
  log_only m
    (final ((start self ;; exec (PyObject self) body ;; close self during) m))
  /\ log_only m (final (with_stmt self body during m)).
Proof. exact (session_appends_only self body during m). Qed.

Lemma init_confined (name : string) (m : machine) :
  (forall other : string,
      other <> name ->
      files (final (LogDbgViewReal.__init__ name m)) !! other
      = files m !! other)
  /\ (forall u m', LogDbgViewReal.__init__ name m = Ok u m' ->
                   log_name m' = name).
Proof.
  rewrite init_outcome.
  destruct m as [fs br dr sec refuse cp lf st bl bf th cs].
  cbn [refused files]. unfold opened, created.
  destruct (refuse ResLogFile).
  { split; [intros; reflexivity | discriminate]. }
  assert (Hne : forall other : string,
             other <> name -> <[name := []]> fs !! other = fs !! other).
  { intros other H. apply lookup_insert_ne. congruence. }
  destruct (refuse ResBufferReady);
    [split; [intros other H; cbn -[insert]; apply Hne, H | discriminate] |].
  destruct (refuse ResDataReady);
    [split; [intros other H; cbn -[insert]; apply Hne, H | discriminate] |].
  destruct (refuse ResStop);
    [split; [intros other H; cbn -[insert]; apply Hne, H | discriminate] |].
  unfold bind, mmap_mmap, modify. cbn -[insert repeat Z.to_nat Z.ltb].
  destruct (refuse ResBuffer);
    [split; [intros other H; cbn -[insert]; apply Hne, H | discriminate] |].
  destruct sec as [bs |].
  - destruct (Z.of_nat (List.length bs) <? 4096);
      (split; [intros other H; cbn -[insert]; apply Hne, H |]);
      [discriminate |].
    intros u m' E. inversion E. reflexivity.
  - split; [intros other H; cbn -[insert repeat Z.to_nat]; apply Hne, H |].
    intros u m' E. inversion E. reflexivity.
Qed.

Lemma explicit_form_capture (name : string) (body : list stmt)
  (during : list occurrence) (m : machine) :
  explicit_form (PyBool true) name body during m
  = match LogDbgViewReal.__init__ name m with
    | Ok _ m0 =>
        (start LogDbgViewReal_object ;;
         exec (PyObject LogDbgViewReal_object) body ;;
         close LogDbgViewReal_object during) m0
    | Raise e m0 => Raise e m0
    | Hang m0 => Hang m0
    end.
Proof.
  unfold explicit_form, makeLogDbgView, bind. cbn [eq_True].
  destruct (LogDbgViewReal.__init__ name m); reflexivity.
Qed.

Lemma scoped_form_capture (name : string) (body : list stmt)
  (during : list occurrence) (m : machine) :
  scoped_form (PyBool true) name body during m
  = match LogDbgViewReal.__init__ name m with
    | Ok _ m0 => with_stmt LogDbgViewReal_object body during m0
    | Raise e m0 => Raise e m0
    | Hang m0 => Hang m0
    end.
Proof.
  unfold scoped_form, makeLogDbgView, bind. cbn [eq_True].
  destruct (LogDbgViewReal.__init__ name m); reflexivity.
Qed.

(** X4: a capture session never touches a file other than the one it was
    given: from any machine, for any body and any schedule, the explicit
    form and the [with] form leave every other file as it was, also when
    construction fails half-way or the body raises. *)
Theorem capture_touches_no_other_file
  (log_file_name other : string) (body : list stmt)
  (during : list occurrence) (m : machine) :
  other <> log_file_name ->
  files (final (explicit_form (PyBool true) log_file_name body during m))
    !! other = files m !! other
  /\ files (final (scoped_form (PyBool true) log_file_name body during m))
       !! other = files m !! other.
Proof.
  intros Hne.
  destruct (init_confined log_file_name m) as [Hfiles Hname].
  rewrite explicit_form_capture, scoped_form_capture.
  destruct (LogDbgViewReal.__init__ log_file_name m) as [[] m0 | e m0 | m0] eqn:E;
    cbn [final] in *; try (split; apply Hfiles, Hne).
  specialize (Hname tt m0 eq_refl).
  destruct (session_appends_only LogDbgViewReal_object body
              during m0) as [[_ H1 _] [_ H2 _]].
  split.
  - rewrite H1 by (rewrite Hname; exact Hne). apply Hfiles, Hne.
  - rewrite H2 by (rewrite Hname; exact Hne). apply Hfiles, Hne.
Qed.

Lemma capture_touches_no_other_file_witness :
  "M"%string <> "L"%string
  /\ files (final (explicit_form (PyBool true) "L"
                     (map Meanwhile (send 100 "foo")) []
                     (boot (<["M"%string := of_ascii "kept"]> ∅)
                        (fun _ => false) cp1252)))
       !! "M"%string
     = Some (of_ascii "kept").
Proof.
  assert (H : "M"%string <> "L"%string) by discriminate.
  split; [exact H |].
  etransitivity;
    [exact (proj1 (capture_touches_no_other_file "L" "M"
                     (map Meanwhile (send 100 "foo")) [] _ H))
    | vm_compute; reflexivity].
Defined.

(** ** After the thread has ended *)

Lemma deposit_keeps (bytes : list byte) (m : machine) :
  files (deposit bytes m) = files m /\ thread (deposit bytes m) = thread m
  /\ log_file (deposit bytes m) = log_file m
  /\ buffer (deposit bytes m) = buffer m
  /\ stop (deposit bytes m) = stop m
  /\ calls (deposit bytes m) = calls m.
Proof.
  unfold deposit.
  destruct (DBWIN_BUFFER_READY m) as [[] |]; try (repeat split; reflexivity).
  destruct (DBWIN_DATA_READY m); try (repeat split; reflexivity).
  destruct (DBWIN_BUFFER m); repeat split; reflexivity.
Qed.

Lemma elapse_idle (os : list occurrence) (m : machine) :
  running (thread m) = false ->
  files (elapse os m) = files m /\ thread (elapse os m) = thread m
  /\ log_file (elapse os m) = log_file m
  /\ buffer (elapse os m) = buffer m
  /\ stop (elapse os m) = stop m
  /\ calls (elapse os m) = calls m.
Proof.
  revert m. induction os as [| o os IH]; intros m Hr;
    [repeat split; reflexivity |].
  unfold elapse. cbn [fold_left]. fold (elapse os (occur o m)).
  destruct o as [bytes |]; cbn [occur].
  - destruct (deposit_keeps bytes m) as (Hf & Ht & Hl & Hb & Hs & Hc).
    destruct (IH (deposit bytes m)) as (Hf' & Ht' & Hl' & Hb' & Hs' & Hc').
    { rewrite Ht. exact Hr. }
    repeat split; congruence.
  - rewrite (bg_step_idle m Hr). apply IH. exact Hr.
Qed.

(** X5: once [close] has returned, the session writes nothing more,
    whatever producers do afterwards: the files, the ended thread, the
    closed log file and mapping and the recorded calls stay as [close] left
    them. *)
Theorem nothing_written_after_close
  (during os : list occurrence) (m : machine) :
  started m = true ->
  let m' := final (close LogDbgViewReal_object during m) in
  files (elapse os m') = files m'
  /\ thread (elapse os m') = thread m'
  /\ log_file (elapse os m') = log_file m'
  /\ buffer (elapse os m') = buffer m'
  /\ calls (elapse os m') = calls m'.
Proof.
  intros Hs m'.
  destruct (close_started_result during m Hs) as (m1 & Hrun & _ & _ & Hthr & _).
  assert (Hm' : m' = m1) by (unfold m'; cbn [close]; rewrite Hrun; reflexivity).
  rewrite Hm'.
  destruct (elapse_idle os m1 Hthr) as (Hf & Ht & Hl & Hb & _ & Hc).
  repeat split; assumption.
Qed.

Lemma nothing_written_after_close_witness :
  started after_three = true
  /\ files (elapse (send 300 "late")
              (final (close LogDbgViewReal_object [] after_three)))
     = files (final (close LogDbgViewReal_object [] after_three)).
Proof.
  assert (Hs : started after_three = true) by (vm_compute; reflexivity).
  split; [exact Hs |].
  exact (proj1 (nothing_written_after_close [] (send 300 "late")
                  after_three Hs)).
Defined.

(** ** [close] without [start] *)

(** X6: [close] on a capture session that was constructed but never started
    signals the stop event and then raises [RuntimeError] out of [join];
    the mapping and the log file are not closed and nothing else
    changes. *)
Theorem close_before_start_raises
  (during : list occurrence) (m : machine) :
  constructed m = true -> thread m = Initial ->
  close LogDbgViewReal_object during m
  = Raise RuntimeError
      (record_call (SetEvent H_STOP) (set_stop (Some true) m))
  /\ releases (final (close LogDbgViewReal_object during m)) = releases m
  /\ files (final (close LogDbgViewReal_object during m)) = files m.
Proof.
  intros Hc Ht.
  assert (Hst : assigned (stop m) = true).
  { unfold constructed in Hc.
    repeat (apply andb_true_iff in Hc as [Hc ?]). assumption. }
  assert (E : close LogDbgViewReal_object during m
              = Raise RuntimeError
                  (record_call (SetEvent H_STOP) (set_stop (Some true) m))).
  { cbn [close]. unfold LogDbgViewReal.close, bind at 1.
    unfold SetEvent_. cbn [event_state].
    destruct (stop m) as [b |]; [| discriminate].
    cbn [set_event_state]. unfold bind at 1, modify.
    unfold bind at 1, Thread_join.
    change (thread (record_call _ (set_stop _ m))) with (thread m).
    rewrite Ht. reflexivity. }
  rewrite E. repeat split; reflexivity.
Qed.

Lemma close_before_start_raises_witness :
  constructed (final (makeLogDbgView (PyBool true) "L" fresh_host)) = true
  /\ thread (final (makeLogDbgView (PyBool true) "L" fresh_host)) = Initial
  /\ releases (final (close LogDbgViewReal_object []
                        (final (makeLogDbgView (PyBool true) "L" fresh_host))))
     = [UnmapBuffer; CloseFile "L"].
Proof.
  assert (Hc : constructed (final (makeLogDbgView (PyBool true) "L" fresh_host))
               = true) by (vm_compute; reflexivity).
  assert (Ht : thread (final (makeLogDbgView (PyBool true) "L" fresh_host))
               = Initial) by (vm_compute; reflexivity).
  split; [exact Hc |]. split; [exact Ht |].
  etransitivity;
    [exact (proj1 (proj2 (close_before_start_raises [] _ Hc Ht)))
    | vm_compute; reflexivity].
Defined.

(** ** A running session stays whole *)

Lemma bg_step_objects (m : machine) :
  assigned (DBWIN_BUFFER_READY (bg_step m)) = assigned (DBWIN_BUFFER_READY m)
  /\ assigned (DBWIN_DATA_READY (bg_step m)) = assigned (DBWIN_DATA_READY m)
  /\ DBWIN_BUFFER (bg_step m) = DBWIN_BUFFER m.
Proof.
  destruct (thread m) eqn:Ht;
    try (rewrite bg_step_idle by (rewrite Ht; reflexivity);
         repeat split; reflexivity).
  - unfold bg_step. rewrite Ht. unfold SetEvent_. cbn [event_state].
    destruct (DBWIN_BUFFER_READY m) eqn:E; cbn; rewrite ?E;
      repeat split; reflexivity.
  - rewrite (bg_step_InWait m Ht).
    destruct (signaled H_DATA_READY m) eqn:Hd.
    + rewrite (wait_data m Hd).
      destruct (settle_frame (set_DBWIN_DATA_READY (Some false) m) WAIT_OBJECT_0)
        as (_ & -> & -> & -> & _).
      unfold signaled in Hd. cbn [event_state] in Hd. cbn.
      destruct (DBWIN_DATA_READY m); [| discriminate].
      repeat split; reflexivity.
    + destruct (signaled H_STOP m) eqn:Hs.
      * rewrite (wait_stop m Hd Hs).
        destruct (settle_frame (set_stop (Some false) m) (WAIT_OBJECT_0 + 1))
          as (_ & -> & -> & -> & _).
        repeat split; reflexivity.
      * rewrite (wait_blocked m Hd Hs). repeat split; reflexivity.
Qed.

Lemma session_open_frame (m m' : machine) :
  frame m m' -> session_open m' = session_open m.
Proof.
  intros [_ Hl _ Hb _]. unfold session_open. rewrite Hl.
  destruct (log_file m); [| reflexivity].
  destruct (buffer m') as [[c p] |], (buffer m) as [[c' p'] |];
    cbn in Hb; inversion Hb; reflexivity.
Qed.

Lemma constructed_bg_step (m : machine) :
  constructed (bg_step m) = constructed m.
Proof.
  destruct (bg_step_objects m) as (Hbr & Hdr & Hsec).
  destruct (bg_step_frame m) as [_ Hl Hlen Hb _].
  destruct (bg_step_kept m) as [_ Hst].
  unfold constructed.
  rewrite Hbr, Hdr, Hst, Hlen, Hsec, Hl, (assigned_option_map _ _ _ Hb).
  reflexivity.
Qed.

Lemma constructed_deposit (bytes : list byte) (m : machine) :
  constructed (deposit bytes m) = constructed m.
Proof.
  unfold deposit.
  destruct (DBWIN_BUFFER_READY m) as [[] |] eqn:E1; try reflexivity.
  destruct (DBWIN_DATA_READY m) eqn:E2; try reflexivity.
  destruct (DBWIN_BUFFER m) as [old |] eqn:E3; try reflexivity.
  unfold constructed. cbn. rewrite E1, E2, E3. cbn.
  rewrite firstn_length_le; [reflexivity |].
  rewrite length_app, length_skipn. lia.
Qed.

Lemma constructed_occur (o : occurrence) (m : machine) :
  constructed (occur o m) = constructed m.
Proof. destruct o; [apply constructed_deposit | apply constructed_bg_step]. Qed.

Lemma constructed_elapse (os : list occurrence) (m : machine) :
  constructed (elapse os m) = constructed m.
Proof.
  revert m. induction os as [| o os IH]; intros m; [reflexivity |].
  unfold elapse. cbn [fold_left]. fold (elapse os (occur o m)).
  rewrite IH. apply constructed_occur.
Qed.

Lemma elapse_kept (os : list occurrence) (m : machine) : kept m (elapse os m).
Proof.
  revert m. induction os as [| o os IH]; intros m; [apply kept_refl |].
  unfold elapse. cbn [fold_left]. fold (elapse os (occur o m)).
  eapply kept_trans; [| apply IH].
  destruct o; [apply deposit_kept | apply bg_step_kept].
Qed.

Lemma started_elapse (os : list occurrence) (m : machine) :
  started m = true -> started (elapse os m) = true.
Proof.
  unfold started. intros H. apply andb_true_iff in H as [Hc Hw].
  rewrite constructed_elapse, Hc. cbn.
  apply (proj1 (elapse_kept os m)). exact Hw.
Qed.

(** ** The [with] statement on the error path *)

Lemma exec_None_invoke (a : method) (d pre : list occurrence)
  (post : list stmt) (m : machine) :
  exec PyNone (map Meanwhile pre ++ Invoke a d :: post) m
  = Raise AttributeError (elapse pre m).
Proof.
  rewrite exec_app. unfold bind at 1. rewrite exec_meanwhile. reflexivity.
Qed.

Lemma releases_open (m : machine) :
  session_open m = true -> releases m = [UnmapBuffer; CloseFile (log_name m)].
Proof.
  unfold session_open, releases, log_name.
  destruct (log_file m) as [[name fc] |]; [| discriminate].
  destruct (buffer m) as [[bc pos] |]; [| discriminate].
  cbn. destruct fc, bc; cbn; try discriminate. reflexivity.
Qed.

(** X7: a [with] block over a capture session whose body raises (here by
    calling a method on the name bound to [None]) still runs [close]: the
    thread started by [__enter__] is stopped and joined, the mapping and
    the log file are closed, in that order, and then the body's exception
    is raised again. *)
Theorem with_closes_on_error
  (a : method) (d pre during : list occurrence) (post : list stmt)
  (m : machine) :
  constructed m = true -> session_open m = true -> thread m = Initial ->
  exists m',
    with_stmt LogDbgViewReal_object
      (map Meanwhile pre ++ Invoke a d :: post) during m
    = Raise AttributeError m'
    /\ running (thread m') = false
    /\ releases m' = []
    /\ calls m' = calls m ++ [StartThread; SetEvent H_STOP; JoinThread;
                              UnmapBuffer; CloseFile (log_name m)].
Proof.
  intros Hc Ho Ht.
  set (m1 := record_call StartThread (set_thread AtTop m)).
  assert (Henter : __enter__ LogDbgViewReal_object m = Ok PyNone m1).
  { unfold __enter__, bind. cbn [start]. unfold Thread_start. rewrite Ht.
    reflexivity. }
  assert (Hs1 : started m1 = true).
  { unfold started. change (constructed m1) with (constructed m).
    rewrite Hc. reflexivity. }
  pose proof (started_elapse pre m1 Hs1) as Hs2.
  destruct (close_started_result during (elapse pre m1) Hs2)
    as (m' & Hclose & Hcalls & Hrel & Hrun & _).
  destruct (elapse_frame pre m1) as [_ Hlf _ Hmc Hcs].
  exists m'. split; [| split; [exact Hrun | split; [exact Hrel |]]].
  - unfold with_stmt. rewrite Henter, exec_None_invoke.
    unfold __exit__, bind. cbn [close]. rewrite Hclose. reflexivity.
  - rewrite Hcalls, Hcs, (releases_eq m1 _ Hlf Hmc).
    change (releases m1) with (releases m).
    rewrite (releases_open m Ho). unfold m1. cbn [calls record_call set_thread].
    rewrite <- !app_assoc. reflexivity.
Qed.

Lemma with_closes_on_error_witness :
  constructed (final (makeLogDbgView (PyBool true) "L" fresh_host)) = true
  /\ exists m',
       with_stmt LogDbgViewReal_object
         (map Meanwhile (send 100 "foo") ++ [Invoke m_close []]) []
         (final (makeLogDbgView (PyBool true) "L" fresh_host))
       = Raise AttributeError m'
       /\ running (thread m') = false /\ releases m' = [].
Proof.
  assert (Hc : constructed (final (makeLogDbgView (PyBool true) "L" fresh_host))
               = true) by (vm_compute; reflexivity).
  split; [exact Hc |].
  destruct (with_closes_on_error m_close [] (send 100 "foo") [] [] _ Hc
              ltac:(vm_compute; reflexivity) ltac:(vm_compute; reflexivity))
    as (m' & Hw & Hrun & Hrel & _).
  exists m'. split; [exact Hw |]. split; [exact Hrun | exact Hrel].
Defined.

(** ** Messages through the handshake *)

Lemma payload_bytes_app (l1 l2 : list byte) :
  contains0 l1 = true -> payload_bytes (l1 ++ l2) = payload_bytes l1.
Proof.
  intros H. unfold payload_bytes, slice_to.
  rewrite contains0_app, H. cbn [orb].
  induction l1 as [| b l1 IH]; [discriminate |].
  cbn [app index0]. destruct (Z.eqb_spec (byte_val b) 0) as [Hz | Hz];
    [reflexivity |].
  cbn [firstn]. f_equal. apply IH.
  unfold contains0 in H. cbn [existsb] in H.
  destruct (Z.eqb_spec (byte_val b) 0); [contradiction | exact H].
Qed.

(** What the thread reads of a framed deposit does not depend on what the
    channel held before. *)
Lemma framed_app (bytes tail : list byte) :
  framed bytes = true ->
  List.length (bytes ++ tail) = 4096%nat ->
  process_id_of (bytes ++ tail) = process_id_of bytes
  /\ payload_bytes (payload_region (bytes ++ tail))
     = payload_bytes (payload_region bytes).
Proof.
  unfold framed. intros H Hlen.
  apply andb_true_iff in H as [H Hend].
  apply andb_true_iff in H as [H4 _].
  apply Nat.leb_le in H4.
  apply orb_true_iff in Hend as [Hnul | Hfull].
  - unfold process_id_of, id_field, payload_region.
    rewrite firstn_app, skipn_app.
    replace (4 - List.length bytes)%nat with 0%nat by lia.
    cbn [firstn skipn]. rewrite app_nil_r.
    rewrite payload_bytes_app by exact Hnul. split; reflexivity.
  - apply Nat.eqb_eq in Hfull. rewrite length_app in Hlen.
    destruct tail; [rewrite app_nil_r; split; reflexivity | cbn in Hlen; lia].
Qed.

Lemma deliverable_parts (cp : Z -> bool) (bytes : list byte) :
  deliverable cp bytes = true ->
  framed bytes = true /\ loggable cp bytes = true
  /\ (List.length bytes <= 4096)%nat.
Proof.
  unfold deliverable. intros H. apply andb_true_iff in H as [Hf Hl].
  split; [exact Hf |]. split; [exact Hl |].
  unfold framed in Hf. apply andb_true_iff in Hf as [Hf _].
  apply andb_true_iff in Hf as [_ Hf]. apply Nat.leb_le. exact Hf.
Qed.

Lemma line_of_app (cp : Z -> bool) (bytes tail : list byte) :
  deliverable cp bytes = true ->
  List.length (bytes ++ tail) = 4096%nat ->
  line_of (bytes ++ tail) = line_of bytes
  /\ loggable cp (bytes ++ tail) = true.
Proof.
  intros H Hlen. destruct (deliverable_parts cp bytes H) as (Hf & Hl & _).
  destruct (framed_app bytes tail Hf Hlen) as [Hid Hpay].
  unfold line_of, loggable in *. rewrite Hid, Hpay.
  split; [reflexivity | exact Hl].
Qed.

(** What [loggable] says of the line. *)
Lemma loggable_line (cp : Z -> bool) (snapshot : list byte) :
  loggable cp snapshot = true ->
  exists s,
    utf8_decode (payload_bytes (payload_region snapshot)) = Some s
    /\ encodable cp s = true
    /\ line_of snapshot = Some (format_line (process_id_of snapshot) s).
Proof.
  unfold loggable, line_of. intros H.
  destruct (utf8_decode (payload_bytes (payload_region snapshot))) as [s |];
    [| discriminate].
  exists s. split; [reflexivity |]. split; [exact H | reflexivity].
Qed.

(** The data-ready branch on a message it can log. *)
Lemma loggable_step (m : machine) :
  constructed m = true -> session_open m = true ->
  thread m = InWait -> signaled H_DATA_READY m = true ->
  loggable (code_page m) (view m) = true ->
  thread (bg_step m) = AtTop
  /\ log_text (bg_step m) = log_text m ++ default [] (line_of (view m)).
Proof.
  intros Hc Ho Ht Hd Hl.
  destruct (loggable_line _ _ Hl) as (s & Hdec & Henc & Hline).
  pose proof (data_ready_step m Hc Ho Ht Hd) as Hstep.
  rewrite Hdec, Henc in Hstep. rewrite Hline. exact Hstep.
Qed.

Lemma bg_step_AtTop_eq (m : machine) :
  thread m = AtTop -> assigned (DBWIN_BUFFER_READY m) = true ->
  bg_step m = set_thread InWait (set_DBWIN_BUFFER_READY (Some true) m).
Proof.
  intros Ht Hb. unfold bg_step. rewrite Ht. unfold SetEvent_.
  cbn [event_state]. destruct (DBWIN_BUFFER_READY m); [reflexivity | discriminate].
Qed.

Lemma constructed_parts (m : machine) :
  constructed m = true ->
  assigned (DBWIN_BUFFER_READY m) = true
  /\ assigned (DBWIN_DATA_READY m) = true
  /\ assigned (stop m) = true
  /\ buffer_length m = Some 4096
  /\ (exists old, DBWIN_BUFFER m = Some old /\ (4096 <= List.length old)%nat)
  /\ assigned (log_file m) = true /\ assigned (buffer m) = true.
Proof.
  unfold constructed. intros H.
  repeat (apply andb_true_iff in H as [H ?]).
  destruct (buffer_length m) as [n |]; [| discriminate].
  destruct (DBWIN_BUFFER m) as [old |]; [| discriminate].
  repeat split; auto.
  - f_equal. lia.
  - exists old. split; [reflexivity | apply Nat.leb_le; assumption].
Qed.



Lemma elapse_app (os1 os2 : list occurrence) (m : machine) :
  elapse (os1 ++ os2) m = elapse os2 (elapse os1 m).
Proof. unfold elapse. apply fold_left_app. Qed.


(** ** [close] with and without a pending message *)

(** From the top of the loop with stop signaled and no message pending, the
    thread arms buffer-ready once more and leaves, writing nothing. *)
Lemma wind_down (m : machine) :
  thread m = AtTop -> stop m = Some true ->
  signaled H_DATA_READY m = false ->
  assigned (DBWIN_BUFFER_READY m) = true ->
  assigned (buffer_length m) = true ->
  running (thread (bg_step (bg_step m))) = false
  /\ files (bg_step (bg_step m)) = files m
  /\ log_file (bg_step (bg_step m)) = log_file m.
Proof.
  intros Ht Hs Hd Hb Hl. rewrite (bg_step_AtTop_eq m Ht Hb).
  set (m1 := set_thread InWait (set_DBWIN_BUFFER_READY (Some true) m)).
  assert (E : bg_step m1 = set_thread Stopped (set_stop (Some false) m1)).
  { apply bg_step_stop_only; [reflexivity | exact Hd | | exact Hl].
    apply signaled_stop. exact Hs. }
  rewrite E. repeat split; reflexivity.
Qed.

(** What [close] leaves in the log is what the joined thread left. *)
Lemma close_log_text (during : list occurrence) (m : machine) :
  started m = true ->
  exists m',
    close LogDbgViewReal_object during m = Ok tt m'
    /\ log_text m' = log_text (joined during m)
    /\ running (thread m') = false /\ releases m' = []
    /\ log_name m' = log_name m.
Proof.
  intros Hs.
  destruct (close_started_result during m Hs)
    as (m' & Hclose & _ & Hrel & Hrun & _).
  exists m'. split; [exact Hclose |].
  destruct (started_parts m Hs) as (_ & Hws & Hlf & Hbf).
  destruct (joined_facts during m Hws) as (_ & _ & _ & Hjl & Hjb & _).
  pose proof (logs_only_close LogDbgViewReal_object during m) as [Hname _ _].
  cbn [close] in Hname. rewrite Hclose in Hname. cbn [final] in Hname.
  assert (Hfiles : files m' = files (joined during m)).
  { pose proof Hclose as Hc2.
    rewrite (close_started during m Hs) in Hc2.
    destruct (release_ok (record_call JoinThread (joined during m)))
      as (m'' & Hr & _ & _ & Hf & _).
    - change (log_file (record_call JoinThread (joined during m)))
        with (log_file (joined during m)). rewrite Hjl. exact Hlf.
    - change (buffer (record_call JoinThread (joined during m)))
        with (buffer (joined during m)).
      rewrite (assigned_option_map _ _ _ Hjb). exact Hbf.
    - rewrite Hr in Hc2. inversion Hc2. subst m''. exact Hf. }
  split; [| split; [exact Hrun | split; [exact Hrel |]]].
  - apply log_text_eq; [rewrite Hname, Hjl; reflexivity | exact Hfiles].
  - apply log_name_eq. exact Hname.
Qed.

Lemma joined_nil (m : machine) :
  joined [] m
  = Nat.iter 4 bg_step
      (record_call (SetEvent H_STOP) (set_stop (Some true) m)).
Proof. reflexivity. Qed.

(** [close] with the thread at the top of the loop and nothing pending. *)
Lemma joined_idle_loop (m : machine) :
  constructed m = true -> thread m = AtTop ->
  signaled H_DATA_READY m = false ->
  log_text (joined [] m) = log_text m.
Proof.
  intros Hc Ht Hd.
  destruct (constructed_parts m Hc) as (Hbr & _ & _ & Hbl & _).
  rewrite joined_nil.
  set (m2 := record_call (SetEvent H_STOP) (set_stop (Some true) m)).
  rewrite !Nat.iter_succ_r. cbn [Nat.iter nat_rect].
  destruct (wind_down m2) as (Hrun & Hf & Hl);
    [exact Ht | reflexivity | exact Hd | exact Hbr
    | change (buffer_length m2) with (buffer_length m); rewrite Hbl; reflexivity
    |].
  rewrite !(bg_step_idle (bg_step (bg_step m2))) by exact Hrun.
  apply log_text_eq; [rewrite Hl; reflexivity | exact Hf].
Qed.

(** [close] with a message that can be logged pending in the wait. *)
Lemma joined_pending (m : machine) (s : pystr) :
  constructed m = true -> session_open m = true ->
  thread m = InWait -> signaled H_DATA_READY m = true ->
  utf8_decode (payload_bytes (payload_region (view m))) = Some s ->
  encodable (code_page m) s = true ->
  log_text (joined [] m)
  = log_text m ++ format_line (process_id_of (view m)) s.
Proof.
  intros Hc Ho Ht Hd Hdec Henc.
  rewrite joined_nil.
  set (m2 := record_call (SetEvent H_STOP) (set_stop (Some true) m)).
  assert (Hc2 : constructed m2 = true).
  { destruct (constructed_parts m Hc) as (_ & _ & Hst & _).
    unfold constructed in *. cbn [m2 DBWIN_BUFFER_READY DBWIN_DATA_READY stop
      buffer_length DBWIN_BUFFER log_file buffer record_call set_stop] in *.
    destruct (stop m); [exact Hc | discriminate]. }
  pose proof (data_ready_step m2 Hc2 Ho Ht Hd) as Hstep.
  change (view m2) with (view m) in Hstep.
  change (code_page m2) with (code_page m) in Hstep.
  rewrite Hdec, Henc in Hstep.
  destruct Hstep as [Ht3 Htext].
  destruct (bg_step_InWait_data m2 Ht Hd) as (Hs3 & Hdr3 & _).
  destruct (bg_step_objects m2) as (Hbr3 & _ & _).
  destruct (bg_step_frame m2) as [_ _ Hbl3 _ _ _].
  destruct (constructed_parts m2 Hc2) as (Hbr & _ & _ & Hbl & _).
  rewrite !Nat.iter_succ_r. cbn [Nat.iter nat_rect].
  destruct (wind_down (bg_step m2)) as (Hrun & Hf & Hl);
    [exact Ht3 | rewrite Hs3; reflexivity
    | apply not_signaled_after_reset; exact Hdr3
    | rewrite Hbr3; exact Hbr
    | rewrite Hbl3, Hbl; reflexivity |].
  rewrite bg_step_idle by exact Hrun.
  rewrite (log_text_eq (bg_step m2) _); [| rewrite Hl; reflexivity | exact Hf].
  exact Htext.
Qed.

(** X8: a message that is already in the channel when [close] is called is
    not lost: with the thread in its wait, data-ready signaled and a payload
    that decodes to text that the encoding of the log file has, [close]
    returns after the line for that message has been appended to the
    log. *)
Theorem close_logs_the_pending_message (m : machine) (s : pystr) :
  started m = true -> session_open m = true ->
  thread m = InWait -> signaled H_DATA_READY m = true ->
  utf8_decode (payload_bytes (payload_region (view m))) = Some s ->
  encodable (code_page m) s = true ->
  exists m',
    close LogDbgViewReal_object [] m = Ok tt m'
    /\ log_text m' = log_text m ++ format_line (process_id_of (view m)) s
    /\ running (thread m') = false.
Proof.
  intros Hs Ho Ht Hd Hdec Henc.
  destruct (close_log_text [] m Hs) as (m' & Hclose & Htext & Hrun & _).
  exists m'. split; [exact Hclose |]. split; [| exact Hrun].
  rewrite Htext. apply joined_pending; try assumption.
  unfold started in Hs. apply andb_true_iff in Hs as [Hc _]. exact Hc.
Qed.

Lemma close_logs_the_pending_message_witness :
  started holding_foo = true
  /\ exists m',
       close LogDbgViewReal_object [] holding_foo = Ok tt m'
       /\ log_text m' = of_ascii "Process 100: foo" ++ [10].
Proof.
  assert (Hs : started holding_foo = true) by (vm_compute; reflexivity).
  split; [exact Hs |].
  destruct (close_logs_the_pending_message holding_foo (of_ascii "foo") Hs
              ltac:(vm_compute; reflexivity) ltac:(vm_compute; reflexivity)
              ltac:(vm_compute; reflexivity) ltac:(vm_compute; reflexivity)
              ltac:(vm_compute; reflexivity))
    as (m' & Hclose & Htext & _).
  exists m'. split; [exact Hclose |].
  etransitivity; [exact Htext | vm_compute; reflexivity].
Defined.

(** ** Messages from construction to [close] *)


Lemma after_init_session (name : string) (m : machine) :
  session_open (after_init name m) = true
  /\ signaled H_DATA_READY (after_init name m) = signaled H_DATA_READY m
  /\ log_text (after_init name m) = []
  /\ log_name (after_init name m) = name.
Proof.
  destruct m as [fs br dr sec refuse cp lf st bl bf th cs].
  unfold after_init, mapped, created, opened, session_open, signaled,
    log_text, log_name.
  destruct sec as [bs |], dr as [[] |];
    cbn -[insert repeat Z.to_nat]; rewrite lookup_insert_eq;
    repeat split; reflexivity.
Qed.



(** ** Any interleaving *)

Lemma in_protocol_parts (m : machine) :
  in_protocol m = true ->
  constructed m = true /\ session_open m = true
  /\ running (thread m) = true /\ signaled H_STOP m = false
  /\ (signaled H_DATA_READY m = true -> signaled H_BUFFER_READY m = false)
  /\ (thread m = AtTop ->
      signaled H_BUFFER_READY m = false /\ signaled H_DATA_READY m = false)
  /\ (signaled H_DATA_READY m = true ->
      loggable (code_page m) (view m) = true).
Proof.
  unfold in_protocol. intros H.
  apply andb_true_iff in H as [H Hline].
  apply andb_true_iff in H as [H Htop].
  apply andb_true_iff in H as [H Hdb].
  apply andb_true_iff in H as [H Hs].
  apply andb_true_iff in H as [H Hr].
  apply andb_true_iff in H as [Hc Ho].
  split; [exact Hc |]. split; [exact Ho |]. split; [exact Hr |].
  split; [apply negb_true_iff; exact Hs |].
  split; [| split].
  - intros Hd. rewrite Hd in Hdb. cbn in Hdb.
    apply negb_true_iff. exact Hdb.
  - intros Ht. rewrite Ht in Htop.
    apply andb_true_iff in Htop as [X Y].
    split; apply negb_true_iff; assumption.
  - intros Hd. rewrite Hd in Hline. cbn in Hline. exact Hline.
Qed.

Lemma in_protocol_intro (m : machine) :
  constructed m = true -> session_open m = true ->
  running (thread m) = true -> signaled H_STOP m = false ->
  (signaled H_DATA_READY m = true -> signaled H_BUFFER_READY m = false) ->
  (thread m = AtTop ->
   signaled H_BUFFER_READY m = false /\ signaled H_DATA_READY m = false) ->
  (signaled H_DATA_READY m = true ->
   loggable (code_page m) (view m) = true) ->
  in_protocol m = true.
Proof.
  intros Hc Ho Hr Hs Hdb Htop Hline. unfold in_protocol.
  rewrite Hc, Ho, Hr, Hs. cbn [andb negb].
  destruct (signaled H_DATA_READY m) eqn:Hd.
  - rewrite (Hdb eq_refl), (Hline eq_refl). cbn.
    destruct (thread m) eqn:Ht; try reflexivity.
    destruct (Htop eq_refl) as [_ X]. discriminate.
  - cbn. destruct (thread m) eqn:Ht; try reflexivity.
    destruct (Htop eq_refl) as [-> _]. reflexivity.
Qed.

Lemma deposit_refused (bytes : list byte) (m : machine) :
  signaled H_BUFFER_READY m = false -> deposit bytes m = m.
Proof.
  unfold signaled, deposit. cbn [event_state].
  destruct (DBWIN_BUFFER_READY m) as [[] |]; [discriminate | reflexivity..].
Qed.

Lemma deposit_accepted (bytes : list byte) (m : machine) :
  constructed m = true -> signaled H_BUFFER_READY m = true ->
  (List.length bytes <= 4096)%nat ->
  thread (deposit bytes m) = thread m
  /\ signaled H_DATA_READY (deposit bytes m) = true
  /\ signaled H_BUFFER_READY (deposit bytes m) = false
  /\ signaled H_STOP (deposit bytes m) = signaled H_STOP m
  /\ files (deposit bytes m) = files m
  /\ log_file (deposit bytes m) = log_file m
  /\ (exists tail, view (deposit bytes m) = bytes ++ tail).
Proof.
  intros Hc Hb Hlen.
  destruct (constructed_parts m Hc)
    as (_ & Hdr & _ & Hbl & (old & Hsec & Hold) & _ & _).
  destruct m as [fs br dr sec refuse cp lf st bl bf th cs].
  unfold signaled in *.
  cbn [event_state DBWIN_BUFFER_READY DBWIN_DATA_READY buffer_length
       DBWIN_BUFFER thread] in *.
  subst sec bl. destruct dr as [d |]; [| discriminate].
  destruct br as [[] |]; try discriminate.
  unfold deposit, view. cbn -[firstn skipn app Z.to_nat].
  repeat (split; [reflexivity |]).
  exists (firstn (4096 - List.length bytes) (skipn (List.length bytes) old)).
  change (Z.to_nat 4096) with 4096%nat.
  rewrite firstn_firstn, Nat.min_l by exact Hold.
  rewrite firstn_app, firstn_all2 by exact Hlen. reflexivity.
Qed.

Lemma bg_step_InWait_data_buffer_ready (m : machine) :
  thread m = InWait -> signaled H_DATA_READY m = true ->
  DBWIN_BUFFER_READY (bg_step m) = DBWIN_BUFFER_READY m.
Proof.
  intros Ht Hd. rewrite (bg_step_InWait m Ht), (wait_data m Hd).
  destruct (settle_frame (set_DBWIN_DATA_READY (Some false) m) WAIT_OBJECT_0)
    as (_ & -> & _). reflexivity.
Qed.

Lemma signaled_eq (h : handle) (m m' : machine) :
  event_state h m' = event_state h m -> signaled h m' = signaled h m.
Proof. intros H. unfold signaled. rewrite H. reflexivity. Qed.

(** One occurrence of a capture in progress: the log and the line owed grow
    by the lines of the deposits let in. *)
Lemma protocol_step (o : occurrence) (m : machine) :
  in_protocol m = true ->
  forallb (deliverable (code_page m)) (deposits [o]) = true ->
  in_protocol (occur o m) = true
  /\ log_text (occur o m) ++ owed (occur o m)
     = (log_text m ++ owed m) ++ lines_of (accepted [o] m).
Proof.
  intros Hp Hdel.
  destruct (in_protocol_parts m Hp) as (Hc & Ho & Hr & Hs & Hdb & Htop & Hline).
  destruct o as [bytes |]; cbn [occur accepted app].
  - (* a deposit *)
    cbn in Hdel. rewrite andb_true_r in Hdel.
    destruct (deliverable_parts _ bytes Hdel) as (_ & _ & Hlen).
    destruct (signaled H_BUFFER_READY m) eqn:Hb.
    + assert (Hd : signaled H_DATA_READY m = false).
      { destruct (signaled H_DATA_READY m); [| reflexivity].
        specialize (Hdb eq_refl). discriminate. }
      destruct (deposit_accepted bytes m Hc Hb Hlen)
        as (Ht' & Hd' & Hb' & Hs' & Hf' & Hl' & (tail & Hview)).
      assert (Hc' : constructed (deposit bytes m) = true)
        by (rewrite constructed_deposit; exact Hc).
      assert (Hlenv : List.length (bytes ++ tail) = 4096%nat).
      { rewrite <- Hview. apply view_length. exact Hc'. }
      destruct (line_of_app _ bytes tail Hdel Hlenv) as [Happ Hlog].
      split.
      * apply in_protocol_intro; try assumption.
        -- rewrite (session_open_frame _ _ (deposit_frame bytes m)). exact Ho.
        -- rewrite Ht'. exact Hr.
        -- rewrite Hs'. exact Hs.
        -- intros _. exact Hb'.
        -- rewrite Ht'. intros Ha. destruct (Htop Ha) as [X _]. congruence.
        -- intros _.
           rewrite (frame_code_page _ _ (deposit_frame bytes m)), Hview.
           exact Hlog.
      * unfold owed. rewrite Hd', Hd, Hview, Happ.
        rewrite (log_text_eq m (deposit bytes m));
          [| rewrite Hl'; reflexivity | exact Hf'].
        unfold lines_of. simpl flat_map. rewrite !app_nil_r. reflexivity.
    + rewrite (deposit_refused bytes m Hb). split; [exact Hp |].
      unfold lines_of. cbn. rewrite app_nil_r. reflexivity.
  - (* a step of the thread *)
    unfold lines_of. simpl flat_map. rewrite app_nil_r.
    destruct (thread m) eqn:Ht; try discriminate.
    + (* arming *)
      destruct (Htop eq_refl) as [Hb Hd].
      destruct (constructed_parts m Hc) as (Hbr & _).
      pose proof (bg_step_AtTop_eq m Ht Hbr) as E.
      assert (Hd' : signaled H_DATA_READY (bg_step m) = false)
        by (rewrite E; exact Hd).
      split.
      * apply in_protocol_intro.
        -- rewrite constructed_bg_step. exact Hc.
        -- rewrite (session_open_frame _ _ (bg_step_frame m)). exact Ho.
        -- rewrite E. reflexivity.
        -- rewrite E. exact Hs.
        -- rewrite Hd'. discriminate.
        -- rewrite E. discriminate.
        -- rewrite Hd'. discriminate.
      * unfold owed. rewrite Hd', Hd. f_equal.
        rewrite E. reflexivity.
    + destruct (signaled H_DATA_READY m) eqn:Hd.
      * (* serving data-ready *)
        specialize (Hdb eq_refl). specialize (Hline eq_refl).
        destruct (loggable_step m Hc Ho Ht Hd Hline) as [Ht' Htext].
        destruct (bg_step_InWait_data m Ht Hd) as (Hs' & Hd' & _).
        pose proof (bg_step_InWait_data_buffer_ready m Ht Hd) as Hb'.
        assert (Hdn : signaled H_DATA_READY (bg_step m) = false)
          by (apply not_signaled_after_reset; exact Hd').
        assert (Hbn : signaled H_BUFFER_READY (bg_step m) = false)
          by (rewrite (signaled_eq H_BUFFER_READY m _ Hb'); exact Hdb).
        split.
        -- apply in_protocol_intro.
           ++ rewrite constructed_bg_step. exact Hc.
           ++ rewrite (session_open_frame _ _ (bg_step_frame m)). exact Ho.
           ++ rewrite Ht'. reflexivity.
           ++ rewrite (signaled_eq H_STOP m _ Hs'). exact Hs.
           ++ intros _. exact Hbn.
           ++ intros _. split; assumption.
           ++ rewrite Hdn. discriminate.
        -- unfold owed. rewrite Hdn, Hd, Htext, app_nil_r. reflexivity.
      * (* blocked *)
        assert (E : bg_step m = m).
        { rewrite (bg_step_InWait m Ht), (wait_blocked m Hd Hs). reflexivity. }
        rewrite E. split; [exact Hp | reflexivity].
Qed.

Lemma lines_of_app (l1 l2 : list (list byte)) :
  lines_of (l1 ++ l2) = lines_of l1 ++ lines_of l2.
Proof. unfold lines_of. apply flat_map_app. Qed.

Lemma accepted_cons (o : occurrence) (os : list occurrence) (m : machine) :
  accepted (o :: os) m = accepted [o] m ++ accepted os (occur o m).
Proof. cbn [accepted]. rewrite app_nil_r. reflexivity. Qed.

Lemma deposits_cons (o : occurrence) (os : list occurrence) :
  deposits (o :: os) = deposits [o] ++ deposits os.
Proof. unfold deposits. cbn [flat_map]. rewrite app_nil_r. reflexivity. Qed.

(** Any schedule of a capture in progress. *)
Lemma protocol_elapse (os : list occurrence) (m : machine) :
  in_protocol m = true ->
  forallb (deliverable (code_page m)) (deposits os) = true ->
  in_protocol (elapse os m) = true
  /\ log_text (elapse os m) ++ owed (elapse os m)
     = (log_text m ++ owed m) ++ lines_of (accepted os m).
Proof.
  revert m. induction os as [| o os IH]; intros m Hp Hdel.
  - split; [exact Hp |]. unfold lines_of. cbn. rewrite app_nil_r. reflexivity.
  - rewrite deposits_cons, forallb_app in Hdel.
    apply andb_true_iff in Hdel as [Hdo Hdos].
    destruct (protocol_step o m Hp Hdo) as [Hp1 Htext1].
    rewrite <- (frame_code_page _ _ (occur_frame o m)) in Hdos.
    destruct (IH (occur o m) Hp1 Hdos) as [Hp2 Htext2].
    change (elapse (o :: os) m) with (elapse os (occur o m)).
    split; [exact Hp2 |].
    rewrite (accepted_cons o os m), lines_of_app, app_assoc.
    rewrite Htext2, Htext1. reflexivity.
Qed.

(** [close] with the thread in its wait and nothing pending. *)
Lemma joined_waiting (m : machine) :
  constructed m = true -> thread m = InWait ->
  signaled H_DATA_READY m = false ->
  log_text (joined [] m) = log_text m.
Proof.
  intros Hc Ht Hd.
  destruct (constructed_parts m Hc) as (_ & _ & _ & Hbl & _).
  rewrite joined_nil.
  set (m2 := record_call (SetEvent H_STOP) (set_stop (Some true) m)).
  assert (E : bg_step m2 = set_thread Stopped (set_stop (Some false) m2)).
  { apply bg_step_stop_only; [exact Ht | exact Hd | reflexivity |].
    change (buffer_length m2) with (buffer_length m). rewrite Hbl.
    reflexivity. }
  rewrite !Nat.iter_succ_r. cbn [Nat.iter nat_rect].
  rewrite E.
  rewrite !(bg_step_idle (set_thread Stopped (set_stop (Some false) m2)))
    by reflexivity.
  reflexivity.
Qed.

(** [close] on a capture in progress leaves the log with the line owed. *)
Lemma protocol_close (m : machine) :
  in_protocol m = true ->
  exists m',
    close LogDbgViewReal_object [] m = Ok tt m'
    /\ log_text m' = log_text m ++ owed m
    /\ running (thread m') = false /\ releases m' = []
    /\ log_name m' = log_name m.
Proof.
  intros Hp.
  destruct (in_protocol_parts m Hp) as (Hc & Ho & Hr & Hs & Hdb & Htop & Hline).
  assert (Hst : started m = true).
  { unfold started. rewrite Hc. cbn [andb].
    destruct (thread m); try discriminate; reflexivity. }
  destruct (close_log_text [] m Hst) as (m' & Hclose & Htext & Hrun & Hrel & Hn).
  exists m'. split; [exact Hclose |].
  split; [| split; [exact Hrun | split; [exact Hrel | exact Hn]]].
  rewrite Htext. unfold owed.
  destruct (thread m) eqn:Ht; try discriminate.
  - destruct (Htop eq_refl) as [_ Hd]. rewrite Hd, app_nil_r.
    apply joined_idle_loop; assumption.
  - destruct (signaled H_DATA_READY m) eqn:Hd.
    + destruct (loggable_line _ _ (Hline eq_refl))
        as (s & Hdec & Henc & Hlog).
      rewrite Hlog. cbn [default].
      apply joined_pending; assumption.
    + rewrite app_nil_r. apply joined_waiting; assumption.
Qed.

(** X10: the handshake never lets a message be overwritten before the thread
    has read it: in a capture in progress, under any schedule of steps of
    the thread and of deposits that are framed and decode to text the
    encoding of the log file has, the capture stays in progress, and while a
    message waits in the channel (data-ready signaled) buffer-ready is not
    signaled and a further deposit, of any bytes, changes nothing. *)
Theorem waiting_message_is_not_overwritten
  (os : list occurrence) (bytes : list byte) (m : machine) :
  in_protocol m = true ->
  forallb (deliverable (code_page m)) (deposits os) = true ->
  in_protocol (elapse os m) = true
  /\ (signaled H_DATA_READY (elapse os m) = true ->
      signaled H_BUFFER_READY (elapse os m) = false
      /\ deposit bytes (elapse os m) = elapse os m).
Proof.
  intros Hp Hdel.
  destruct (protocol_elapse os m Hp Hdel) as [Hp' _].
  split; [exact Hp' |]. intros Hd.
  destruct (in_protocol_parts _ Hp') as (_ & _ & _ & _ & Hdb & _).
  split; [exact (Hdb Hd) |].
  apply deposit_refused. exact (Hdb Hd).
Qed.

Lemma waiting_message_is_not_overwritten_witness :
  in_protocol holding_foo = true
  /\ signaled H_DATA_READY
       (elapse [Deposit (message 200 (bytes_of "baz" ++ [x00]))] holding_foo)
     = true
  /\ deposit (message 7 [x00])
       (elapse [Deposit (message 200 (bytes_of "baz" ++ [x00]))] holding_foo)
     = elapse [Deposit (message 200 (bytes_of "baz" ++ [x00]))] holding_foo.
Proof.
  assert (Hp : in_protocol holding_foo = true) by (vm_compute; reflexivity).
  split; [exact Hp |].
  destruct (waiting_message_is_not_overwritten
              [Deposit (message 200 (bytes_of "baz" ++ [x00]))]
              (message 7 [x00]) holding_foo Hp
              ltac:(vm_compute; reflexivity)) as [_ H].
  assert (Hd : signaled H_DATA_READY
                 (elapse [Deposit (message 200 (bytes_of "baz" ++ [x00]))]
                    holding_foo) = true) by (vm_compute; reflexivity).
  split; [exact Hd |]. exact (proj2 (H Hd)).
Defined.



Lemma capturing_granted (name : string) (m : machine) :
  grants_all m = true ->
  capturing name m = record_call StartThread (set_thread AtTop (after_init name m)).
Proof.
  intros Hg. unfold capturing, makeLogDbgView, bind. cbn [eq_True].
  rewrite (init_granted name m Hg). cbn [ret final start].
  destruct (after_init_fields name m) as (Hth & _).
  unfold Thread_start. rewrite Hth. reflexivity.
Qed.

Lemma after_init_events (name : string) (m : machine) :
  signaled H_BUFFER_READY (after_init name m) = signaled H_BUFFER_READY m
  /\ signaled H_STOP (after_init name m) = false.
Proof.
  destruct m as [fs br dr sec refuse cp lf st bl bf th cs].
  unfold after_init, mapped, created, opened, signaled.
  destruct sec as [bs |], br as [[] |];
    cbn -[insert repeat Z.to_nat]; split; reflexivity.
Qed.

(** X12: on a machine that grants the resources and where neither named
    event is already signaled, making a capture session and starting it
    gives a capture in progress, with an empty log under the given name and
    no line owed; the thread is at the top of its loop and none of the
    three events is signaled. *)
Theorem capture_starts_in_protocol (log_file_name : string) (m : machine) :
  grants_all m = true ->
  signaled H_BUFFER_READY m = false -> signaled H_DATA_READY m = false ->
  in_protocol (capturing log_file_name m) = true
  /\ log_name (capturing log_file_name m) = log_file_name
  /\ log_text (capturing log_file_name m) = []
  /\ owed (capturing log_file_name m) = []
  /\ thread (capturing log_file_name m) = AtTop
  /\ signaled H_BUFFER_READY (capturing log_file_name m) = false
  /\ signaled H_DATA_READY (capturing log_file_name m) = false
  /\ signaled H_STOP (capturing log_file_name m) = false.
Proof.
  intros Hg Hb Hd.
  destruct (grants_all_parts m Hg) as (_ & _ & _ & _ & _ & Hsec).
  pose proof (constructed_after_init log_file_name m Hsec) as Hc0.
  destruct (after_init_session log_file_name m) as (Ho0 & Hdr0 & Htext0 & Hn0).
  destruct (after_init_events log_file_name m) as (Hbr0 & Hst0).
  rewrite Hd in Hdr0. rewrite Hb in Hbr0.
  rewrite (capturing_granted log_file_name m Hg). clear Hg Hsec Hb Hd.
  generalize dependent (after_init log_file_name m).
  intros m0 Hc0 Ho0 Hdr0 Htext0 Hn0 Hbr0 Hst0.
  split; [| split; [exact Hn0 | split; [exact Htext0 |]]].
  - apply in_protocol_intro.
    + exact Hc0.
    + exact Ho0.
    + reflexivity.
    + exact Hst0.
    + intros _. exact Hbr0.
    + intros _. split; [exact Hbr0 | exact Hdr0].
    + intros X. change (signaled H_DATA_READY m0 = true) in X. congruence.
  - split.
    + unfold owed.
      change (signaled H_DATA_READY
                (record_call StartThread (set_thread AtTop m0)))
        with (signaled H_DATA_READY m0).
      rewrite Hdr0. reflexivity.
    + split; [reflexivity |]. split; [exact Hbr0 |].
      split; [exact Hdr0 | exact Hst0].
Qed.

Lemma capture_starts_in_protocol_witness :
  grants_all fresh_host = true
  /\ in_protocol (capturing "L" fresh_host) = true
  /\ log_text (capturing "L" fresh_host) = [].
Proof.
  assert (Hg : grants_all fresh_host = true) by (vm_compute; reflexivity).
  split; [exact Hg |].
  destruct (capture_starts_in_protocol "L" fresh_host Hg
              ltac:(vm_compute; reflexivity) ltac:(vm_compute; reflexivity))
    as (Hp & _ & Ht & _).
  split; [exact Hp | exact Ht].
Defined.

(** ** Plain text *)

(** X13: a message whose payload, up to its first NUL, is plain ASCII is
    always logged: the thread in its wait with data-ready signaled appends
    the line with the identifier and exactly those characters, and goes back
    to the top of the loop. *)
Theorem ascii_message_is_logged_verbatim (m : machine) :
  constructed m = true -> session_open m = true ->
  thread m = InWait -> signaled H_DATA_READY m = true ->
  all_ascii (payload_bytes (payload_region (view m))) = true ->
  thread (bg_step m) = AtTop
  /\ log_text (bg_step m)
     = log_text m
       ++ format_line (process_id_of (view m))
            (map byte_val (payload_bytes (payload_region (view m)))).
Proof.
  intros Hc Ho Ht Hd Ha.
  pose proof (data_ready_step m Hc Ho Ht Hd) as Hstep.
  rewrite (utf8_decode_ascii _ Ha) in Hstep.
  rewrite (encodable_bytes_ascii (code_page m) _ Ha) in Hstep. exact Hstep.
Qed.

Lemma ascii_message_is_logged_verbatim_witness :
  constructed holding_foo = true
  /\ thread (bg_step holding_foo) = AtTop
  /\ log_text (bg_step holding_foo) = of_ascii "Process 100: foo" ++ [10].
Proof.
  assert (Hc : constructed holding_foo = true) by (vm_compute; reflexivity).
  split; [exact Hc |].
  destruct (ascii_message_is_logged_verbatim holding_foo Hc
              ltac:(vm_compute; reflexivity) ltac:(vm_compute; reflexivity)
              ltac:(vm_compute; reflexivity) ltac:(vm_compute; reflexivity))
    as [Ht Htext].
  split; [exact Ht |].
  etransitivity; [exact Htext | vm_compute; reflexivity].
Defined.

(** ** The handshake as a producer drives it *)

Lemma armed_parts (m : machine) :
  armed m = true ->
  in_protocol m = true /\ thread m = InWait
  /\ signaled H_DATA_READY m = false /\ signaled H_BUFFER_READY m = true
  /\ signaled H_STOP m = false.
Proof.
  unfold armed. intros H. apply andb_true_iff in H as [Hp Hb].
  destruct (in_protocol_parts m Hp) as (_ & _ & Hr & Hs & Hdb & Htop & _).
  split; [exact Hp |]. split; [| split; [| split; [exact Hb | exact Hs]]].
  - destruct (thread m) eqn:Ht; try discriminate; [| reflexivity].
    destruct (Htop eq_refl) as [X _]. congruence.
  - destruct (signaled H_DATA_READY m); [| reflexivity].
    specialize (Hdb eq_refl). congruence.
Qed.

Lemma pending_parts (m : machine) :
  pending m = true ->
  in_protocol m = true /\ thread m = InWait
  /\ signaled H_DATA_READY m = true.
Proof.
  unfold pending. intros H. apply andb_true_iff in H as [Hp Hd].
  destruct (in_protocol_parts m Hp) as (_ & _ & Hr & _ & _ & Htop & _).
  split; [exact Hp |]. split; [| exact Hd].
  destruct (thread m) eqn:Ht; try discriminate; [| reflexivity].
  destruct (Htop eq_refl) as [_ X]. congruence.
Qed.

Lemma armed_bg (m : machine) : armed m = true -> bg_step m = m.
Proof.
  intros H. destruct (armed_parts m H) as (_ & Ht & Hd & _ & Hs).
  rewrite (bg_step_InWait m Ht), (wait_blocked m Hd Hs). reflexivity.
Qed.

Lemma armed_deposit (bytes : list byte) (m : machine) :
  armed m = true -> deliverable (code_page m) bytes = true ->
  pending (deposit bytes m) = true.
Proof.
  intros H Hdel. destruct (armed_parts m H) as (Hp & _ & _ & Hb & _).
  destruct (in_protocol_parts m Hp) as (Hc & _).
  destruct (deliverable_parts _ bytes Hdel) as (_ & _ & Hlen).
  destruct (protocol_step (Deposit bytes) m Hp) as [Hp' _].
  { cbn. rewrite Hdel. reflexivity. }
  destruct (deposit_accepted bytes m Hc Hb Hlen) as (_ & Hd' & _).
  unfold pending. cbn [occur] in Hp'. rewrite Hp', Hd'. reflexivity.
Qed.

(** From the top of the loop the thread arms buffer-ready. *)
Lemma top_arms (m : machine) :
  constructed m = true -> session_open m = true -> thread m = AtTop ->
  signaled H_STOP m = false -> signaled H_DATA_READY m = false ->
  armed (bg_step m) = true.
Proof.
  intros Hc Ho Ht Hs Hd.
  destruct (constructed_parts m Hc) as (Hbr & _).
  pose proof (bg_step_AtTop_eq m Ht Hbr) as E.
  assert (Hd' : signaled H_DATA_READY (bg_step m) = false)
    by (rewrite E; exact Hd).
  assert (Hb' : signaled H_BUFFER_READY (bg_step m) = true)
    by (rewrite E; reflexivity).
  unfold armed. rewrite Hb', andb_true_r.
  apply in_protocol_intro.
  - rewrite constructed_bg_step. exact Hc.
  - rewrite (session_open_frame _ _ (bg_step_frame m)). exact Ho.
  - rewrite E. reflexivity.
  - rewrite E. exact Hs.
  - rewrite Hd'. discriminate.
  - rewrite E. discriminate.
  - rewrite Hd'. discriminate.
Qed.

(** A waiting message is served, and the thread arms again. *)
Lemma pending_served (m : machine) :
  pending m = true -> armed (bg_step (bg_step m)) = true.
Proof.
  intros H. destruct (pending_parts m H) as (Hp & Ht & Hd).
  destruct (protocol_step Background m Hp eq_refl) as [Hp' _].
  cbn [occur] in Hp'.
  destruct (in_protocol_parts m Hp) as (Hc & Ho & _ & _ & _ & _ & Hline).
  destruct (loggable_step m Hc Ho Ht Hd (Hline Hd)) as [Ht' _].
  destruct (in_protocol_parts _ Hp') as (Hc' & Ho' & _ & Hs' & _ & Htop' & _).
  destruct (Htop' Ht') as [_ Hd'].
  apply top_arms; assumption.
Qed.

Lemma accepted_app (os1 os2 : list occurrence) (m : machine) :
  accepted (os1 ++ os2) m = accepted os1 m ++ accepted os2 (elapse os1 m).
Proof.
  revert m. induction os1 as [| o os1 IH]; intros m; [reflexivity |].
  cbn [app accepted]. rewrite IH, app_assoc. reflexivity.
Qed.

Lemma output_from_armed (bytes : list byte) (m : machine) :
  armed m = true -> deliverable (code_page m) bytes = true ->
  pending (elapse (output bytes) m) = true
  /\ accepted (output bytes) m = [bytes].
Proof.
  intros H Hdel. destruct (armed_parts m H) as (_ & _ & _ & Hb & _).
  unfold output, elapse. cbn [fold_left accepted occur app].
  rewrite !(armed_bg m H), Hb.
  split; [apply armed_deposit; assumption | reflexivity].
Qed.

Lemma output_from_pending (bytes : list byte) (m : machine) :
  pending m = true -> deliverable (code_page m) bytes = true ->
  pending (elapse (output bytes) m) = true
  /\ accepted (output bytes) m = [bytes].
Proof.
  intros H Hdel. pose proof (pending_served m H) as Ha.
  destruct (armed_parts _ Ha) as (_ & _ & _ & Hb & _).
  unfold output, elapse. cbn [fold_left accepted occur app].
  rewrite Hb.
  split; [apply armed_deposit; [assumption |] | reflexivity].
  rewrite (frame_code_page _ _ (bg_step_frame (bg_step m))).
  rewrite (frame_code_page _ _ (bg_step_frame m)). exact Hdel.
Qed.

Lemma outputs_from_pending (messages : list (list byte)) (m : machine) :
  pending m = true ->
  forallb (deliverable (code_page m)) messages = true ->
  accepted (flat_map output messages) m = messages.
Proof.
  revert m. induction messages as [| bytes rest IH]; intros m H Hall;
    [reflexivity |].
  cbn [forallb] in Hall. apply andb_true_iff in Hall as [Hdel Hrest].
  destruct (output_from_pending bytes m H Hdel) as [H' Hacc].
  rewrite <- (frame_code_page _ _ (elapse_frame (output bytes) m)) in Hrest.
  cbn [flat_map]. rewrite accepted_app, Hacc, (IH _ H' Hrest). reflexivity.
Qed.

Lemma deposits_outputs (messages : list (list byte)) :
  deposits (flat_map output messages) = messages.
Proof.
  induction messages as [| bytes rest IH]; [reflexivity |].
  cbn [flat_map]. unfold deposits in *. rewrite flat_map_app, IH.
  reflexivity.
Qed.

(** ** What [close] leaves of the host *)

Lemma bg_step_section (m : machine) : DBWIN_BUFFER (bg_step m) = DBWIN_BUFFER m.
Proof.
  unfold bg_step. destruct (thread m) eqn:Ht; try reflexivity.
  - unfold SetEvent_. cbn [event_state].
    destruct (DBWIN_BUFFER_READY m); reflexivity.
  - destruct (WaitForMultipleObjects events m) as [[r m1] |] eqn:Hw;
      [| reflexivity].
    assert (Hs : DBWIN_BUFFER m1 = DBWIN_BUFFER m).
    { unfold WaitForMultipleObjects in Hw.
      destruct (first_signaled events 0 m) as [[i h] |]; [| discriminate].
      inversion Hw. destruct h; reflexivity. }
    fold (settle (after_wait r m1)).
    destruct (settle_frame m1 r) as (_ & _ & _ & -> & _). exact Hs.
Qed.

Lemma bg_step_no_data (m : machine) :
  signaled H_DATA_READY m = false -> signaled H_DATA_READY (bg_step m) = false.
Proof.
  intros Hd. destruct (thread m) eqn:Ht;
    try (rewrite bg_step_idle; [exact Hd | rewrite Ht; reflexivity]).
  - unfold bg_step. rewrite Ht. unfold SetEvent_. cbn [event_state].
    destruct (DBWIN_BUFFER_READY m); exact Hd.
  - rewrite (bg_step_InWait m Ht).
    destruct (signaled H_STOP m) eqn:Hs.
    + rewrite (wait_stop m Hd Hs).
      destruct (settle_frame (set_stop (Some false) m) (WAIT_OBJECT_0 + 1))
        as (_ & _ & Hdr & _).
      rewrite (signaled_data_ready_eq _ _ Hdr). exact Hd.
    + rewrite (wait_blocked m Hd Hs). exact Hd.
Qed.

Lemma iter_bg_step_section (n : nat) (m : machine) :
  DBWIN_BUFFER (Nat.iter n bg_step m) = DBWIN_BUFFER m.
Proof.
  induction n as [| n IH]; [reflexivity |].
  rewrite Nat.iter_succ, bg_step_section. exact IH.
Qed.

Lemma iter_bg_step_no_data (n : nat) (m : machine) :
  signaled H_DATA_READY m = false ->
  signaled H_DATA_READY (Nat.iter n bg_step m) = false.
Proof.
  intros H. induction n as [| n IH]; [exact H |].
  rewrite Nat.iter_succ. apply bg_step_no_data. exact IH.
Qed.

Lemma release_refused (m m' : machine) :
  (buffer_close ;; log_file_close) m = Ok tt m' -> refused m' = refused m.
Proof.
  unfold bind, buffer_close, log_file_close.
  destruct (buffer m) as [[bc pos] |] eqn:Eb; [| discriminate].
  destruct (log_file m) as [[name fc] |] eqn:Ef.
  - destruct bc, fc; cbn; rewrite ?Ef; cbn; intros E; inversion E;
      reflexivity.
  - destruct bc; cbn; rewrite ?Ef; cbn; discriminate.
Qed.

(** After [close] on a capture in progress no message waits. *)
Lemma joined_drained (m : machine) :
  in_protocol m = true -> signaled H_DATA_READY (joined [] m) = false.
Proof.
  intros Hp. rewrite joined_nil.
  set (m2 := record_call (SetEvent H_STOP) (set_stop (Some true) m)).
  destruct (signaled H_DATA_READY m) eqn:Hd.
  - destruct (pending_parts m) as (_ & Ht & _).
    { unfold pending. rewrite Hp, Hd. reflexivity. }
    destruct (bg_step_InWait_data m2 Ht Hd) as (_ & Hdr & _).
    rewrite !Nat.iter_succ_r. cbn [Nat.iter nat_rect].
    do 3 apply bg_step_no_data.
    apply not_signaled_after_reset. exact Hdr.
  - apply iter_bg_step_no_data. exact Hd.
Qed.

Lemma close_host (m : machine) :
  in_protocol m = true ->
  forall m', close LogDbgViewReal_object [] m = Ok tt m' ->
  refused m' = refused m
  /\ DBWIN_BUFFER m' = DBWIN_BUFFER m
  /\ signaled H_DATA_READY m' = false.
Proof.
  intros Hp m' Hclose.
  destruct (in_protocol_parts m Hp) as (Hc & _ & Hr & _).
  assert (Hst : started m = true).
  { unfold started. rewrite Hc. cbn [andb].
    destruct (thread m); try discriminate; reflexivity. }
  cbn [close] in Hclose. rewrite (close_started [] m Hst) in Hclose.
  destruct (started_parts m Hst) as (_ & Hws & Hlf & Hbf).
  destruct (joined_facts [] m Hws) as (_ & _ & _ & Hjl & Hjb & _).
  set (j := record_call JoinThread (joined [] m)) in *.
  destruct (release_ok j) as (m'' & Hrel & _ & _ & _ & _ & _ & _ & Hdr & Hsec & _).
  { change (log_file j) with (log_file (joined [] m)). rewrite Hjl. exact Hlf. }
  { change (buffer j) with (buffer (joined [] m)).
    rewrite (assigned_option_map _ _ _ Hjb). exact Hbf. }
  pose proof (release_refused j m'' Hrel) as Href.
  rewrite Hrel in Hclose. inversion Hclose. subst m''.
  split; [| split].
  - rewrite Href. change (refused j) with (refused (joined [] m)).
    rewrite joined_nil.
    destruct (iter_bg_step_frame 4
                (record_call (SetEvent H_STOP) (set_stop (Some true) m)))
      as [-> _ _ _ _]. reflexivity.
  - rewrite Hsec. change (DBWIN_BUFFER j) with (DBWIN_BUFFER (joined [] m)).
    rewrite joined_nil, iter_bg_step_section. reflexivity.
  - rewrite (signaled_data_ready_eq _ _ Hdr).
    change (signaled H_DATA_READY j)
      with (signaled H_DATA_READY (joined [] m)).
    apply joined_drained. exact Hp.
Qed.

(** ** A whole session *)

Lemma after_init_refused (name : string) (m : machine) :
  refused (after_init name m) = refused m.
Proof.
  destruct m as [fs br dr sec refuse cp lf st bl bf th cs].
  unfold after_init, mapped, created, opened.
  destruct sec as [bs |]; reflexivity.
Qed.

Lemma grants_all_intro (m m' : machine) :
  refused m' = refused m -> grants_all m = true ->
  constructed m' = true -> grants_all m' = true.
Proof.
  intros Hr Hg Hc.
  destruct (constructed_parts m' Hc) as (_ & _ & _ & _ & (old & Hsec & Hold) & _).
  unfold grants_all in *. rewrite Hr, Hsec.
  apply andb_true_iff in Hg as [Hg _]. rewrite Hg. cbn [andb].
  apply Nat.leb_le. exact Hold.
Qed.

Lemma log_text_lookup (m : machine) (name : string) (t : pystr) :
  log_name m = name -> log_text m = t -> t <> [] ->
  files m !! name = Some t.
Proof.
  unfold log_name, log_text. intros Hn Ht Hne.
  destruct (log_file m) as [f |]; [| congruence].
  subst name. destruct (files m !! fname f) as [x |]; simpl in Ht;
    [subst t; reflexivity | congruence].
Qed.

Lemma format_line_nonempty (n : Z) (s t : pystr) : format_line n s ++ t <> [].
Proof.
  unfold format_line.
  destruct (of_ascii "Process ") as [| c l] eqn:E;
    [vm_compute in E; discriminate | discriminate].
Qed.

(** A session that is made on a granting host, started, sent one message
    after the other by a producer and closed. *)
Lemma capture_session
  (name : string) (bytes : list byte) (rest : list (list byte)) (m : machine) :
  grants_all m = true -> signaled H_DATA_READY m = false ->
  (forall cp, forallb (deliverable cp) (bytes :: rest) = true) ->
  exists m',
    (start LogDbgViewReal_object ;;
     exec (PyObject LogDbgViewReal_object)
       (map Meanwhile (flat_map output (bytes :: rest))) ;;
     close LogDbgViewReal_object []) (after_init name m) = Ok tt m'
    /\ log_name m' = name
    /\ log_text m' = lines_of (bytes :: rest)
    /\ grants_all m' = true
    /\ signaled H_DATA_READY m' = false
    /\ (forall other : string,
           other <> name -> files m' !! other = files m !! other).
Proof.
  intros Hg Hdr Hall.
  destruct (grants_all_parts m Hg) as (_ & _ & _ & _ & _ & Hsec).
  pose proof (constructed_after_init name m Hsec) as Hc0.
  destruct (after_init_fields name m) as (Hth0 & Hfiles0 & _).
  destruct (after_init_session name m) as (Ho0 & Hdr0 & Htext0 & Hn0).
  destruct (after_init_events name m) as (_ & Hst0).
  pose proof (after_init_refused name m) as Href0.
  rewrite Hdr in Hdr0.
  assert (Hother0 : forall other : string,
             other <> name ->
             files (after_init name m) !! other = files m !! other).
  { intros other Hne. rewrite Hfiles0. apply lookup_insert_ne. congruence. }
  clear Hfiles0 Hsec Hdr.
  generalize dependent (after_init name m).
  intros m0 Hc0 Hth0 Ho0 Hdr0 Htext0 Hn0 Hst0 Href0 Hother0.
  set (m1 := record_call StartThread (set_thread AtTop m0)).
  assert (Hstart : start LogDbgViewReal_object m0 = Ok tt m1).
  { cbn [start]. unfold Thread_start. rewrite Hth0. reflexivity. }
  unfold bind at 1. rewrite Hstart.
  unfold bind at 1. rewrite exec_meanwhile.
  (* the thread arms, then the first message arrives *)
  assert (Ha : armed (bg_step m1) = true).
  { apply top_arms; [exact Hc0 | exact Ho0 | reflexivity | exact Hst0
                    | exact Hdr0]. }
  assert (Htext1 : log_text (bg_step m1) = []).
  { rewrite (log_text_eq m1 (bg_step m1)); [exact Htext0 | |].
    - destruct (bg_step_frame m1) as [_ -> _ _ _]. reflexivity.
    - destruct (constructed_parts m1 Hc0) as (Hbr & _).
      rewrite (bg_step_AtTop_eq m1 eq_refl Hbr). reflexivity. }
  assert (Hn1 : log_name (bg_step m1) = name).
  { rewrite (log_name_eq m1 (bg_step m1)); [exact Hn0 |].
    destruct (bg_step_frame m1) as [_ -> _ _ _]. reflexivity. }
  assert (Href1 : refused (bg_step m1) = refused m).
  { destruct (bg_step_frame m1) as [-> _ _ _ _]. exact Href0. }
  assert (Hother1 : forall other : string,
             other <> name -> files (bg_step m1) !! other = files m !! other).
  { intros other Hne.
    rewrite (lo_others _ _ (log_only_bg_step m1)); [apply Hother0; exact Hne |].
    change (log_name m1) with (log_name m0). rewrite Hn0. exact Hne. }
  set (os := Background :: Deposit bytes :: flat_map output rest).
  change (elapse (flat_map output (bytes :: rest)) m1)
    with (elapse os (bg_step m1)).
  clearbody m1. clear Hstart.
  generalize dependent (bg_step m1). intros ma Ha Htext1 Hn1 Href1 Hother1.
  destruct (armed_parts ma Ha) as (Hp & _ & Hda & Hba & _).
  pose proof (Hall (code_page ma)) as Hall'. cbn [forallb] in Hall'.
  pose proof Hall' as Hsplit.
  apply andb_true_iff in Hsplit as [Hdel _].
  assert (Hdeps : forallb (deliverable (code_page ma)) (deposits os) = true).
  { unfold os, deposits. cbn [flat_map app].
    fold (deposits (flat_map output rest)). rewrite deposits_outputs.
    exact Hall'. }
  assert (Hacc : accepted os ma = bytes :: rest).
  { unfold os. cbn [accepted occur app]. rewrite (armed_bg ma Ha), Hba.
    cbn [app]. f_equal.
    apply outputs_from_pending; [apply armed_deposit; assumption |].
    pose proof (Hall (code_page (deposit bytes ma))) as Hrest.
    cbn [forallb] in Hrest. apply andb_true_iff in Hrest as [_ Hrest].
    exact Hrest. }
  destruct (protocol_elapse os ma Hp Hdeps) as [Hp2 Htext2].
  rewrite Hacc in Htext2.
  assert (Howed : owed ma = []) by (unfold owed; rewrite Hda; reflexivity).
  rewrite Htext1, Howed in Htext2. cbn [app] in Htext2.
  assert (Hn2 : log_name (elapse os ma) = name).
  { rewrite (log_name_eq _ _ (lo_name _ _ (log_only_elapse os ma))).
    exact Hn1. }
  assert (Href2 : refused (elapse os ma) = refused m).
  { destruct (elapse_frame os ma) as [-> _ _ _ _]. exact Href1. }
  assert (Hother2 : forall other : string,
             other <> name -> files (elapse os ma) !! other = files m !! other).
  { intros other Hne.
    rewrite (lo_others _ _ (log_only_elapse os ma)); [apply Hother1; exact Hne |].
    rewrite Hn1. exact Hne. }
  destruct (in_protocol_parts _ Hp2) as (Hc2 & _).
  clearbody os.
  generalize dependent (elapse os ma). intros m2 Hp2 Htext2 Hn2 Href2 Hother2 Hc2.
  destruct (protocol_close m2 Hp2) as (m' & Hclose & Htext & _ & _ & Hn).
  destruct (close_host m2 Hp2 m' Hclose) as (Href & Hsec' & Hdr').
  exists m'. split; [exact Hclose |].
  split; [rewrite Hn; exact Hn2 |].
  split; [rewrite Htext; exact Htext2 |].
  split; [| split; [exact Hdr' |]].
  - unfold grants_all in *. rewrite Href, Href2, Hsec'.
    apply andb_true_iff in Hg as [Hg _]. rewrite Hg. cbn [andb].
    destruct (constructed_parts m2 Hc2) as (_ & _ & _ & _ & (old & -> & Hold) & _).
    apply Nat.leb_le. exact Hold.
  - intros other Hne.
    pose proof (logs_only_close LogDbgViewReal_object [] m2) as [_ Ho _].
    rewrite Hclose in Ho. cbn [final] in Ho.
    rewrite Ho; [apply Hother2; exact Hne | rewrite Hn2; exact Hne].
Qed.

(** ** [test] *)

Lemma line_of_message (process_id : Z) (text : list byte) :
  0 <= process_id < 2 ^ 32 ->
  contains0 text = false -> all_ascii text = true ->
  line_of (message process_id (text ++ [x00]))
  = Some (format_line process_id (map byte_val text)).
Proof.
  intros Hn Hz Ha. unfold line_of.
  rewrite (process_id_of_message process_id (text ++ [x00]) Hn).
  assert (E : payload_region (message process_id (text ++ [x00]))
              = text ++ [x00]) by reflexivity.
  rewrite E, (payload_bytes_before_first_nul text [] x00 Hz eq_refl).
  rewrite (utf8_decode_ascii text Ha). reflexivity.
Qed.

(** An ASCII text with its terminating NUL is deliverable whatever the
    encoding of the log file is. *)
Lemma deliverable_message (cp : Z -> bool) (process_id : Z) (text : list byte) :
  contains0 text = false -> all_ascii text = true ->
  (List.length text <= 4000)%nat ->
  deliverable cp (message process_id (text ++ [x00])) = true.
Proof.
  intros Hz Ha Hlen. unfold deliverable, framed, loggable.
  assert (E : payload_region (message process_id (text ++ [x00]))
              = text ++ [x00]) by reflexivity.
  assert (L : List.length (message process_id (text ++ [x00]))
              = (5 + List.length text)%nat).
  { unfold message, le32. cbn [map]. rewrite !length_app. cbn [List.length].
    lia. }
  rewrite E, L, contains0_app.
  replace (contains0 [x00]) with true by reflexivity.
  rewrite orb_true_r. cbn [orb].
  rewrite (payload_bytes_before_first_nul text [] x00 Hz eq_refl).
  rewrite (utf8_decode_ascii text Ha).
  rewrite (encodable_bytes_ascii cp text Ha).
  rewrite !andb_true_r. apply andb_true_iff.
  split; apply Nat.leb_le; lia.
Qed.

(** X14: [test] with the flag [True], run by the process [process_id] on a
    machine that grants the resources and where data-ready is not already
    signaled, with every [OutputDebugString] delivered through the
    handshake, returns, and leaves in [logfile1.txt] the three lines for
    foo, bar and baz and in [logfile2.txt] the four lines for hi, there,
    world and !, each with the identifier of the process; the last message
    of each session, still in the channel when [close] is called, is
    logged too. *)
Theorem test_writes_both_logs (process_id : Z) (m : machine) :
  grants_all m = true -> signaled H_DATA_READY m = false ->
  0 <= process_id < 2 ^ 32 ->
  exists m',
    test (PyBool true) process_id m = Ok tt m'
    /\ files m' !! "logfile1.txt"%string
       = Some (format_line process_id (of_ascii "foo")
               ++ format_line process_id (of_ascii "bar")
               ++ format_line process_id (of_ascii "baz"))
    /\ files m' !! "logfile2.txt"%string
       = Some (format_line process_id (of_ascii "hi")
               ++ format_line process_id (of_ascii "there")
               ++ format_line process_id (of_ascii "world")
               ++ format_line process_id (of_ascii "!")).
Proof.
  intros Hg Hd Hn.
  pose (msg := fun text : string =>
                 message process_id (bytes_of text ++ [x00])).
  assert (Hline : forall text : string,
             contains0 (bytes_of text) = false ->
             all_ascii (bytes_of text) = true ->
             line_of (msg text)
             = Some (format_line process_id (map byte_val (bytes_of text)))).
  { intros text Hz Ha. apply line_of_message; assumption. }
  assert (Hdel : forall (cp : Z -> bool) (text : string),
             contains0 (bytes_of text) = false ->
             all_ascii (bytes_of text) = true ->
             (List.length (bytes_of text) <= 4000)%nat ->
             deliverable cp (msg text) = true).
  { intros cp text Hz Ha Hl. apply deliverable_message; assumption. }
  (* the first session *)
  destruct (capture_session "logfile1.txt" (msg "foo"%string)
              [msg "bar"%string; msg "baz"%string] m Hg Hd)
    as (m1 & Hrun1 & Hn1 & Htext1 & Hg1 & Hd1 & _).
  { intros cp. cbn [forallb].
    rewrite !Hdel by (vm_compute; first [reflexivity | lia]). reflexivity. }
  assert (Hfile1 : files m1 !! "logfile1.txt"%string
                   = Some (format_line process_id (of_ascii "foo")
                           ++ format_line process_id (of_ascii "bar")
                           ++ format_line process_id (of_ascii "baz"))).
  { apply log_text_lookup; [exact Hn1 | | apply format_line_nonempty].
    rewrite Htext1. unfold lines_of. cbn [flat_map].
    rewrite !Hline by (vm_compute; reflexivity).
    cbn [default]. rewrite app_nil_r. reflexivity. }
  (* the second session *)
  destruct (capture_session "logfile2.txt" (msg "hi"%string)
              [msg "there"%string; msg "world"%string; msg "!"%string]
              m1 Hg1 Hd1)
    as (m2 & Hrun2 & Hn2 & Htext2 & _ & _ & Hother2).
  { intros cp. cbn [forallb].
    rewrite !Hdel by (vm_compute; first [reflexivity | lia]). reflexivity. }
  exists m2. split; [| split].
  - unfold test, bind at 1.
    assert (E1 : explicit_form (PyBool true) "logfile1.txt"
                   (OutputDebugString process_id "foo"
                    ++ OutputDebugString process_id "bar"
                    ++ OutputDebugString process_id "baz") [] m
                 = Ok tt m1).
    { rewrite explicit_form_capture, (init_granted _ _ Hg). exact Hrun1. }
    rewrite E1.
    rewrite scoped_form_capture, (init_granted _ _ Hg1).
    change (OutputDebugString process_id "hi"
            ++ OutputDebugString process_id "there"
            ++ OutputDebugString process_id "world"
            ++ OutputDebugString process_id "!")
      with (map Meanwhile
              (flat_map output
                 [msg "hi"%string; msg "there"%string; msg "world"%string;
                  msg "!"%string])).
    rewrite with_stmt_meanwhile. exact Hrun2.
  - rewrite Hother2 by discriminate. exact Hfile1.
  - apply log_text_lookup; [exact Hn2 | | apply format_line_nonempty].
    rewrite Htext2. unfold lines_of. cbn [flat_map].
    rewrite !Hline by (vm_compute; reflexivity).
    cbn [default]. rewrite app_nil_r. reflexivity.
Qed.

Lemma test_writes_both_logs_witness :
  grants_all fresh_host = true
  /\ exists m',
       test (PyBool true) 1234 fresh_host = Ok tt m'
       /\ files m' !! "logfile1.txt"%string
          = Some (of_ascii "Process 1234: foo" ++ [10]
                  ++ of_ascii "Process 1234: bar" ++ [10]
                  ++ of_ascii "Process 1234: baz" ++ [10]).
Proof.
  assert (Hg : grants_all fresh_host = true) by (vm_compute; reflexivity).
  split; [exact Hg |].
  destruct (test_writes_both_logs 1234 fresh_host Hg
              ltac:(vm_compute; reflexivity)
              ltac:(change (2 ^ 32) with 4294967296; lia))
    as (m' & Hrun & Hf1 & _).
  exists m'. split; [exact Hrun |].
  etransitivity; [exact Hf1 | vm_compute; reflexivity].
Defined.

Lemma forms_without_capture
  (v : pyvalue) (name : string) (os : list occurrence) (m : machine) :
  eq_True v = false ->
  explicit_form v name (map Meanwhile os) [] m = Ok tt (elapse os m)
  /\ scoped_form v name (map Meanwhile os) [] m = Ok tt (elapse os m).
Proof.
  intros Hv.
  assert (Hmake : makeLogDbgView v name m = Ok LogDbgView_object m).
  { unfold makeLogDbgView. rewrite Hv. reflexivity. }
  split.
  - unfold explicit_form. unfold bind at 1. rewrite Hmake.
    unfold bind at 1. change (start LogDbgView_object m) with (Ok tt m).
    cbv iota beta. unfold bind at 1. rewrite exec_meanwhile. reflexivity.
  - unfold scoped_form. unfold bind at 1. rewrite Hmake.
    unfold with_stmt.
    change (__enter__ LogDbgView_object m) with (@Ok pyvalue PyNone m).
    cbv iota beta. rewrite exec_meanwhile. reflexivity.
Qed.

(** X15: [test] with a flag that does not compare equal to [True] (so also
    with a truthy flag such as 2) makes two [LogDbgView] objects, whose
    methods do nothing: it returns, and the machine is the one its seven
    calls of [OutputDebugString] alone leave, whoever listens.  On a machine
    where no capture thread runs, those calls create and write no file,
    change no attribute of a session, and the session code makes none of
    its own calls (no open, no event, no mapping, no thread start, no
    close). *)
Theorem test_without_capture
  (log_debug_strings : pyvalue) (process_id : Z) (m : machine) :
  eq_True log_debug_strings = false ->
  test log_debug_strings process_id m
  = Ok tt (elapse (test_outputs process_id) m)
  /\ (running (thread m) = false ->
      files (elapse (test_outputs process_id) m) = files m
      /\ log_file (elapse (test_outputs process_id) m) = log_file m
      /\ buffer (elapse (test_outputs process_id) m) = buffer m
      /\ thread (elapse (test_outputs process_id) m) = thread m
      /\ stop (elapse (test_outputs process_id) m) = stop m
      /\ calls (elapse (test_outputs process_id) m) = calls m).
Proof.
  intros Hv. split.
  - pose (msg := fun text : string =>
                   message process_id (bytes_of text ++ [x00])).
    set (os1 := flat_map output
                  [msg "foo"%string; msg "bar"%string; msg "baz"%string]).
    set (os2 := flat_map output
                  [msg "hi"%string; msg "there"%string; msg "world"%string;
                   msg "!"%string]).
    destruct (forms_without_capture log_debug_strings "logfile1.txt" os1 m Hv)
      as [E1 _].
    destruct (forms_without_capture log_debug_strings "logfile2.txt" os2
                (elapse os1 m) Hv) as [_ E2].
    change (test_outputs process_id) with (os1 ++ os2).
    rewrite elapse_app.
    unfold test, bind at 1.
    change (OutputDebugString process_id "foo"
            ++ OutputDebugString process_id "bar"
            ++ OutputDebugString process_id "baz")
      with (map Meanwhile os1).
    rewrite E1.
    change (OutputDebugString process_id "hi"
            ++ OutputDebugString process_id "there"
            ++ OutputDebugString process_id "world"
            ++ OutputDebugString process_id "!")
      with (map Meanwhile os2).
    exact E2.
  - intros Hr.
    destruct (elapse_idle (test_outputs process_id) m Hr)
      as (Hf & Ht & Hl & Hb & Hs & Hc).
    split; [exact Hf |]. split; [exact Hl |]. split; [exact Hb |].
    split; [exact Ht |]. split; [exact Hs | exact Hc].
Qed.

Lemma test_without_capture_witness :
  eq_True (PyInt 2) = false
  /\ test (PyInt 2) 1234 fresh_host
     = Ok tt (elapse (test_outputs 1234) fresh_host)
  /\ files (elapse (test_outputs 1234) fresh_host) = files fresh_host
  /\ calls (elapse (test_outputs 1234) fresh_host) = calls fresh_host.
Proof.
  assert (Hv : eq_True (PyInt 2) = false) by reflexivity.
  split; [exact Hv |].
  destruct (test_without_capture (PyInt 2) 1234 fresh_host Hv) as [Hrun Hidle].
  split; [exact Hrun |].
  destruct (Hidle eq_refl) as (Hf & _ & _ & _ & _ & Hc).
  split; [exact Hf | exact Hc].
Defined.

(** The calls of [OutputDebugString] are made all the same: where another
    process listens, the first message of [test] reaches its channel. *)
Example test_without_capture_reaches_a_listener :
  signaled H_DATA_READY foreign_listener = false
  /\ signaled H_DATA_READY
       (final (test (PyBool false) 1234 foreign_listener)) = true
  /\ option_map (firstn 8)
       (DBWIN_BUFFER (final (test (PyBool false) 1234 foreign_listener)))
     = Some (message 1234 (bytes_of "foo" ++ [x00]))
  /\ files (final (test (PyBool false) 1234 foreign_listener))
     = files foreign_listener.
Proof. vm_compute. repeat split; reflexivity. Qed.
